(** * ChemGraph evaluation scripts: a shallow embedding

    The repository is a set of Python scripts that drive an LLM agent and
    chemistry tools over a dataset and log the outcome as JSON.  This file
    embeds the control flow of those scripts: Python values are JSON values
    (dictionaries as finite maps), a Python call that may raise returns a
    [result], and the external collaborators (agent, chemistry tools, git,
    clock) are oracles passed to the functions that call them.

    Numbers are integers here: no property below depends on floating point
    arithmetic.  Calls to [print] have no effect on any value and are left
    out. *)

From stdpp Require Import gmap strings list fin_maps pretty.
From Stdlib Require Import ZArith QArith.

#[local] Set Warnings "-register-all,-clear-no-such-hyp".
#[local] Open Scope Z_scope.
#[local] Open Scope string_scope.

(** ** Python values *)

Module Py.

(** A JSON value, as [json.load] returns it and [json.dump] accepts it. *)
Inductive json : Type :=
  | JNull
  | JBool (b : bool)
  | JNum (z : Z)
  | JStr (s : string)
  | JList (l : list json)
  | JDict (m : gmap string json).

Fixpoint json_size (j : json) : nat :=
  match j with
  | JList l => S (foldr (λ x n, json_size x + n)%nat 0%nat l)
  | JDict m => S (map_fold (λ _ x n, json_size x + n)%nat 0%nat m)
  | _ => 1%nat
  end.

(** Difference of two dictionaries at one key: [Some ()] marks a key that is
    missing on one side or bound to different values. *)
Definition opt_diff (eqb : json → json → bool) (o1 o2 : option json)
    : option unit :=
  match o1, o2 with
  | Some a, Some b => if eqb a b then None else Some ()
  | None, None => None
  | _, _ => Some ()
  end.

(** Python's [==] on JSON values: sequences position by position,
    dictionaries key by key (the order of insertion plays no part). *)
Fixpoint deep_equal (a b : json) : bool :=
  match a, b with
  | JNull, JNull => true
  | JBool x, JBool y => bool_decide (x = y)
  | JNum x, JNum y => bool_decide (x = y)
  | JStr x, JStr y => bool_decide (x = y)
  | JList l1, JList l2 =>
      (fix go (l1 l2 : list json) : bool :=
         match l1, l2 with
         | [], [] => true
         | x :: l1', y :: l2' => deep_equal x y && go l1' l2'
         | _, _ => false
         end) l1 l2
  | JDict m1, JDict m2 => bool_decide (merge (opt_diff deep_equal) m1 m2 = ∅)
  | _, _ => false
  end.

(** [d[k] = v] on a value that is a dictionary. *)
Definition dict_set (k : string) (v : json) (d : json) : json :=
  match d with
  | JDict m => JDict (<[k:=v]> m)
  | _ => d
  end.

(** [d.get(k)] on a value that is a dictionary. *)
Definition dict_get (k : string) (d : json) : option json :=
  match d with
  | JDict m => m !! k
  | _ => None
  end.

(** [lst[:n]]: a negative bound counts from the end. *)
Definition slice_to {A} (n : Z) (l : list A) : list A :=
  if (0 <=? n)%Z then take (Z.to_nat n) l
  else take (length l - Z.to_nat (- n))%nat l.

(** The exception classes the scripts meet.  All of them derive from
    [Exception]; [OtherException] stands for any class not named here. *)
Inductive exn_class : Type :=
  | CalledProcessError
  | FileNotFoundError
  | KeyError
  | UnboundLocalError
  | ZeroDivisionError
  | OtherException.

#[global] Instance exn_class_eq_dec : EqDecision exn_class.
Proof. solve_decision. Defined.

(** An exception: its class and [str(e)]. *)
Record exn : Type := Exn { exn_cls : exn_class; exn_msg : string }.

(** Outcome of a call: a value, or an exception on its way up. *)
Inductive result (A : Type) : Type :=
  | Ok (a : A)
  | Raise (e : exn).
#[global] Arguments Ok {A} a.
#[global] Arguments Raise {A} e.

Definition bind {A B} (c : result A) (k : A → result B) : result B :=
  match c with
  | Ok a => k a
  | Raise e => Raise e
  end.

(** [try: c  except Exception as e: h e]. *)
Definition try_except {A} (c : result A) (h : exn → result A) : result A :=
  match c with
  | Ok a => Ok a
  | Raise e => h e
  end.

(** [try: c  except cls: h]: only exceptions of class [cls] are handled. *)
Definition try_except_class {A} (cls : exn_class) (c : result A)
    (h : exn → result A) : result A :=
  match c with
  | Ok a => Ok a
  | Raise e => if decide (exn_cls e = cls) then h e else Raise e
  end.

(** [d[k]] on a dictionary: [KeyError] when the key is absent. *)
Definition getitem {A} (m : gmap string A) (k : string) : result A :=
  match m !! k with
  | Some a => Ok a
  | None => Raise (Exn KeyError ("'" +:+ k +:+ "'"))
  end.

End Py.
Import Py.

Declare Scope result_scope.
Delimit Scope result_scope with result.
Notation "x <- c ;; k" := (bind c (λ x, k))
  (at level 100, c at next level, right associativity) : result_scope.

(** A state-and-exception monad for code that mutates a local object and may
    raise half way: the mutation made before the exception is kept. *)
Module StExn.

Definition M (St A : Type) : Type := St → result A * St.

Definition ret {St A} (a : A) : M St A := λ s, (Ok a, s).

Definition bind {St A B} (c : M St A) (k : A → M St B) : M St B :=
  λ s, match c s with
       | (Ok a, s') => k a s'
       | (Raise e, s') => (Raise e, s')
       end.

Definition lift {St A} (r : result A) : M St A := λ s, (r, s).

Definition modify {St} (f : St → St) : M St unit := λ s, (Ok (), f s).

End StExn.

Declare Scope stexn_scope.
Delimit Scope stexn_scope with stexn.
Notation "x <- c ;; k" := (StExn.bind c (λ x, k))
  (at level 100, c at next level, right associativity) : stexn_scope.

(** ** Tool calls and their comparison *)

Module ToolCallEval.

(** One recorded invocation: the tool's name and its keyword arguments. *)
Record ToolCall : Type := {
  name : string;
  arguments : gmap string json;
}.

(** Per-call entry of the detail payload. *)
Record CallDiff : Type := {
  expected : ToolCall;
  observed : option ToolCall;
  accurate : bool;
}.

Record EvaluationResult : Type := {
  n_toolcalls : nat;
  acc_n_toolcalls : nat;
  details : list CallDiff;
}.

(** Modelled from the spec: the accuracy test of one position of
    [multi_function_checker_with_order] (module [chemgraph.utils.tool_call_eval]
    is not among the sources).  A call is accurate when its name is the
    expected name and its arguments are equal to the expected ones under the
    deep structural comparison. *)
Definition call_accurate (obs exp : ToolCall) : bool :=
  bool_decide (name obs = name exp)
  && deep_equal (JDict (arguments obs)) (JDict (arguments exp)).

(** Modelled from the spec: index alignment of
    [multi_function_checker_with_order].  Position [i] of the observed
    sequence is compared with position [i] of the expected one; an expected
    position with no observed call is scored inaccurate. *)
Fixpoint align (model_outputs answers : list ToolCall) : list CallDiff :=
  match answers with
  | [] => []
  | e :: answers' =>
      match model_outputs with
      | [] =>
          {| expected := e; observed := None; accurate := false |}
          :: align [] answers'
      | o :: outputs' =>
          {| expected := e; observed := Some o; accurate := call_accurate o e |}
          :: align outputs' answers'
      end
  end.

(** Modelled from the spec: [multi_function_checker_with_order] of
    [chemgraph.utils.tool_call_eval], which is not among the sources.  Its
    output is the number of expected calls, the number of accurate positions
    and the per-call details.  The spec gives the schema descriptors as an
    input and no rule by which they change a verdict. *)
Definition multi_function_checker_with_order {Schema : Type}
    (func_descriptions : list Schema)
    (model_outputs answers : list ToolCall) : EvaluationResult :=
  let details := align model_outputs answers in
  {| n_toolcalls := length answers;
     acc_n_toolcalls := length (filter (λ d, accurate d = true) details);
     details := details |}.

(** The observed sequence obtained from [calls] by exchanging the calls at
    positions [i] and [j]. *)
Definition swap_calls (i j : nat) (calls : list ToolCall) : list ToolCall :=
  match calls !! i, calls !! j with
  | Some a, Some b => <[i:=b]> (<[j:=a]> calls)
  | _, _ => calls
  end.

End ToolCallEval.

(** ** [scripts/evaluations/mock_llm/mock_eval.py] *)

Module MockEval.
Import ToolCallEval.

(** An item of the ground-truth file: [item["query"]] and, when present,
    [item["answer"]["tool_calls"]]. *)
Record Query : Type := {
  query : string;
  answer_tool_calls : option (list ToolCall);
}.

(** What [get_workflow_from_state] returns, as far as [evaluate_model] reads
    it: the entry ["tool_calls"], when present. *)
Record LLMWorkflow : Type := {
  tool_calls : option (list ToolCall);
}.

Section EvaluateModel.
Context {State Schema : Type}.
(** [cg.run(query, {"configurable": {"thread_id": str(idx)}})]. *)
Variable cg_run : string → nat → result State.
Variable get_workflow_from_state : State → result LLMWorkflow.
(** [convert_to_openai_function] over the tool set. *)
Variable func_descriptions : list Schema.

(** First loop: run every query and collect the workflows. *)
Fixpoint collect_tool_calls (idx : nat) (items : list Query)
    (llm_tool_calls : list LLMWorkflow) : result (list LLMWorkflow) :=
  match items with
  | [] => Ok llm_tool_calls
  | item :: rest =>
      (state <- cg_run (query item) idx ;;
       llm_tool_call <- get_workflow_from_state state ;;
       collect_tool_calls (S idx) rest (llm_tool_calls ++ [llm_tool_call]))%result
  end.

(** Body of the evaluation loop at index [idx]. *)
Definition evaluation_step (list_of_queries : list Query) (idx : nat)
    (toolcall : LLMWorkflow)
    (acc : nat * gmap string EvaluationResult)
    : result (nat * gmap string EvaluationResult) :=
  let '(accurate_tool_call, eval_details) := acc in
  let model_outputs := default [] (tool_calls toolcall) in
  match list_of_queries !! idx with
  | None => Raise (Exn OtherException "list index out of range")
  | Some q =>
      let answers := default [] (answer_tool_calls q) in
      let eval_result :=
        multi_function_checker_with_order func_descriptions model_outputs answers in
      let accurate_tool_call :=
        if decide (acc_n_toolcalls eval_result = n_toolcalls eval_result)
        then S accurate_tool_call else accurate_tool_call in
      Ok (accurate_tool_call, <[query q := eval_result]> eval_details)
  end.

Fixpoint evaluation_loop (list_of_queries : list Query) (idx : nat)
    (llm_tool_calls : list LLMWorkflow)
    (acc : nat * gmap string EvaluationResult)
    : result (nat * gmap string EvaluationResult) :=
  match llm_tool_calls with
  | [] => Ok acc
  | toolcall :: rest =>
      (acc' <- evaluation_step list_of_queries idx toolcall acc ;;
       evaluation_loop list_of_queries (S idx) rest acc')%result
  end.

(** [a / n * 100] with Python's true division. *)
Definition percentage (a n : nat) : result Q :=
  if decide (n = 0%nat) then Raise (Exn ZeroDivisionError "division by zero")
  else Ok (inject_Z (Z.of_nat a) / inject_Z (Z.of_nat n) * 100)%Q.

Definition evaluate_model (list_of_queries : list Query) : result Q :=
  (llm_tool_calls <- collect_tool_calls 0 list_of_queries [] ;;
   acc <- evaluation_loop list_of_queries 0 llm_tool_calls (0%nat, ∅) ;;
   let '(accurate_tool_call, eval_details) := acc in
   percentage accurate_tool_call (length llm_tool_calls))%result.

End EvaluateModel.

End MockEval.

(** ** The chemistry tools and the objects they exchange *)

Module Chem.

(** An [AtomsData] object, seen through [model_dump()]. *)
Record AtomsData : Type := { model_dump : json }.

(** The dictionary [input_dict] the workflow functions build. *)
Record InputDict : Type := {
  atomsdata : AtomsData;
  driver : string;
  calculator : gmap string json;
  temperature : option Z;
}.

(** A validated [ASEInputSchema] object. *)
Record ASEInputSchema : Type := { schema_fields : InputDict }.

(** The part of the output of [run_ase] that the scripts read. *)
Record ASEOutput : Type := {
  final_structure : AtomsData;
  thermochemistry : gmap string Z;
  vibrational_frequencies : gmap string json;
}.

(** The library calls of the manual workflows.  Each may raise. *)
Record Tools : Type := {
  molecule_name_to_smiles : string → result string;
  smiles_to_atomsdata : string → result AtomsData;
  ase_input_schema : InputDict → result ASEInputSchema;
  run_ase : ASEInputSchema → result ASEOutput;
  os_makedirs : string → result unit;
  save_atomsdata_to_file : json → string → result json;
}.

(** The local dictionary [workflow] of a workflow function. *)
Record Workflow : Type := { tool_calls : list json; result : json }.

Definition workflow_json (w : Workflow) : json :=
  JDict {[ "tool_calls" := JList (tool_calls w); "result" := result w ]}.

(** [workflow["tool_calls"].append(c)] and [.extend(cs)]. *)
Definition extend_calls (cs : list json) (w : Workflow) : Workflow :=
  {| tool_calls := tool_calls w ++ cs; result := result w |}.

(** [workflow["result"] = r]. *)
Definition set_result (r : json) (w : Workflow) : Workflow :=
  {| tool_calls := tool_calls w; result := r |}.

(** The log entry [{tool: args}]. *)
Definition call (tool : string) (args : gmap string json) : json :=
  JDict {[ tool := JDict args ]}.

(** [input_dict] once its ["atomsdata"] entry holds the dumped value. *)
Definition input_dict_json (d : InputDict) : json :=
  let base : gmap string json :=
    {[ "atomsdata" := model_dump (atomsdata d);
       "driver" := JStr (driver d);
       "calculator" := JDict (calculator d) ]} in
  JDict match temperature d with
        | Some t => <["temperature" := JNum t]> base
        | None => base
        end.

(** The three entries logged for a calculation on a named molecule. *)
Definition ase_calls (name smiles : string) (input_dict : InputDict) : list json :=
  [ call "molecule_name_to_smiles" {[ "name" := JStr name ]};
    call "smiles_to_atomsdata" {[ "smiles" := JStr smiles ]};
    call "run_ase" {[ "params" := input_dict_json input_dict ]} ].

(** The conversions of a molecule name, to SMILES and then to atoms data,
    raise [e]. *)
Inductive conversion_raises (tools : Tools) (name : string) (e : exn) : Prop :=
  | name_to_smiles_raises :
      molecule_name_to_smiles tools name = Raise e →
      conversion_raises tools name e
  | smiles_to_atomsdata_raises (smiles : string) :
      molecule_name_to_smiles tools name = Ok smiles →
      smiles_to_atomsdata tools smiles = Raise e →
      conversion_raises tools name e.

(** Both conversions succeed. *)
Definition converts (tools : Tools) (name smiles : string)
    (atomsdata : AtomsData) : Prop :=
  molecule_name_to_smiles tools name = Ok smiles
  ∧ smiles_to_atomsdata tools smiles = Ok atomsdata.

(** The calculation on [input_dict], validation and then [run_ase], raises
    [e]. *)
Inductive calculation_raises (tools : Tools) (input_dict : InputDict)
    (e : exn) : Prop :=
  | schema_raises :
      ase_input_schema tools input_dict = Raise e →
      calculation_raises tools input_dict e
  | run_ase_raises (params : ASEInputSchema) :
      ase_input_schema tools input_dict = Ok params →
      run_ase tools params = Raise e →
      calculation_raises tools input_dict e.

(** [os.path.join(a, b)] on POSIX paths. *)
Definition os_path_join (a b : string) : string :=
  let slash := Ascii.ascii_of_nat 47 in
  if decide (head (String.list_ascii_of_string b) = Some slash) then b
  else if decide (a = "") then b
  else if decide (last (String.list_ascii_of_string a) = Some slash)
  then a +:+ b
  else a +:+ "/" +:+ b.

(** The metadata block that both manual-workflow scripts run for each item:
    the time stamp, then [git rev-parse HEAD] under
    [except subprocess.CalledProcessError]. *)
Definition collect_metadata (now : nat → string)
    (git_rev_parse : nat → Py.result string) (idx : nat) : Py.result json :=
  let timestamp := now idx in
  (git_commit <- try_except_class CalledProcessError (git_rev_parse idx)
                   (λ _, Ok "unknown") ;;
   Ok (JDict {[ "timestamp" := JStr timestamp;
                "git_commit" := JStr git_commit ]}))%result.

End Chem.

(** ** [generate_evaluation_data/Exp12/run_manual_workflow.py] *)

Module Exp12.
Import Chem.

Record Species : Type := { name : string; coefficient : Z }.

Record Reaction : Type := {
  reaction_name : string;
  reactants : list Species;
  products : list Species;
}.

Section ManualWorkflow.
Variable tools : Tools.

Section GetManualWorkflowResult.
Context (prop : string) (temperature : Z) (calculator : gmap string json).

(** Body of the loop of [process_species], on the shared [workflow]. *)
Definition process_one (sign : Z) (species : Species) (total : Z)
    : StExn.M Workflow Z :=
  (let name := name species in
   let coeff := coefficient species in
   smiles <- StExn.lift (molecule_name_to_smiles tools name) ;;
   atomsdata <- StExn.lift (smiles_to_atomsdata tools smiles) ;;
   let input_dict :=
     {| Chem.atomsdata := atomsdata; driver := "thermo";
        Chem.calculator := calculator;
        Chem.temperature := Some temperature |} in
   params <- StExn.lift (ase_input_schema tools input_dict) ;;
   aseoutput <- StExn.lift (run_ase tools params) ;;
   _ <- StExn.modify (extend_calls (ase_calls name smiles input_dict)) ;;
   h <- StExn.lift (getitem (thermochemistry aseoutput) prop) ;;
   StExn.ret (total + sign * h * coeff))%stexn.

Fixpoint process_species_from (total : Z) (species_list : list Species)
    (sign : Z) : StExn.M Workflow Z :=
  match species_list with
  | [] => StExn.ret total
  | species :: rest =>
      (total' <- process_one sign species total ;;
       process_species_from total' rest sign)%stexn
  end.

Definition process_species (species_list : list Species) (sign : Z)
    : StExn.M Workflow Z :=
  process_species_from 0 species_list sign.

(** [input_dict] as [process_species] builds it. *)
Definition thermo_input (atomsdata : AtomsData) : InputDict :=
  {| Chem.atomsdata := atomsdata; driver := "thermo";
     Chem.calculator := calculator; Chem.temperature := Some temperature |}.

(** One of the calls that [process_species] makes for [species] raises [e]:
    a conversion, the calculation, or the lookup of [prop] in the
    thermochemistry of the output. *)
Inductive species_raises (species : Species) (e : exn) : Prop :=
  | conversion_fails :
      conversion_raises tools (name species) e → species_raises species e
  | calculation_fails (smiles : string) (atomsdata : AtomsData) :
      converts tools (name species) smiles atomsdata →
      calculation_raises tools (thermo_input atomsdata) e →
      species_raises species e
  | property_missing (smiles : string) (atomsdata : AtomsData)
      (params : ASEInputSchema) (aseoutput : ASEOutput) :
      converts tools (name species) smiles atomsdata →
      ase_input_schema tools (thermo_input atomsdata) = Ok params →
      run_ase tools params = Ok aseoutput →
      getitem (thermochemistry aseoutput) prop = Raise e →
      species_raises species e.

(** The [try] block of [get_manual_workflow_result]. *)
Definition try_block (reaction : Reaction) : StExn.M Workflow Z :=
  (let result := 0 in
   r <- process_species (reactants reaction) (-1) ;;
   let result := result + r in
   p <- process_species (products reaction) 1 ;;
   let result := result + p in
   StExn.ret result)%stexn.

(** [workflow["result"]["value"] = v]. *)
Definition set_value (v : json) (w : Workflow) : Workflow :=
  set_result (dict_set "value" v (result w)) w.

Definition get_manual_workflow_result (reaction : Reaction) : Py.result json :=
  let workflow :=
    {| tool_calls := [];
       result := JDict {[ "value" := JNum 0; "property" := JStr prop;
                          "unit" := JStr "eV" ]} |} in
  match try_block reaction workflow with
  | (Ok result, workflow) =>
      Ok (workflow_json (set_value (JNum result) workflow))
  | (Raise e, workflow) =>
      Ok (workflow_json (set_value (JStr ("ERROR - " +:+ exn_msg e)) workflow))
  end.

End GetManualWorkflowResult.

Variable now : nat → string.
Variable git_rev_parse : nat → Py.result string.

(** Body of the loop of [main]. *)
Definition main_body (idx : nat) (reaction : Reaction)
    (combined_data : gmap string json) : Py.result (gmap string json) :=
  let name := reaction_name reaction in
  let calculator : gmap string json :=
    {[ "calculator_type" := JStr "TBLite"; "method" := JStr "GFN2-xTB" ]} in
  (manual_workflow <- get_manual_workflow_result "enthalpy" 400 calculator reaction ;;
   let combined_data :=
     <[name := JDict {[ "manual_workflow" := manual_workflow ]}]> combined_data in
   metadata <- collect_metadata now git_rev_parse idx ;;
   Ok (alter (dict_set "metadata" metadata) name combined_data))%result.

Fixpoint main_loop (idx : nat) (items : list Reaction)
    (combined_data : gmap string json) : Py.result (gmap string json) :=
  match items with
  | [] => Ok combined_data
  | reaction :: rest =>
      (combined_data <- main_body idx reaction combined_data ;;
       main_loop (S idx) rest combined_data)%result
  end.

(** [main]: the dictionary handed to [json.dump], or the exception that
    ended the run before anything was written. *)
Definition main (reactions : list Reaction) (n_reactions : Z)
    : Py.result (gmap string json) :=
  main_loop 0 (slice_to n_reactions reactions) ∅.

End ManualWorkflow.
End Exp12.

(** ** [generate_evaluation_data/Exp6/run_manual_workflow.py] *)

Module Exp6.
Import Chem.

(** An item of the molecule dataset. *)
Record Molecule : Type := { name : string; smiles : string }.

Section ManualWorkflow.
Variable tools : Tools.

(** The [except] branch has no [return]: the function ends and yields
    [None]. *)
Definition get_smiles_from_molecule_name (name : string) : Py.result json :=
  let workflow := {| tool_calls := []; result := JNull |} in
  try_except
    (result <- molecule_name_to_smiles tools name ;;
     let workflow :=
       extend_calls [call "molecule_name_to_smiles" {[ "name" := JStr name ]}]
         workflow in
     let workflow := set_result (JStr result) workflow in
     Ok (workflow_json workflow))%result
    (λ e,
     let workflow :=
       extend_calls [call "molecule_name_to_smiles" {[ "name" := JStr name ]}]
         workflow in
     let workflow := set_result (JStr ("ERROR - " +:+ exn_msg e)) workflow in
     Ok JNull).

Definition get_atomsdata_from_molecule_name (name : string) : Py.result json :=
  let workflow := {| tool_calls := []; result := JNull |} in
  try_except
    (smiles <- molecule_name_to_smiles tools name ;;
     result <- smiles_to_atomsdata tools smiles ;;
     let workflow :=
       extend_calls [call "molecule_name_to_smiles" {[ "name" := JStr name ]}]
         workflow in
     let workflow :=
       extend_calls [call "smiles_to_atomsdata" {[ "smiles" := JStr smiles ]}]
         workflow in
     let workflow := set_result (model_dump result) workflow in
     Ok (workflow_json workflow))%result
    (λ e, Ok (JStr ("Error message: " +:+ exn_msg e))).

(** The two conversions come before the [try] statement. *)
Definition get_geometry_optimization_from_molecule_name (name : string)
    (calculator : gmap string json) : Py.result json :=
  let workflow := {| tool_calls := []; result := JNull |} in
  (smiles <- molecule_name_to_smiles tools name ;;
   atomsdata <- smiles_to_atomsdata tools smiles ;;
   let input_dict :=
     {| Chem.atomsdata := atomsdata; driver := "opt";
        Chem.calculator := calculator; temperature := None |} in
   try_except
     (params <- ase_input_schema tools input_dict ;;
      aseoutput <- run_ase tools params ;;
      let result := model_dump (final_structure aseoutput) in
      let workflow := extend_calls (ase_calls name smiles input_dict) workflow in
      let workflow := set_result result workflow in
      Ok (workflow_json workflow))
     (λ e, Ok (JStr ("Error message: " +:+ exn_msg e))))%result.

Definition get_vibrational_frequencies_from_molecule_name (name : string)
    (calculator : gmap string json) : Py.result json :=
  let workflow := {| tool_calls := []; result := JDict ∅ |} in
  (smiles <- molecule_name_to_smiles tools name ;;
   atomsdata <- smiles_to_atomsdata tools smiles ;;
   let input_dict :=
     {| Chem.atomsdata := atomsdata; driver := "vib";
        Chem.calculator := calculator; temperature := None |} in
   try_except
     (params <- ase_input_schema tools input_dict ;;
      aseoutput <- run_ase tools params ;;
      result <- getitem (vibrational_frequencies aseoutput) "frequencies" ;;
      let workflow := extend_calls (ase_calls name smiles input_dict) workflow in
      let workflow :=
        set_result (dict_set "frequency_cm1" result (Chem.result workflow))
          workflow in
      Ok (workflow_json workflow))
     (λ e, Ok (JStr ("Error message: " +:+ exn_msg e))))%result.

Definition get_gibbs_energy_from_molecule_name (name : string)
    (calculator : gmap string json) (temperature : Z) : Py.result json :=
  let workflow := {| tool_calls := []; result := JDict ∅ |} in
  (smiles <- molecule_name_to_smiles tools name ;;
   atomsdata <- smiles_to_atomsdata tools smiles ;;
   let input_dict :=
     {| Chem.atomsdata := atomsdata; driver := "thermo";
        Chem.calculator := calculator;
        Chem.temperature := Some temperature |} in
   try_except
     (params <- ase_input_schema tools input_dict ;;
      aseoutput <- run_ase tools params ;;
      result <- getitem (thermochemistry aseoutput) "gibbs_free_energy" ;;
      let workflow := extend_calls (ase_calls name smiles input_dict) workflow in
      let workflow :=
        set_result
          (dict_set "unit" (JStr "eV")
             (dict_set "property" (JStr "Gibbs free energy")
                (dict_set "value" (JNum result) (Chem.result workflow))))
          workflow in
      Ok (workflow_json workflow))
     (λ e,
      let workflow := extend_calls (ase_calls name smiles input_dict) workflow in
      let workflow := set_result (JStr ("ERROR - " +:+ exn_msg e)) workflow in
      Ok (workflow_json workflow)))%result.

Definition get_saved_file_from_molecule_name (name : string)
    (calculator : gmap string json) (output_path : string) : Py.result json :=
  let workflow := {| tool_calls := []; result := JNull |} in
  (smiles <- molecule_name_to_smiles tools name ;;
   atomsdata <- smiles_to_atomsdata tools smiles ;;
   let input_dict :=
     {| Chem.atomsdata := atomsdata; driver := "opt";
        Chem.calculator := calculator; temperature := None |} in
   try_except
     (params <- ase_input_schema tools input_dict ;;
      aseoutput <- run_ase tools params ;;
      _ <- os_makedirs tools output_path ;;
      let opt_atomsdata := model_dump (final_structure aseoutput) in
      let filepath := os_path_join output_path (name +:+ ".xyz") in
      result <- save_atomsdata_to_file tools opt_atomsdata filepath ;;
      let workflow := extend_calls (ase_calls name smiles input_dict) workflow in
      let workflow :=
        extend_calls
          [call "save_atomsdata_to_file"
             {[ "atomsdata" := opt_atomsdata; "fname" := JStr filepath ]}]
          workflow in
      let workflow := set_result result workflow in
      Ok (workflow_json workflow))
     (λ e, Ok (JStr ("Error message: " +:+ exn_msg e))))%result.

Variable now : nat → string.
Variable git_rev_parse : nat → Py.result string.

(** Body of the loop of [main]; [continue] leaves [combined_data] as it
    was. *)
Definition main_body (idx : nat) (molecule : Molecule)
    (combined_data : gmap string json) : Py.result (gmap string json) :=
  let name := name molecule in
  match
    get_saved_file_from_molecule_name name
      {[ "calculator_type" := JStr "mace_mp" ]} "manual_files"
  with
  | Raise e => Ok combined_data
  | Ok manual_workflow =>
      let combined_data :=
        <[name := JDict {[ "manual_workflow" := manual_workflow ]}]>
          combined_data in
      (metadata <- collect_metadata now git_rev_parse idx ;;
       Ok (alter (dict_set "metadata" metadata) name combined_data))%result
  end.

Fixpoint main_loop (idx : nat) (items : list Molecule)
    (combined_data : gmap string json) : Py.result (gmap string json) :=
  match items with
  | [] => Ok combined_data
  | molecule :: rest =>
      (combined_data <- main_body idx molecule combined_data ;;
       main_loop (S idx) rest combined_data)%result
  end.

Definition main (smiles_data : list Molecule) (n_structures : Z)
    : Py.result (gmap string json) :=
  main_loop 0 (slice_to n_structures smiles_data) ∅.

End ManualWorkflow.
End Exp6.

(** ** The LLM agent *)

Module Agent.

(** The [ChemGraph] object as the scripts use it, with
    [get_workflow_from_state] of [chemgraph.utils].  The second argument of
    [run] and the argument of [write_state] is the index that the script
    turns into the thread id. *)
Record ChemGraph (State : Type) : Type := {
  run : string → nat → Py.result State;
  write_state : nat → Py.result json;
  get_workflow_from_state : State → Py.result json;
}.
#[global] Arguments run {State} _ _ _.
#[global] Arguments write_state {State} _ _.
#[global] Arguments get_workflow_from_state {State} _ _.

(** One of the three calls the scripts make for an item, [run], then
    [get_workflow_from_state], then [write_state], raises [e]. *)
Inductive item_raises {State} (cca : ChemGraph State) (query : string)
    (idx : nat) (e : exn) : Prop :=
  | run_raises : run cca query idx = Raise e → item_raises cca query idx e
  | get_workflow_raises (state : State) :
      run cca query idx = Ok state →
      get_workflow_from_state cca state = Raise e →
      item_raises cca query idx e
  | write_state_raises (state : State) (llm_workflow : json) :
      run cca query idx = Ok state →
      get_workflow_from_state cca state = Ok llm_workflow →
      write_state cca idx = Raise e →
      item_raises cca query idx e.

(** The three calls go through. *)
Definition item_succeeds {State} (cca : ChemGraph State) (query : string)
    (idx : nat) (llm_workflow state_data : json) : Prop :=
  ∃ state,
    run cca query idx = Ok state
    ∧ get_workflow_from_state cca state = Ok llm_workflow
    ∧ write_state cca idx = Ok state_data.

(** [sep.join(parts)]. *)
Fixpoint join (sep : string) (parts : list string) : string :=
  match parts with
  | [] => ""
  | [p] => p
  | p :: rest => p +:+ sep +:+ join sep rest
  end.

End Agent.

(** ** [run_llm_workflow/Exp3_from_name_to_opt/run_llm_workflow.py] *)

Module Exp3.
Import Agent.

Definition query_dict (name method : string) : gmap string string :=
  {[ "name_to_coord" :=
       "Provide the XYZ coordinates corresponding to this molecule: " +:+ name;
     "name_to_opt" :=
       "Perform geometry optimization for a molecule " +:+ name
       +:+ " using NWChem, PBE and sto-3g";
     "name_to_vib" :=
       "Run vibrational frequency calculation for a molecule " +:+ name
       +:+ " using " +:+ method;
     "name_to_enthalpy" :=
       "Calculate the enthalpy of a molecule " +:+ name +:+ " using " +:+ method;
     "name_to_gibbs" :=
       "Calculate the Gibbs free energy of a molecule " +:+ name +:+ " using "
       +:+ method +:+ " potential at a temperature of 400K";
     "name_to_opt_file" :=
       "Perform geometry optimization for a molecule " +:+ name +:+ " using "
       +:+ method +:+ ". Save the optimized coordinate in an XYZ file." ]}.

Definition get_query (name query_name method : string) : Py.result string :=
  Ok (default "Query not found" (query_dict name method !! query_name)).

Section Main.
Context {State : Type} (cca : ChemGraph State).

(** Body of the loop of [main]: the whole of the agent's work on an item is
    inside the [try]. *)
Definition main_body (idx : nat) (molecule : Exp6.Molecule)
    (combined_data : gmap string json) : Py.result (gmap string json) :=
  let name := Exp6.name molecule in
  (query <- get_query name "name_to_opt" "mace_mp" ;;
   try_except
     (state <- run cca query idx ;;
      llm_workflow <- get_workflow_from_state cca state ;;
      state_data <- write_state cca idx ;;
      let combined_data :=
        <[name := JDict {[ "llm_workflow" := llm_workflow ]}]> combined_data in
      Ok (alter (dict_set "metadata" state_data) name combined_data))
     (λ e,
      Ok (<[name :=
              JDict {[ "llm_workflow" :=
                JDict {[ "result" :=
                           JStr ("Error with running LLM: " +:+ exn_msg e);
                         "tool_calls" := JList [] ]} ]}]> combined_data)))%result.

Fixpoint main_loop (idx : nat) (items : list Exp6.Molecule)
    (combined_data : gmap string json) : Py.result (gmap string json) :=
  match items with
  | [] => Ok combined_data
  | molecule :: rest =>
      (combined_data <- main_body idx molecule combined_data ;;
       main_loop (S idx) rest combined_data)%result
  end.

Definition main (smiles_data : list Exp6.Molecule) (n_structures : Z)
    : Py.result (gmap string json) :=
  main_loop 0 (slice_to n_structures smiles_data) ∅.

End Main.
End Exp3.

(** ** [run_llm_workflow/Exp8_from_smiles_to_opt/run_llm_workflow.py] *)

Module Exp8.
Import Agent.

Definition query_dict (smiles method : string) : gmap string string :=
  {[ "smiles_to_coord" :=
       "Provide the XYZ coordinates corresponding to this SMILES string: "
       +:+ smiles;
     "smiles_to_opt" :=
       "Perform geometry optimization for this SMILES string " +:+ smiles
       +:+ " using NWChem, B3LYP and sto-3g";
     "smiles_to_vib" :=
       "Run vibrational frequency calculation for this SMILES string "
       +:+ smiles +:+ " using " +:+ method;
     "smiles_to_enthalpy" :=
       "Calculate the enthalpy of this SMILES string " +:+ smiles +:+ " using "
       +:+ method;
     "smiles_to_gibbs" :=
       "Calculate the Gibbs free energy of this SMILES string " +:+ smiles
       +:+ " using " +:+ method +:+ " at T=400K";
     "smiles_to_opt_file" :=
       "Perform geometry optimization for this SMILES string " +:+ smiles
       +:+ " using " +:+ method
       +:+ ". Save the optimized coordinate in an XYZ file." ]}.

Definition get_query (smiles query_name method : string) : Py.result string :=
  Ok (default "Query not found" (query_dict smiles method !! query_name)).

Section Main.
Context {State : Type} (cca : ChemGraph State).

(** Body of the loop of [main]: no [try] statement. *)
Definition main_body (idx : nat) (molecule : Exp6.Molecule)
    (combined_data : gmap string json) : Py.result (gmap string json) :=
  let smiles := Exp6.smiles molecule in
  (query <- get_query smiles "smiles_to_opt" "mace_mp" ;;
   state <- run cca query idx ;;
   llm_workflow <- get_workflow_from_state cca state ;;
   state_data <- write_state cca idx ;;
   let combined_data :=
     <[smiles := JDict {[ "llm_workflow" := llm_workflow ]}]> combined_data in
   Ok (alter (dict_set "metadata" state_data) smiles combined_data))%result.

Fixpoint main_loop (idx : nat) (items : list Exp6.Molecule)
    (combined_data : gmap string json) : Py.result (gmap string json) :=
  match items with
  | [] => Ok combined_data
  | molecule :: rest =>
      (combined_data <- main_body idx molecule combined_data ;;
       main_loop (S idx) rest combined_data)%result
  end.

Definition main (smiles_data : list Exp6.Molecule) (n_structures : Z)
    : Py.result (gmap string json) :=
  main_loop 0 (slice_to n_structures smiles_data) ∅.

End Main.
End Exp8.

(** ** [run_llm_workflow/Exp14_from_reaction_to_enthalpy_multiagent/run_llm_workflow.py] *)

Module Exp14.
Import Agent.

(** [f"{r['coefficient']} ({r['name']})"]. *)
Definition species_str (r : Exp12.Species) : string :=
  pretty (Exp12.coefficient r) +:+ " (" +:+ Exp12.name r +:+ ")".

Definition reaction_equation (reaction : Exp12.Reaction) : string :=
  let reactants_str := join " + " (species_str <$> Exp12.reactants reaction) in
  let products_str := join " + " (species_str <$> Exp12.products reaction) in
  reactants_str +:+ " -> " +:+ products_str.

Definition query_dict (reaction_equation : string) (temperature : Z)
    (method : string) : gmap string string :=
  {[ "enthalpy" :=
       "Calculate the reaction enthalpy for this reaction: "
       +:+ reaction_equation;
     "enthalpy_method" :=
       "You are given a chemical reaction: " +:+ reaction_equation
       +:+ ". Calculate the enthalpy for this reaction using " +:+ method
       +:+ " at " +:+ pretty temperature +:+ "K.";
     "gibbs_free_energy" :=
       "What is the Gibbs free energy of reaction for " +:+ reaction_equation
       +:+ "?";
     "gibbs_free_energy_method" :=
       "What is the Gibbs free energy of reaction for " +:+ reaction_equation
       +:+ " using " +:+ method +:+ "?";
     "gibbs_free_energy_method_temperature" :=
       "What is the Gibbs free energy of reaction for " +:+ reaction_equation
       +:+ " using " +:+ method +:+ " at " +:+ pretty temperature +:+ "K?" ]}.

(** [reaction] is an item of the reaction dataset, whose species carry a
    name and a coefficient. *)
Definition get_query (reaction : Exp12.Reaction) (query_name : string)
    (temperature pressure : Z) (method : string) : Py.result string :=
  let reaction_equation := reaction_equation reaction in
  Ok (default "Query not found"
        (query_dict reaction_equation temperature method !! query_name)).

Section Main.
Context {State : Type} (cca : ChemGraph State).

(** Body of the loop of [main].  The local variable [state] lives across
    iterations: [None] while it has never been assigned.  Only the call of
    [run] is inside the [try]. *)
Definition main_body (idx : nat) (reaction : Exp12.Reaction)
    (locals : option State * gmap string json)
    : Py.result (option State * gmap string json) :=
  let '(state, combined_data) := locals in
  let name := Exp12.reaction_name reaction in
  (query <- get_query reaction "enthalpy_method" 400 101325 "GFN2-xTB" ;;
   let state :=
     match run cca query idx with
     | Ok s => Some s
     | Raise e => state
     end in
   match state with
   | None =>
       Raise (Exn UnboundLocalError
                "cannot access local variable 'state' where it is not associated with a value")
   | Some s =>
       llm_workflow <- get_workflow_from_state cca s ;;
       state_data <- write_state cca idx ;;
       let combined_data :=
         <[name := JDict {[ "llm_workflow" := llm_workflow ]}]> combined_data in
       Ok (Some s, alter (dict_set "metadata" state_data) name combined_data)
   end)%result.

Fixpoint main_loop (idx : nat) (items : list Exp12.Reaction)
    (locals : option State * gmap string json)
    : Py.result (option State * gmap string json) :=
  match items with
  | [] => Ok locals
  | reaction :: rest =>
      (locals <- main_body idx reaction locals ;;
       main_loop (S idx) rest locals)%result
  end.

Definition main (reactions : list Exp12.Reaction) (n_reactions : Z)
    : Py.result (gmap string json) :=
  (locals <- main_loop 0 (slice_to n_reactions reactions) (None, ∅) ;;
   Ok locals.2)%result.

End Main.
End Exp14.

(** ** Shape of the entries of the output *)

Module Output.

(** [{"timestamp": ts, "git_commit": gc}]. *)
Definition metadata (timestamp git_commit : string) : json :=
  JDict {[ "timestamp" := JStr timestamp; "git_commit" := JStr git_commit ]}.

(** An entry of a manual-workflow script:
    [{"manual_workflow": ..., "metadata": {"timestamp": ..., "git_commit": ...}}]. *)
Definition manual_entry (v : json) : Prop :=
  ∃ manual_workflow timestamp git_commit,
    v = JDict {[ "manual_workflow" := manual_workflow;
                 "metadata" := metadata timestamp git_commit ]}.

(** An entry of an LLM script for an item that went through: the workflow
    and, as metadata, what [write_state] returned. *)
Definition llm_entry {State} (cca : Agent.ChemGraph State) (v : json) : Prop :=
  ∃ llm_workflow idx state_data,
    Agent.write_state cca idx = Ok state_data
    ∧ v = JDict {[ "llm_workflow" := llm_workflow; "metadata" := state_data ]}.

(** The entry that Exp3 writes for an item whose processing raised. *)
Definition llm_error_entry (v : json) : Prop :=
  ∃ message,
    v = JDict {[ "llm_workflow" :=
                   JDict {[ "result" :=
                              JStr ("Error with running LLM: " +:+ message);
                            "tool_calls" := JList [] ]} ]}.

End Output.

(** ** Sample collaborators and datasets *)

Module Samples.
Import Chem.

Definition water_call : ToolCallEval.ToolCall :=
  {| ToolCallEval.name := "molecule_name_to_smiles";
     ToolCallEval.arguments := {[ "name" := JStr "water" ]} |}.

Definition atoms_call : ToolCallEval.ToolCall :=
  {| ToolCallEval.name := "smiles_to_atomsdata";
     ToolCallEval.arguments := {[ "smiles" := JStr "O" ]} |}.

(** The expected sequence of the end-to-end scenario. *)
Definition water_answers : list ToolCallEval.ToolCall :=
  [water_call; atoms_call].


Definition lookup_failed : exn := Exn OtherException "lookup failed".
Definition git_missing : exn :=
  Exn FileNotFoundError "[Errno 2] No such file or directory: 'git'".
Definition not_a_repository : exn :=
  Exn CalledProcessError
    "Command '['git', 'rev-parse', 'HEAD']' returned non-zero exit status 128.".

Definition water_atoms : AtomsData :=
  {| model_dump := JDict {[ "numbers" := JList [JNum 8; JNum 1; JNum 1] ]} |}.

Definition water_output : ASEOutput :=
  {| final_structure := water_atoms;
     thermochemistry := {[ "enthalpy" := -5; "gibbs_free_energy" := -6 ]};
     vibrational_frequencies := {[ "frequencies" := JList [JStr "1595"] ]} |}.

(** Tools that always succeed. *)
Definition working_tools : Tools :=
  {| molecule_name_to_smiles := λ _, Ok "O";
     smiles_to_atomsdata := λ _, Ok water_atoms;
     ase_input_schema := λ d, Ok {| schema_fields := d |};
     run_ase := λ _, Ok water_output;
     os_makedirs := λ _, Ok ();
     save_atomsdata_to_file := λ _ _, Ok (JStr "saved") |}.

(** Tools whose name lookup fails. *)
Definition no_lookup_tools : Tools :=
  {| molecule_name_to_smiles := λ _, Raise lookup_failed;
     smiles_to_atomsdata := λ _, Ok water_atoms;
     ase_input_schema := λ d, Ok {| schema_fields := d |};
     run_ase := λ _, Ok water_output;
     os_makedirs := λ _, Ok ();
     save_atomsdata_to_file := λ _ _, Ok (JStr "saved") |}.

(** Tools whose calculation fails. *)
Definition no_run_tools : Tools :=
  {| molecule_name_to_smiles := λ _, Ok "O";
     smiles_to_atomsdata := λ _, Ok water_atoms;
     ase_input_schema := λ d, Ok {| schema_fields := d |};
     run_ase := λ _, Raise (Exn OtherException "SCF did not converge");
     os_makedirs := λ _, Ok ();
     save_atomsdata_to_file := λ _ _, Ok (JStr "saved") |}.

Definition clock : nat → string := λ _, "2025-01-01_00-00-00".
Definition git_ok : nat → Py.result string := λ _, Ok "0123abc".
Definition git_not_a_repository : nat → Py.result string :=
  λ _, Raise not_a_repository.
Definition git_not_installed : nat → Py.result string :=
  λ _, Raise git_missing.

Definition water : Exp6.Molecule := {| Exp6.name := "water"; Exp6.smiles := "O" |}.
Definition methane : Exp6.Molecule :=
  {| Exp6.name := "methane"; Exp6.smiles := "C" |}.

Definition water_formation : Exp12.Reaction :=
  {| Exp12.reaction_name := "water formation";
     Exp12.reactants :=
       [ {| Exp12.name := "hydrogen"; Exp12.coefficient := 2 |};
         {| Exp12.name := "oxygen"; Exp12.coefficient := 1 |} ];
     Exp12.products := [ {| Exp12.name := "water"; Exp12.coefficient := 2 |} ] |}.

(** An agent whose every call succeeds. *)
Definition working_agent : Agent.ChemGraph unit :=
  {| Agent.run := λ _ _, Ok ();
     Agent.write_state := λ _,
       Ok (JDict {[ "timestamp" := JStr "2025-01-01_00-00-00";
                    "git_commit" := JStr "0123abc" ]});
     Agent.get_workflow_from_state := λ _,
       Ok (JDict {[ "tool_calls" := JList []; "result" := JStr "done" ]}) |}.

(** An agent whose [run] raises on the item of index [0] and succeeds on the
    others. *)
Definition first_run_fails : Agent.ChemGraph unit :=
  {| Agent.run := λ _ idx,
       match idx with
       | O => Raise (Exn OtherException "rate limit")
       | S _ => Ok ()
       end;
     Agent.write_state := Agent.write_state working_agent;
     Agent.get_workflow_from_state :=
       Agent.get_workflow_from_state working_agent |}.

End Samples.

(** ** [generate_evaluation_data/Exp12/find_error.py] *)

Module FindError.

(** [d[k]] with a string key, on any JSON value. *)
Definition subscript (d : json) (k : string) : Py.result json :=
  match d with
  | JDict m => getitem m k
  | JStr _ =>
      Raise (Exn OtherException "string indices must be integers, not 'str'")
  | JList _ =>
      Raise (Exn OtherException
               "list indices must be integers or slices, not str")
  | JNum _ => Raise (Exn OtherException "'int' object is not subscriptable")
  | JBool _ => Raise (Exn OtherException "'bool' object is not subscriptable")
  | JNull =>
      Raise (Exn OtherException "'NoneType' object is not subscriptable")
  end.

(** [sub in s] on strings. *)
Definition contains (sub s : string) : bool :=
  match String.index 0 sub s with
  | Some _ => true
  | None => false
  end.

(** [sub in v]: a substring test on a string, membership in a list, a key
    test on a dictionary, and a [TypeError] on a value that is no
    container. *)
Definition py_in (sub : string) (v : json) : Py.result bool :=
  match v with
  | JStr s => Ok (contains sub s)
  | JList l => Ok (existsb (deep_equal (JStr sub)) l)
  | JDict m => Ok (bool_decide (is_Some (m !! sub)))
  | JNum _ =>
      Raise (Exn OtherException "argument of type 'int' is not iterable")
  | JBool _ =>
      Raise (Exn OtherException "argument of type 'bool' is not iterable")
  | JNull =>
      Raise (Exn OtherException "argument of type 'NoneType' is not iterable")
  end.

(** The test of the [if]:
    ["ERROR" in data[item]["manual_workflow"]["result"]['value']]. *)
Definition flagged (entry : json) : Py.result bool :=
  (manual_workflow <- subscript entry "manual_workflow" ;;
   result <- subscript manual_workflow "result" ;;
   value <- subscript result "value" ;;
   py_in "ERROR" value)%result.

(** The test is true. *)
Definition is_flagged (entry : json) : bool :=
  match flagged entry with
  | Ok true => true
  | _ => false
  end.

(** The script, on the items of the loaded object in the order of the file:
    the items printed, and how the run ended. *)
Fixpoint find_error (data : list (string * json))
    : list string * Py.result unit :=
  match data with
  | [] => ([], Ok ())
  | (item, entry) :: rest =>
      match flagged entry with
      | Raise e => ([], Raise e)
      | Ok b =>
          let '(printed, outcome) := find_error rest in
          (((if b then [item] else []) ++ printed)%list, outcome)
      end
  end.

End FindError.

(** ** [pubchempy/get_molecule_from_pubchempy.py] *)

Module Pubchem.

(** A compound of the database, as far as the script reads it. *)
Record Compound : Type := {
  iupac_name : option string;
  synonyms : list string;
}.

(** The lookups of the loop; [atom_numbers] is [smiles_to_atomsdata.invoke]
    followed by [.numbers]. *)
Record Lookups : Type := {
  from_cid : Z → Py.result Compound;
  molecule_name_to_smiles : string → Py.result string;
  atom_numbers : string → Py.result (list Z);
}.

Record MoleculeInfo : Type := {
  index : nat;
  name : string;
  number_of_atoms : nat;
  smiles : string;
}.

(** [compound.iupac_name or (compound.synonyms[0] if compound.synonyms else None)]. *)
Definition compound_name (compound : Compound) : option string :=
  match iupac_name compound with
  | Some s => if decide (s = "") then head (synonyms compound) else Some s
  | None => head (synonyms compound)
  end.

Section GetRandomMoleculeNames.
Context (lookups : Lookups) (max_natoms min_natoms : Z).

(** The [try] block for one compound id: the molecule to append, or [None]
    when the loop goes on with [output] as it was ([continue], the [else]
    branch, or an exception, which the [except] swallows). *)
Definition try_compound (count : nat) (cid : Z) : option MoleculeInfo :=
  match from_cid lookups cid with
  | Raise _ => None
  | Ok compound =>
      match compound_name compound with
      | None => None
      | Some name =>
          if decide (name = "") then None
          else
            match molecule_name_to_smiles lookups name with
            | Raise _ => None
            | Ok smiles =>
                match atom_numbers lookups smiles with
                | Raise _ => None
                | Ok numbers =>
                    if decide (Z.of_nat (length numbers) < max_natoms
                               ∧ Z.of_nat (length numbers) > min_natoms)
                    then Some {| index := count; name := name;
                                 number_of_atoms := length numbers;
                                 smiles := smiles |}
                    else None
                end
            end
      end
  end.

(** A molecule of the output comes from a compound of the database: its name
    is the compound's, its SMILES string and number of atoms are what the
    tools returned for it, and the number of atoms is strictly between the
    two bounds. *)
Definition well_sourced (m : MoleculeInfo) : Prop :=
  name m ≠ ""
  ∧ (min_natoms < Z.of_nat (number_of_atoms m) < max_natoms)%Z
  ∧ molecule_name_to_smiles lookups (name m) = Ok (smiles m)
  ∧ ∃ numbers,
      atom_numbers lookups (smiles m) = Ok numbers
      ∧ length numbers = number_of_atoms m.

(** What the loop keeps true of [output] and [count]. *)
Definition loop_invariant (output : list MoleculeInfo) (count : nat) : Prop :=
  length output = count
  ∧ ∀ i m, output !! i = Some m → index m = i ∧ well_sourced m.

(** The [while] loop on the successive values of [random.randint]: [None]
    when the values given run out while the loop is still going. *)
Fixpoint random_loop (draws : list Z) (n : Z) (output : list MoleculeInfo)
    (tried : gset Z) (count : nat) : option (list MoleculeInfo) :=
  if decide (Z.of_nat (length output) < n) then
    match draws with
    | [] => None
    | cid :: draws =>
        if decide (cid ∈ tried) then random_loop draws n output tried count
        else
          let tried := {[cid]} ∪ tried in
          match try_compound count cid with
          | Some molecule_info =>
              random_loop draws n (output ++ [molecule_info])%list tried
                (S count)
          | None => random_loop draws n output tried count
          end
    end
  else Some output.

Definition get_random_molecule_names (draws : list Z) (n : Z)
    : option (list MoleculeInfo) :=
  random_loop draws n [] ∅ 0.

End GetRandomMoleculeNames.
End Pubchem.

(** ** Outcomes of the calls of a workflow *)

Module Outcome.
Import Chem.

Section Exp12Outcome.
Context (tools : Tools) (prop : string) (temperature : Z).
Context (calculator : gmap string json).

(** What the calls for one species returned: the SMILES string, the atoms
    data and the value of [prop]. *)
Record Returned : Type := {
  ret_smiles : string;
  ret_atomsdata : AtomsData;
  ret_value : Z;
}.

(** All calls that [process_species] makes for [species] go through. *)
Definition species_ok (species : Exp12.Species) (r : Returned) : Prop :=
  converts tools (Exp12.name species) (ret_smiles r) (ret_atomsdata r)
  ∧ ∃ params aseoutput,
      ase_input_schema tools
        (Exp12.thermo_input temperature calculator (ret_atomsdata r))
      = Ok params
      ∧ run_ase tools params = Ok aseoutput
      ∧ thermochemistry aseoutput !! prop = Some (ret_value r).

(** The three entries logged for a species. *)
Definition species_log (species : Exp12.Species) (r : Returned) : list json :=
  ase_calls (Exp12.name species) (ret_smiles r)
    (Exp12.thermo_input temperature calculator (ret_atomsdata r)).

Fixpoint log_of (l : list Exp12.Species) (rs : list Returned) : list json :=
  match l, rs with
  | species :: l, r :: rs => (species_log species r ++ log_of l rs)%list
  | _, _ => []
  end.

(** Sum of coefficient times value over the species. *)
Fixpoint weighted_sum (l : list Exp12.Species) (rs : list Returned) : Z :=
  match l, rs with
  | species :: l, r :: rs =>
      ret_value r * Exp12.coefficient species + weighted_sum l rs
  | _, _ => 0
  end.

(** A call for [species] raises [e]; the last argument is what the species
    has added to the log by then: nothing when a conversion or the
    calculation raises, its three entries when [prop] is missing from the
    thermochemistry. *)
Inductive species_fails (species : Exp12.Species) (e : exn)
    : list json → Prop :=
  | fails_in_conversion :
      conversion_raises tools (Exp12.name species) e →
      species_fails species e []
  | fails_in_calculation (smiles : string) (atomsdata : AtomsData) :
      converts tools (Exp12.name species) smiles atomsdata →
      calculation_raises tools
        (Exp12.thermo_input temperature calculator atomsdata) e →
      species_fails species e []
  | fails_in_lookup (smiles : string) (atomsdata : AtomsData)
      (params : ASEInputSchema) (aseoutput : ASEOutput) :
      converts tools (Exp12.name species) smiles atomsdata →
      ase_input_schema tools
        (Exp12.thermo_input temperature calculator atomsdata) = Ok params →
      run_ase tools params = Ok aseoutput →
      getitem (thermochemistry aseoutput) prop = Raise e →
      species_fails species e
        (ase_calls (Exp12.name species) smiles
           (Exp12.thermo_input temperature calculator atomsdata)).

(** The [result] entry of the workflow of Exp12 with value [v]. *)
Definition result_with (v : json) : json :=
  JDict {[ "value" := v; "property" := JStr prop; "unit" := JStr "eV" ]}.

End Exp12Outcome.

Section MockEvalOutcome.
Import ToolCallEval MockEval.
Context {Schema : Type} (func_descriptions : list Schema).

(** The test of the [if] of the evaluation loop, for the workflow of a query
    and the query. *)
Definition fully_accurate (w : LLMWorkflow) (q : Query) : bool :=
  let eval_result :=
    multi_function_checker_with_order func_descriptions
      (default [] (tool_calls w)) (default [] (answer_tool_calls q)) in
  bool_decide (acc_n_toolcalls eval_result = n_toolcalls eval_result).

(** Number of positions at which the workflow is fully accurate. *)
Fixpoint count_accurate (ws : list LLMWorkflow) (qs : list Query) : nat :=
  match ws, qs with
  | w :: ws, q :: qs =>
      ((if fully_accurate w q then 1 else 0) + count_accurate ws qs)%nat
  | _, _ => 0%nat
  end.

End MockEvalOutcome.

(** The agent of [evaluate_model] answers every query of [qs], the first of
    which has index [idx]: each run goes through and the workflows extracted
    are those of [ws], in order. *)
Fixpoint agent_answers {State} (cg_run : string → nat → Py.result State)
    (get_workflow_from_state : State → Py.result MockEval.LLMWorkflow)
    (idx : nat) (qs : list MockEval.Query) (ws : list MockEval.LLMWorkflow)
    : Prop :=
  match qs, ws with
  | [], [] => True
  | q :: qs, w :: ws =>
      (∃ state, cg_run (MockEval.query q) idx = Ok state
                ∧ get_workflow_from_state state = Ok w)
      ∧ agent_answers cg_run get_workflow_from_state (S idx) qs ws
  | _, _ => False
  end.

(** The agent fails on the query [q] of index [idx]: in [run] or in
    [get_workflow_from_state]. *)
Definition agent_fails {State} (cg_run : string → nat → Py.result State)
    (get_workflow_from_state : State → Py.result MockEval.LLMWorkflow)
    (idx : nat) (q : MockEval.Query) (e : exn) : Prop :=
  cg_run (MockEval.query q) idx = Raise e
  ∨ ∃ state, cg_run (MockEval.query q) idx = Ok state
             ∧ get_workflow_from_state state = Raise e.

End Outcome.

(** ** Further sample collaborators *)

Module Fixtures.
Import Chem Samples.

(** What the working tools return for any species. *)
Definition water_returned : Outcome.Returned :=
  {| Outcome.ret_smiles := "O"; Outcome.ret_atomsdata := water_atoms;
     Outcome.ret_value := -5 |}.

Definition hydrogen : Exp12.Species :=
  {| Exp12.name := "hydrogen"; Exp12.coefficient := 2 |}.
Definition oxygen : Exp12.Species :=
  {| Exp12.name := "oxygen"; Exp12.coefficient := 1 |}.

Definition tblite : gmap string json :=
  {[ "calculator_type" := JStr "TBLite"; "method" := JStr "GFN2-xTB" ]}.
Definition mace_mp : gmap string json :=
  {[ "calculator_type" := JStr "mace_mp" ]}.

(** An output of [run_ase] with no thermochemistry and no frequencies. *)
Definition bare_output : ASEOutput :=
  {| final_structure := water_atoms; thermochemistry := ∅;
     vibrational_frequencies := ∅ |}.

Definition bare_tools : Tools :=
  {| molecule_name_to_smiles := λ _, Ok "O";
     smiles_to_atomsdata := λ _, Ok water_atoms;
     ase_input_schema := λ d, Ok {| schema_fields := d |};
     run_ase := λ _, Ok bare_output;
     os_makedirs := λ _, Ok ();
     save_atomsdata_to_file := λ _ _, Ok (JStr "saved") |}.

(** Tools that cannot create the output directory. *)
Definition read_only_tools : Tools :=
  {| molecule_name_to_smiles := λ _, Ok "O";
     smiles_to_atomsdata := λ _, Ok water_atoms;
     ase_input_schema := λ d, Ok {| schema_fields := d |};
     run_ase := λ _, Ok water_output;
     os_makedirs := λ _, Raise (Exn OtherException "Read-only file system");
     save_atomsdata_to_file := λ _ _, Ok (JStr "saved") |}.

(** Entries of an output file of Exp12: one with an error, one with a
    number, one with an error. *)
Definition error_entry (message : string) : json :=
  JDict {[ "manual_workflow" :=
             workflow_json
               {| tool_calls := [];
                  result :=
                    Outcome.result_with "enthalpy"
                      (JStr ("ERROR - " +:+ message)) |};
           "metadata" := Output.metadata "2025-01-01_00-00-00" "0123abc" ]}.

Definition number_entry (value : Z) : json :=
  JDict {[ "manual_workflow" :=
             workflow_json
               {| tool_calls := [];
                  result := Outcome.result_with "enthalpy" (JNum value) |};
           "metadata" := Output.metadata "2025-01-01_00-00-00" "0123abc" ]}.

(** A compound database with two entries. *)
Definition two_compounds : Pubchem.Lookups :=
  {| Pubchem.from_cid := λ cid,
       if decide (cid = 702) then
         Ok {| Pubchem.iupac_name := Some "ethanol";
               Pubchem.synonyms := ["ethyl alcohol"] |}
       else if decide (cid = 180) then
         Ok {| Pubchem.iupac_name := None;
               Pubchem.synonyms := ["acetone"] |}
       else Raise (Exn OtherException "PUGREST.NotFound");
     Pubchem.molecule_name_to_smiles := λ name,
       if decide (name = "ethanol") then Ok "CCO" else Ok "CC(=O)C";
     Pubchem.atom_numbers := λ smiles,
       if decide (smiles = "CCO") then Ok [6; 6; 8; 1; 1; 1; 1; 1; 1]
       else Ok [6; 6; 8; 6; 1; 1; 1; 1; 1; 1] |}.

(** An agent of [evaluate_model] that answers every query with the two
    calls of the water scenario. *)
Definition water_run : string → nat → Py.result unit := λ _ _, Ok ().
Definition water_workflow : MockEval.LLMWorkflow :=
  {| MockEval.tool_calls := Some water_answers |}.
Definition water_extract : unit → Py.result MockEval.LLMWorkflow :=
  λ _, Ok water_workflow.

Definition water_query : MockEval.Query :=
  {| MockEval.query := "Get the structure of water";
     MockEval.answer_tool_calls := Some water_answers |}.
Definition methane_query : MockEval.Query :=
  {| MockEval.query := "Get the SMILES string of methane";
     MockEval.answer_tool_calls :=
       Some [ {| ToolCallEval.name := "molecule_name_to_smiles";
                 ToolCallEval.arguments := {[ "name" := JStr "methane" ]} |} ] |}.

(** An agent whose [run] fails from the second query on. *)
Definition run_once : string → nat → Py.result unit :=
  λ _ idx,
    match idx with
    | O => Ok ()
    | S _ => Raise (Exn OtherException "rate limit")
    end.

(** An agent of the LLM scripts whose [run] fails from the second item on. *)
Definition later_runs_fail : Agent.ChemGraph unit :=
  {| Agent.run := run_once;
     Agent.write_state := Agent.write_state working_agent;
     Agent.get_workflow_from_state :=
       Agent.get_workflow_from_state working_agent |}.

Definition methane_combustion : Exp12.Reaction :=
  {| Exp12.reaction_name := "methane combustion";
     Exp12.reactants :=
       [ {| Exp12.name := "methane"; Exp12.coefficient := 1 |};
         {| Exp12.name := "oxygen"; Exp12.coefficient := 2 |} ];
     Exp12.products :=
       [ {| Exp12.name := "carbon dioxide"; Exp12.coefficient := 1 |};
         {| Exp12.name := "water"; Exp12.coefficient := 2 |} ] |}.

End Fixtures.

(** * Properties *)

(** ** JSON values *)

Section JsonFacts.

Lemma json_size_list_elem (x : json) (l : list json) :
  x ∈ l → (json_size x < json_size (JList l))%nat.
Proof.
  simpl. induction 1 as [x l|x y l _ IH]; simpl; lia.
Qed.

Lemma json_size_dict_elem (k : string) (x : json) (m : gmap string json) :
  m !! k = Some x → (json_size x < json_size (JDict m))%nat.
Proof.
  simpl. revert k x.
  induction m as [|i y m Hi IH] using map_ind; intros k x Hk.
  - by rewrite lookup_empty in Hk.
  - rewrite map_fold_insert_L; [|intros; lia|done].
    destruct (decide (i = k)) as [->|Hne].
    + rewrite lookup_insert_eq in Hk. injection Hk as ->. lia.
    + rewrite lookup_insert_ne in Hk by done. specialize (IH _ _ Hk). lia.
Qed.

(** Induction on JSON values, with the hypothesis for every element of a
    list and every value of a dictionary. *)
Lemma json_nested_ind (P : json → Prop) :
  P JNull → (∀ b, P (JBool b)) → (∀ z, P (JNum z)) → (∀ s, P (JStr s)) →
  (∀ l, Forall P l → P (JList l)) →
  (∀ m, map_Forall (λ _, P) m → P (JDict m)) →
  ∀ j, P j.
Proof.
  intros Hnull Hbool Hnum Hstr Hlist Hdict j.
  remember (json_size j) as n eqn:Hn.
  revert j Hn. induction n as [n IH] using lt_wf_ind. intros j ->.
  destruct j as [| | | |l|m]; auto.
  - apply Hlist, Forall_forall. intros x Hx.
    eapply IH; [|reflexivity]. by apply json_size_list_elem.
  - apply Hdict. intros k x Hk.
    eapply IH; [|reflexivity]. by eapply json_size_dict_elem.
Qed.

Lemma deep_equal_list_unfold (l1 l2 : list json) :
  deep_equal (JList l1) (JList l2) =
  match l1, l2 with
  | [], [] => true
  | x :: l1', y :: l2' => deep_equal x y && deep_equal (JList l1') (JList l2')
  | _, _ => false
  end.
Proof. by destruct l1, l2. Qed.

(** The deep comparison decides equality of JSON values.  Two dictionaries
    are equal as soon as they agree at every key. *)
Lemma deep_equal_spec (a b : json) : deep_equal a b = true ↔ a = b.
Proof.
  revert b. induction a as [|x|x|x|l IH|m IH] using json_nested_ind; intros b.
  - destruct b; simpl; split; congruence.
  - destruct b; simpl; rewrite ?bool_decide_eq_true; split; congruence.
  - destruct b; simpl; rewrite ?bool_decide_eq_true; split; congruence.
  - destruct b; simpl; rewrite ?bool_decide_eq_true; split; congruence.
  - destruct b as [| | | |l2|]; try (simpl; split; congruence).
    revert l2. induction IH as [|x l Hx _ IHl]; intros l2;
      rewrite deep_equal_list_unfold.
    + destruct l2; split; congruence.
    + destruct l2 as [|y l2]; [split; congruence|].
      rewrite andb_true_iff, Hx, IHl. split; [intros [-> [= ->]]|intros [= -> ->]]; done.
  - destruct b as [| | | | |m2]; try (simpl; split; congruence).
    simpl. rewrite bool_decide_eq_true. split.
    + intros Hm. f_equal. apply map_eq. intros k.
      apply (f_equal (.!! k)) in Hm. rewrite lookup_merge, lookup_empty in Hm.
      destruct (m !! k) as [x|] eqn:Hx, (m2 !! k) as [y|] eqn:Hy;
        simpl in Hm; try done.
      destruct (deep_equal x y) eqn:He; [|done].
      f_equal. by apply (IH k x Hx).
    + intros [= <-]. apply map_eq. intros k.
      rewrite lookup_merge, lookup_empty.
      destruct (m !! k) as [x|] eqn:Hx; simpl; [|done].
      assert (deep_equal x x = true) as -> by by apply (IH k x Hx).
      done.
Qed.

Lemma deep_equal_refl (a : json) : deep_equal a a = true.
Proof. by apply deep_equal_spec. Qed.

(** Key order plays no part: a dictionary built in another order is the same
    value. *)
Example deep_equal_key_order :
  deep_equal
    (JDict (<["a" := JNum 1]> (<["b" := JStr "x"]> ∅)))
    (JDict (<["b" := JStr "x"]> (<["a" := JNum 1]> ∅))) = true.
Proof. vm_compute. reflexivity. Qed.

(** A missing key, an extra key or a differing value is a difference. *)
Example deep_equal_missing_key :
  deep_equal (JDict {[ "a" := JNum 1 ]})
             (JDict {[ "a" := JNum 1; "b" := JNum 2 ]}) = false
  ∧ deep_equal (JDict {[ "a" := JNum 1 ]}) (JDict {[ "a" := JNum 2 ]}) = false.
Proof. split; vm_compute; reflexivity. Qed.

End JsonFacts.

(** ** The comparator *)

Section ComparatorFacts.
Import ToolCallEval.
Context {Schema : Type} (func_descriptions : list Schema).

Lemma call_accurate_spec (obs exp : ToolCall) :
  call_accurate obs exp = true ↔ obs = exp.
Proof.
  unfold call_accurate.
  rewrite andb_true_iff, bool_decide_eq_true, deep_equal_spec.
  destruct obs as [n1 a1], exp as [n2 a2]; simpl.
  split; [intros [-> [= ->]]|intros [= -> ->]]; done.
Qed.

Lemma align_length (outputs answers : list ToolCall) :
  length (align outputs answers) = length answers.
Proof.
  revert outputs. induction answers as [|e answers IH]; intros outputs; [done|].
  destruct outputs; simpl; by rewrite IH.
Qed.

Lemma acc_le_n (outputs answers : list ToolCall) :
  let r := multi_function_checker_with_order func_descriptions outputs answers in
  (acc_n_toolcalls r ≤ n_toolcalls r)%nat.
Proof.
  simpl. rewrite <- (align_length outputs answers). apply length_filter.
Qed.

(** A position whose observed call is not the expected one costs a point. *)
Lemma mismatch_lowers_acc (outputs answers : list ToolCall) (k : nat)
    (o e : ToolCall) :
  outputs !! k = Some o → answers !! k = Some e → o ≠ e →
  (length (filter (λ d, accurate d = true) (align outputs answers))
   < length answers)%nat.
Proof.
  revert outputs k.
  induction answers as [|e' answers IH]; intros outputs k Ho He Hne; [done|].
  destruct outputs as [|o' outputs]; [done|].
  simpl. destruct k as [|k]; simpl in Ho, He.
  - injection Ho as ->. injection He as ->.
    rewrite filter_cons_False.
    + pose proof (length_filter (λ d, accurate d = true) (align outputs answers)) as Hle.
      rewrite align_length in Hle. lia.
    + simpl. rewrite call_accurate_spec. done.
  - specialize (IH _ _ Ho He Hne).
    rewrite filter_cons. case_decide; simpl; lia.
Qed.

Lemma align_same (calls : list ToolCall) :
  filter (λ d, accurate d = true) (align calls calls) = align calls calls.
Proof.
  induction calls as [|c calls IH]; [done|].
  simpl. rewrite filter_cons_True.
  - by rewrite IH.
  - simpl. by apply call_accurate_spec.
Qed.

Lemma swap_calls_lookup (i j : nat) (calls : list ToolCall) (a b : ToolCall) :
  calls !! i = Some a → calls !! j = Some b →
  swap_calls i j calls !! i = Some b.
Proof.
  intros Hi Hj. unfold swap_calls. rewrite Hi, Hj.
  apply list_lookup_insert_eq. rewrite length_insert.
  by eapply lookup_lt_Some.
Qed.

End ComparatorFacts.

Section SwapFacts.
Import ToolCallEval.

Lemma insert_head_perm {A} (l : list A) (j : nat) (a b : A) :
  l !! j = Some b → b :: <[j:=a]> l ≡ₚ a :: l.
Proof.
  revert j. induction l as [|c l IH]; intros j Hj; [done|].
  destruct j as [|j]; simpl in *.
  - injection Hj as ->. apply Permutation_swap.
  - rewrite (Permutation_swap c b). rewrite (IH _ Hj). apply Permutation_swap.
Qed.

Lemma insert_swap_perm_lt {A} (l : list A) (i j : nat) (a b : A) :
  l !! i = Some a → l !! j = Some b → (i < j)%nat →
  <[i:=b]> (<[j:=a]> l) ≡ₚ l.
Proof.
  revert i j. induction l as [|c l IH]; intros i j Hi Hj Hlt; [done|].
  destruct j as [|j]; [lia|]. destruct i as [|i]; simpl in *.
  - injection Hi as ->. by apply insert_head_perm.
  - f_equiv. apply IH; [done|done|lia].
Qed.

(** Exchanging two calls keeps the calls of the sequence, each as many times
    as before. *)
Lemma swap_calls_perm (i j : nat) (calls : list ToolCall) :
  swap_calls i j calls ≡ₚ calls.
Proof.
  unfold swap_calls.
  destruct (calls !! i) as [a|] eqn:Hi; [|done].
  destruct (calls !! j) as [b|] eqn:Hj; [|done].
  destruct (Nat.lt_trichotomy i j) as [Hlt|[->|Hgt]].
  - by apply insert_swap_perm_lt.
  - rewrite Hi in Hj. injection Hj as ->.
    rewrite list_insert_insert_eq. by rewrite list_insert_id.
  - rewrite list_insert_insert_ne by lia. by apply insert_swap_perm_lt.
Qed.

End SwapFacts.

(** ** Claims on the comparator and on [evaluate_model] *)

Section ComparatorClaims.
Import ToolCallEval MockEval.
Context {State Schema : Type}.
Context (cg_run : string → nat → Py.result State).
Context (get_workflow_from_state : State → Py.result LLMWorkflow).
Context (func_descriptions : list Schema).

(** C1.  When the observed sequence of tool calls is the expected sequence
    (same names, same arguments, same order), the result of
    [multi_function_checker_with_order] has [acc_n_toolcalls] equal to
    [n_toolcalls]. *)
Theorem C1_identical_sequences_full_match (calls : list ToolCall) :
  let eval_result :=
    multi_function_checker_with_order func_descriptions calls calls in
  acc_n_toolcalls eval_result = n_toolcalls eval_result.
Proof.
  simpl. rewrite align_same. apply align_length.
Qed.

(** C2.  When the observed sequence has the calls of the expected sequence
    with two of them, [a] at position [i] and [b] at position [j], in
    exchanged positions, [acc_n_toolcalls] is strictly less than
    [n_toolcalls], although the observed sequence is a rearrangement of the
    expected one. *)
Theorem C2_swapped_order_not_full_match (answers : list ToolCall)
    (i j : nat) (a b : ToolCall) :
  answers !! i = Some a → answers !! j = Some b → a ≠ b →
  let model_outputs := swap_calls i j answers in
  let eval_result :=
    multi_function_checker_with_order func_descriptions model_outputs answers in
  model_outputs ≡ₚ answers
  ∧ (acc_n_toolcalls eval_result < n_toolcalls eval_result)%nat.
Proof.
  intros Hi Hj Hne. simpl. split; [apply swap_calls_perm|].
  eapply (mismatch_lowers_acc _ _ i b a); [|done|done].
  by eapply swap_calls_lookup.
Qed.

(** The count of accurate queries goes up exactly when the two fields of the
    comparator's result are equal. *)
Lemma evaluation_step_increments_iff (list_of_queries : list Query) (idx : nat)
    (toolcall : LLMWorkflow) (q : Query) (accurate_tool_call : nat)
    (eval_details : gmap string EvaluationResult) :
  list_of_queries !! idx = Some q →
  let eval_result :=
    multi_function_checker_with_order func_descriptions
      (default [] (tool_calls toolcall)) (default [] (answer_tool_calls q)) in
  ∃ accurate_tool_call',
    evaluation_step func_descriptions list_of_queries idx toolcall
      (accurate_tool_call, eval_details)
    = Ok (accurate_tool_call', <[query q := eval_result]> eval_details)
    ∧ (accurate_tool_call' = S accurate_tool_call
       ↔ acc_n_toolcalls eval_result = n_toolcalls eval_result)
    ∧ (accurate_tool_call' = accurate_tool_call
       ↔ acc_n_toolcalls eval_result ≠ n_toolcalls eval_result).
Proof.
  intros Hq eval_result. unfold evaluation_step. rewrite Hq.
  fold eval_result. case_decide as Hd.
  - eexists. split; [done|]. split; split; intros; try done; lia.
  - eexists. split; [done|]. split; split; intros; try done; lia.
Qed.


(** C9.  On an empty list of queries, [evaluate_model] reaches the division
    [accurate_tool_call / len(llm_tool_calls)] with a zero divisor and raises
    [ZeroDivisionError]. *)
Theorem C9_empty_query_list_raises_zero_division :
  evaluate_model cg_run get_workflow_from_state func_descriptions []
  = Raise (Exn ZeroDivisionError "division by zero").
Proof. reflexivity. Qed.

(** With at least one query and every expected sequence empty, the accuracy
    is 100. *)
Lemma percentage_all (n : nat) :
  n ≠ 0%nat → ∃ p, percentage n n = Ok p ∧ (p == 100)%Q.
Proof.
  intros Hn. unfold percentage. case_decide; [done|].
  eexists. split; [done|].
  field. intros H0. unfold Qeq in H0. simpl in H0. lia.
Qed.

End ComparatorClaims.

Section ComparatorScenarios.
Import ToolCallEval MockEval Samples.

(** End-to-end scenario: observed identical to expected, 2 of 2. *)
Example water_identical :
  let r := multi_function_checker_with_order (@nil unit) water_answers water_answers in
  (acc_n_toolcalls r, n_toolcalls r) = (2%nat, 2%nat).
Proof. vm_compute. reflexivity. Qed.

(** End-to-end scenario: the two calls reordered, 0 of 2. *)
Example water_reordered :
  let r :=
    multi_function_checker_with_order (@nil unit)
      [atoms_call; water_call] water_answers in
  (acc_n_toolcalls r, n_toolcalls r) = (0%nat, 2%nat).
Proof. vm_compute. reflexivity. Qed.

(** An observed call with an extra argument key is scored inaccurate. *)
Example water_extra_key :
  let extra :=
    {| name := "molecule_name_to_smiles";
       arguments := {[ "name" := JStr "water"; "lang" := JStr "en" ]} |} in
  let r :=
    multi_function_checker_with_order (@nil unit)
      [extra; atoms_call] water_answers in
  (acc_n_toolcalls r, n_toolcalls r) = (1%nat, 2%nat).
Proof. vm_compute. reflexivity. Qed.

Lemma water_call_ne_atoms_call : water_call ≠ atoms_call.
Proof. intros H. apply (f_equal name) in H. discriminate H. Qed.

Lemma C2_witness :
  let model_outputs := swap_calls 0 1 water_answers in
  let eval_result :=
    multi_function_checker_with_order (@nil unit) model_outputs water_answers in
  water_call ≠ atoms_call
  ∧ model_outputs ≡ₚ water_answers
  ∧ (acc_n_toolcalls eval_result < n_toolcalls eval_result)%nat.
Proof.
  split; [exact water_call_ne_atoms_call|].
  apply (C2_swapped_order_not_full_match (@nil unit) water_answers 0 1
           water_call atoms_call);
    [reflexivity|reflexivity|exact water_call_ne_atoms_call].
Defined.


End ComparatorScenarios.

(** ** Query templates *)

Section QueryClaims.

Lemma exp3_query_keys (name method : string) :
  dom (Exp3.query_dict name method)
  = ({[ "name_to_coord"; "name_to_opt"; "name_to_vib"; "name_to_enthalpy";
        "name_to_gibbs"; "name_to_opt_file" ]} : gset string).
Proof.
  unfold Exp3.query_dict. rewrite !dom_insert_L, dom_singleton_L. set_solver.
Qed.

Lemma exp8_query_keys (smiles method : string) :
  dom (Exp8.query_dict smiles method)
  = ({[ "smiles_to_coord"; "smiles_to_opt"; "smiles_to_vib";
        "smiles_to_enthalpy"; "smiles_to_gibbs"; "smiles_to_opt_file" ]}
     : gset string).
Proof.
  unfold Exp8.query_dict. rewrite !dom_insert_L, dom_singleton_L. set_solver.
Qed.

Lemma exp14_query_keys (equation : string) (temperature : Z) (method : string) :
  dom (Exp14.query_dict equation temperature method)
  = ({[ "enthalpy"; "enthalpy_method"; "gibbs_free_energy";
        "gibbs_free_energy_method"; "gibbs_free_energy_method_temperature" ]}
     : gset string).
Proof.
  unfold Exp14.query_dict. rewrite !dom_insert_L, dom_singleton_L. set_solver.
Qed.

(** C10.  In each of the three [run_llm_workflow] scripts, [get_query]
    called with a [query_name] that is not a key of the script's template
    dictionary returns the string "Query not found"; it does not raise. *)
Theorem C10_get_query_unknown_name (query_name : string) :
  (∀ name method,
     Exp3.query_dict name method !! query_name = None →
     Exp3.get_query name query_name method = Ok "Query not found")
  ∧ (∀ smiles method,
     Exp8.query_dict smiles method !! query_name = None →
     Exp8.get_query smiles query_name method = Ok "Query not found")
  ∧ (∀ reaction temperature pressure method,
     Exp14.query_dict (Exp14.reaction_equation reaction) temperature method
       !! query_name = None →
     Exp14.get_query reaction query_name temperature pressure method
     = Ok "Query not found").
Proof.
  split; [|split]; intros * Hk;
    unfold Exp3.get_query, Exp8.get_query, Exp14.get_query; by rewrite Hk.
Qed.

Lemma C10_witness :
  Exp3.get_query "water" "atomsdata" "mace_mp" = Ok "Query not found"
  ∧ Exp8.get_query "O" "opt" "mace_mp" = Ok "Query not found"
  ∧ Exp14.get_query Samples.water_formation "entropy" 400 101325 "GFN2-xTB"
    = Ok "Query not found".
Proof.
  destruct (C10_get_query_unknown_name "atomsdata") as [H3 _].
  destruct (C10_get_query_unknown_name "opt") as [_ [H8 _]].
  destruct (C10_get_query_unknown_name "entropy") as [_ [_ H14]].
  split; [|split].
  - apply H3. vm_compute. reflexivity.
  - apply H8. vm_compute. reflexivity.
  - apply H14. vm_compute. reflexivity.
Defined.

(** A known name gives the template filled in. *)
Example exp3_name_to_opt :
  Exp3.get_query "water" "name_to_opt" "mace_mp"
  = Ok "Perform geometry optimization for a molecule water using NWChem, PBE and sto-3g".
Proof. vm_compute. reflexivity. Qed.

Example exp14_enthalpy_method :
  Exp14.get_query Samples.water_formation "enthalpy_method" 400 101325 "GFN2-xTB"
  = Ok "You are given a chemical reaction: 2 (hydrogen) + 1 (oxygen) -> 2 (water). Calculate the enthalpy for this reaction using GFN2-xTB at 400K.".
Proof. vm_compute. reflexivity. Qed.

End QueryClaims.

(** ** Manual workflows: what happens to an exception of a tool *)

Section StExnFacts.
Context {St A B : Type}.

Lemma stexn_bind_ok (c : StExn.M St A) (k : A → StExn.M St B) (s s' : St)
    (a : A) :
  c s = (Ok a, s') → StExn.bind c k s = k a s'.
Proof. intros E. unfold StExn.bind. by rewrite E. Qed.

Lemma stexn_bind_raise (c : StExn.M St A) (k : A → StExn.M St B) (s s' : St)
    (e : exn) :
  c s = (Raise e, s') → StExn.bind c k s = (Raise e, s').
Proof. intros E. unfold StExn.bind. by rewrite E. Qed.

End StExnFacts.

Section Exp12Facts.
Import Chem Exp12.
Context (tools : Tools).
Context (prop : string) (temperature : Z) (calculator : gmap string json).

#[local] Abbreviation process_one := (process_one tools prop temperature calculator).
#[local] Abbreviation process_species_from :=
  (process_species_from tools prop temperature calculator).
#[local] Abbreviation try_block := (try_block tools prop temperature calculator).
#[local] Abbreviation species_raises :=
  (species_raises tools prop temperature calculator).

#[local] Ltac run_stexn :=
  unfold Exp12.process_one, StExn.bind, StExn.lift, StExn.modify, StExn.ret.

(** Every call made for a species either goes through or raises, and what
    is raised comes from one of those calls. *)
Lemma process_one_cases (sign : Z) (species : Species) (total : Z)
    (w : Workflow) :
  (∃ z w', process_one sign species total w = (Ok z, w')
           ∧ result w' = result w)
  ∨ (∃ e w', process_one sign species total w = (Raise e, w')
             ∧ result w' = result w ∧ species_raises species e).
Proof.
  run_stexn.
  destruct (molecule_name_to_smiles tools (name species)) as [smiles|e] eqn:H1.
  2: { right. exists e, w. split; [done|split; [done|]].
       by apply conversion_fails, name_to_smiles_raises. }
  destruct (smiles_to_atomsdata tools smiles) as [atomsdata|e] eqn:H2.
  2: { right. exists e, w. split; [done|split; [done|]].
       by eapply conversion_fails, smiles_to_atomsdata_raises. }
  destruct (ase_input_schema tools _) as [params|e] eqn:H3.
  2: { right. exists e, w. split; [done|split; [done|]].
       eapply calculation_fails; [done|]. by apply schema_raises. }
  destruct (run_ase tools params) as [aseoutput|e] eqn:H4.
  2: { right. exists e, w. split; [done|split; [done|]].
       eapply calculation_fails; [done|]. by eapply run_ase_raises. }
  destruct (getitem (thermochemistry aseoutput) prop) as [h|e] eqn:H5.
  - left. eexists _, _. split; [done|done].
  - right. eexists e, _. split; [done|split; [done|]].
    by eapply property_missing.
Qed.

(** A species for which some call raises [e] makes [process_species] raise
    [e] when its turn comes. *)
Lemma process_one_raises (sign : Z) (species : Species) (total : Z)
    (w : Workflow) (e : exn) :
  species_raises species e →
  ∃ w', process_one sign species total w = (Raise e, w').
Proof.
  intros Hraise. run_stexn.
  destruct Hraise as [Hc|smiles atomsdata [H1 H2] Hc
                     |smiles atomsdata params aseoutput [H1 H2] H3 H4 H5].
  - destruct Hc as [H1|smiles H1 H2].
    + rewrite H1. by eexists.
    + rewrite H1, H2. by eexists.
  - rewrite H1, H2. fold (thermo_input temperature calculator atomsdata).
    destruct Hc as [H3|params H3 H4].
    + rewrite H3. by eexists.
    + rewrite H3, H4. by eexists.
  - rewrite H1, H2. fold (thermo_input temperature calculator atomsdata).
    rewrite H3, H4, H5. by eexists.
Qed.

Lemma process_species_from_cases (species_list : list Species) (sign total : Z)
    (w : Workflow) :
  (∃ z w', process_species_from total species_list sign w = (Ok z, w')
           ∧ result w' = result w)
  ∨ (∃ e w', process_species_from total species_list sign w = (Raise e, w')
             ∧ result w' = result w
             ∧ ∃ species, species ∈ species_list ∧ species_raises species e).
Proof.
  revert total w.
  induction species_list as [|species rest IH]; intros total w; simpl.
  - left. by exists total, w.
  - destruct (process_one_cases sign species total w)
      as [(z & w1 & E1 & Hr1)|(e & w1 & E1 & Hr1 & Hs)].
    + rewrite (stexn_bind_ok _ _ _ _ _ E1).
      destruct (IH z w1)
        as [(z' & w2 & E2 & Hr2)|(e & w2 & E2 & Hr2 & s & Hin & Hs)].
      * left. exists z', w2. split; [done|congruence].
      * right. exists e, w2. split; [done|]. split; [congruence|].
        exists s. split; [by apply list_elem_of_further|done].
    + rewrite (stexn_bind_raise _ _ _ _ _ E1).
      right. exists e, w1. split; [done|]. split; [done|].
      exists species. split; [apply list_elem_of_here|done].
Qed.

Lemma process_species_from_raises (species_list : list Species)
    (sign total : Z) (w : Workflow) (species : Species) (e : exn) :
  species ∈ species_list → species_raises species e →
  ∃ e' w', process_species_from total species_list sign w = (Raise e', w').
Proof.
  intros Hin Hs. revert total w.
  induction Hin as [species rest|species other rest _ IH]; intros total w; simpl.
  - destruct (process_one_raises sign species total w e Hs) as [w' E1].
    rewrite (stexn_bind_raise _ _ _ _ _ E1). by exists e, w'.
  - destruct (process_one_cases sign other total w)
      as [(z & w1 & E1 & _)|(e1 & w1 & E1 & _)].
    + rewrite (stexn_bind_ok _ _ _ _ _ E1). by apply IH.
    + rewrite (stexn_bind_raise _ _ _ _ _ E1). by exists e1, w1.
Qed.

(** The [try] block raises exactly when a call for one of the species of the
    reaction raises, and then with an exception of such a call. *)
Lemma try_block_cases (reaction : Reaction) (w : Workflow) :
  (∃ z w', try_block reaction w = (Ok z, w') ∧ result w' = result w
           ∧ ∀ species e,
               species ∈ (reactants reaction ++ products reaction)%list →
               ¬ species_raises species e)
  ∨ (∃ e w', try_block reaction w = (Raise e, w') ∧ result w' = result w
             ∧ ∃ species,
                 species ∈ (reactants reaction ++ products reaction)%list
                 ∧ species_raises species e).
Proof.
  unfold Exp12.try_block, process_species.
  destruct (process_species_from_cases (reactants reaction) (-1) 0 w)
    as [(z1 & w1 & E1 & Hr1)|(e & w1 & E1 & Hr1 & s & Hin & Hs)].
  - rewrite (stexn_bind_ok _ _ _ _ _ E1).
    destruct (process_species_from_cases (products reaction) 1 0 w1)
      as [(z2 & w2 & E2 & Hr2)|(e & w2 & E2 & Hr2 & s & Hin & Hs)].
    + rewrite (stexn_bind_ok _ _ _ _ _ E2).
      left. eexists _, w2. split; [done|]. split; [congruence|].
      intros species e Hin Hs. apply elem_of_app in Hin as [Hin|Hin].
      * destruct (process_species_from_raises _ (-1) 0 w _ _ Hin Hs)
          as (e' & w' & E'). congruence.
      * destruct (process_species_from_raises _ 1 0 w1 _ _ Hin Hs)
          as (e' & w' & E'). congruence.
    + rewrite (stexn_bind_raise _ _ _ _ _ E2).
      right. exists e, w2. split; [done|]. split; [congruence|].
      exists s. split; [|done]. apply elem_of_app. by right.
  - rewrite (stexn_bind_raise _ _ _ _ _ E1).
    right. exists e, w1. split; [done|]. split; [done|].
    exists s. split; [|done]. apply elem_of_app. by left.
Qed.

(** [get_manual_workflow_result] never raises.  When a call for one of the
    species raises, the value of the result is the string "ERROR - " followed
    by the message of the exception that such a call raised. *)
Lemma exp12_tool_failure_recorded (reaction : Reaction) :
  ∃ w, get_manual_workflow_result tools prop temperature calculator reaction
       = Ok (workflow_json w)
     ∧ ((∃ species e,
           species ∈ (reactants reaction ++ products reaction)%list
           ∧ species_raises species e) →
        ∃ species e,
          species ∈ (reactants reaction ++ products reaction)%list
          ∧ species_raises species e
          ∧ dict_get "value" (result w)
            = Some (JStr ("ERROR - " +:+ exn_msg e))).
Proof.
  unfold get_manual_workflow_result.
  match goal with |- context [try_block reaction ?w0] =>
    destruct (try_block_cases reaction w0)
      as [(z & w' & -> & Hr & Hnone)|(e & w' & -> & Hr & s & Hin & Hs)]
  end.
  - eexists. split; [done|]. intros (s & e & Hin & Hs).
    by destruct (Hnone s e Hin).
  - eexists. split; [done|]. intros _. exists s, e. split; [done|split; [done|]].
    simpl. rewrite Hr. simpl. apply lookup_insert_eq.
Qed.

End Exp12Facts.

Section Exp6Facts.
Import Chem Exp6.
Context (tools : Tools).

(** [input_dict] of the functions of Exp6. *)
#[local] Abbreviation input_of atomsdata driver calculator temperature :=
  {| Chem.atomsdata := atomsdata; Chem.driver := driver;
     Chem.calculator := calculator; Chem.temperature := temperature |}.

#[local] Ltac run_calculation Hcalc :=
  let H3 := fresh "H3" in
  let H4 := fresh "H4" in
  destruct Hcalc as [H3|? H3 H4]; [rewrite H3|rewrite H3; simpl; rewrite H4];
  reflexivity.

#[local] Ltac run_conversion Hconv :=
  let H1 := fresh "H1" in
  let H2 := fresh "H2" in
  destruct Hconv as [H1|? H1 H2]; [rewrite H1|rewrite H1; simpl; rewrite H2];
  reflexivity.

Lemma get_smiles_success (name smiles : string) :
  molecule_name_to_smiles tools name = Ok smiles →
  get_smiles_from_molecule_name tools name
  = Ok (workflow_json
          {| tool_calls :=
               [call "molecule_name_to_smiles" {[ "name" := JStr name ]}];
             result := JStr smiles |}).
Proof. intros H. unfold get_smiles_from_molecule_name. by rewrite H. Qed.

(** C8.  When [molecule_name_to_smiles.invoke] raises on [name],
    [get_smiles_from_molecule_name] returns [None]: the [except] branch
    fills the local [workflow] and ends without a [return]. *)
Theorem C8_get_smiles_returns_None_when_lookup_raises (name : string)
    (e : exn) :
  molecule_name_to_smiles tools name = Raise e →
  get_smiles_from_molecule_name tools name = Ok JNull.
Proof. intros H. unfold get_smiles_from_molecule_name. by rewrite H. Qed.

Lemma get_atomsdata_never_raises (name : string) :
  ∃ v, get_atomsdata_from_molecule_name tools name = Ok v.
Proof.
  unfold get_atomsdata_from_molecule_name.
  destruct (molecule_name_to_smiles tools name) as [smiles|e]; simpl;
    [|by eexists].
  destruct (smiles_to_atomsdata tools smiles); simpl; by eexists.
Qed.

Lemma get_atomsdata_records (name : string) (e : exn) :
  conversion_raises tools name e →
  get_atomsdata_from_molecule_name tools name
  = Ok (JStr ("Error message: " +:+ exn_msg e)).
Proof.
  intros Hconv. unfold get_atomsdata_from_molecule_name. run_conversion Hconv.
Qed.

Lemma get_geometry_optimization_records (name : string)
    (calculator : gmap string json) (smiles : string) (atomsdata : AtomsData)
    (e : exn) :
  converts tools name smiles atomsdata →
  calculation_raises tools (input_of atomsdata "opt" calculator None) e →
  get_geometry_optimization_from_molecule_name tools name calculator
  = Ok (JStr ("Error message: " +:+ exn_msg e)).
Proof.
  intros [H1 H2] Hcalc. unfold get_geometry_optimization_from_molecule_name.
  rewrite H1. simpl. rewrite H2. simpl. run_calculation Hcalc.
Qed.

Lemma get_vibrational_frequencies_records (name : string)
    (calculator : gmap string json) (smiles : string) (atomsdata : AtomsData)
    (e : exn) :
  converts tools name smiles atomsdata →
  calculation_raises tools (input_of atomsdata "vib" calculator None) e →
  get_vibrational_frequencies_from_molecule_name tools name calculator
  = Ok (JStr ("Error message: " +:+ exn_msg e)).
Proof.
  intros [H1 H2] Hcalc. unfold get_vibrational_frequencies_from_molecule_name.
  rewrite H1. simpl. rewrite H2. simpl. run_calculation Hcalc.
Qed.

Lemma get_gibbs_energy_records (name : string) (calculator : gmap string json)
    (temperature : Z) (smiles : string) (atomsdata : AtomsData) (e : exn) :
  converts tools name smiles atomsdata →
  calculation_raises tools
    (input_of atomsdata "thermo" calculator (Some temperature)) e →
  get_gibbs_energy_from_molecule_name tools name calculator temperature
  = Ok (workflow_json
          {| tool_calls :=
               ase_calls name smiles
                 (input_of atomsdata "thermo" calculator (Some temperature));
             result := JStr ("ERROR - " +:+ exn_msg e) |}).
Proof.
  intros [H1 H2] Hcalc. unfold get_gibbs_energy_from_molecule_name.
  rewrite H1. simpl. rewrite H2. simpl. run_calculation Hcalc.
Qed.

Lemma get_saved_file_records (name : string) (calculator : gmap string json)
    (output_path smiles : string) (atomsdata : AtomsData) (e : exn) :
  converts tools name smiles atomsdata →
  calculation_raises tools (input_of atomsdata "opt" calculator None) e →
  get_saved_file_from_molecule_name tools name calculator output_path
  = Ok (JStr ("Error message: " +:+ exn_msg e)).
Proof.
  intros [H1 H2] Hcalc. unfold get_saved_file_from_molecule_name.
  rewrite H1. simpl. rewrite H2. simpl. run_calculation Hcalc.
Qed.

(** The conversions stand before the [try] in four functions: what they
    raise reaches the caller. *)
Lemma conversion_failure_propagates (name : string)
    (calculator : gmap string json) (temperature : Z) (output_path : string)
    (e : exn) :
  conversion_raises tools name e →
  get_geometry_optimization_from_molecule_name tools name calculator = Raise e
  ∧ get_vibrational_frequencies_from_molecule_name tools name calculator
    = Raise e
  ∧ get_gibbs_energy_from_molecule_name tools name calculator temperature
    = Raise e
  ∧ get_saved_file_from_molecule_name tools name calculator output_path
    = Raise e.
Proof.
  intros Hconv.
  unfold get_geometry_optimization_from_molecule_name,
    get_vibrational_frequencies_from_molecule_name,
    get_gibbs_energy_from_molecule_name, get_saved_file_from_molecule_name.
  destruct Hconv as [H1|smiles H1 H2].
  - rewrite H1. done.
  - rewrite H1. simpl. rewrite H2. done.
Qed.

End Exp6Facts.

Section ToolFailureClaims.
Import Chem Samples.

(** C4, as amended.  An exception raised by a tool or library call made
    inside the [try] block of a manual-workflow function is caught and not
    raised again.  [get_manual_workflow_result] of Exp12 (all of whose calls
    are inside the [try]) returns its workflow with the result value
    "ERROR - <message>"; [get_gibbs_energy_from_molecule_name] of Exp6
    returns its workflow with the result "ERROR - <message>";
    [get_atomsdata_from_molecule_name], and the geometry, vibration and
    saved-file functions of Exp6, return the string
    "Error message: <message>"; in the saved-file function this holds as
    well for the creation of the directory and the writing of the file.  In
    the geometry, vibration, Gibbs and saved-file functions of Exp6 the two
    conversions of the molecule name are called before the [try]: what they
    raise reaches the caller. *)
Theorem C4_tool_failure_inside_try_recorded (tools : Tools) :
  (∀ prop temperature calculator reaction,
     ∃ w,
       Exp12.get_manual_workflow_result tools prop temperature calculator
         reaction = Ok (workflow_json w)
       ∧ ((∃ species e,
             species ∈ (Exp12.reactants reaction ++ Exp12.products reaction)%list
             ∧ Exp12.species_raises tools prop temperature calculator species e) →
          ∃ species e,
            species ∈ (Exp12.reactants reaction ++ Exp12.products reaction)%list
            ∧ Exp12.species_raises tools prop temperature calculator species e
            ∧ dict_get "value" (result w)
              = Some (JStr ("ERROR - " +:+ exn_msg e))))
  ∧ (∀ name e,
       conversion_raises tools name e →
       Exp6.get_atomsdata_from_molecule_name tools name
       = Ok (JStr ("Error message: " +:+ exn_msg e)))
  ∧ (∀ name calculator output_path smiles atomsdata e,
       converts tools name smiles atomsdata →
       calculation_raises tools
         {| Chem.atomsdata := atomsdata; driver := "opt";
            Chem.calculator := calculator; temperature := None |} e →
       Exp6.get_geometry_optimization_from_molecule_name tools name calculator
       = Ok (JStr ("Error message: " +:+ exn_msg e))
       ∧ Exp6.get_saved_file_from_molecule_name tools name calculator
           output_path
         = Ok (JStr ("Error message: " +:+ exn_msg e)))
  ∧ (∀ name calculator smiles atomsdata e,
       converts tools name smiles atomsdata →
       calculation_raises tools
         {| Chem.atomsdata := atomsdata; driver := "vib";
            Chem.calculator := calculator; temperature := None |} e →
       Exp6.get_vibrational_frequencies_from_molecule_name tools name
         calculator
       = Ok (JStr ("Error message: " +:+ exn_msg e)))
  ∧ (∀ name calculator T smiles atomsdata e,
       converts tools name smiles atomsdata →
       calculation_raises tools
         {| Chem.atomsdata := atomsdata; driver := "thermo";
            Chem.calculator := calculator; temperature := Some T |} e →
       ∃ w,
         Exp6.get_gibbs_energy_from_molecule_name tools name calculator T
         = Ok (workflow_json w)
         ∧ result w = JStr ("ERROR - " +:+ exn_msg e))
  ∧ (∀ name calculator T output_path e,
       conversion_raises tools name e →
       Exp6.get_geometry_optimization_from_molecule_name tools name calculator
       = Raise e
       ∧ Exp6.get_vibrational_frequencies_from_molecule_name tools name
           calculator = Raise e
       ∧ Exp6.get_gibbs_energy_from_molecule_name tools name calculator T
         = Raise e
       ∧ Exp6.get_saved_file_from_molecule_name tools name calculator
           output_path = Raise e)
  ∧ (∀ name calculator output_path smiles atomsdata params aseoutput e,
       converts tools name smiles atomsdata →
       ase_input_schema tools
         {| Chem.atomsdata := atomsdata; driver := "opt";
            Chem.calculator := calculator; temperature := None |}
       = Ok params →
       run_ase tools params = Ok aseoutput →
       os_makedirs tools output_path = Raise e
       ∨ (os_makedirs tools output_path = Ok ()
          ∧ save_atomsdata_to_file tools
              (model_dump (final_structure aseoutput))
              (os_path_join output_path (name +:+ ".xyz")) = Raise e) →
       Exp6.get_saved_file_from_molecule_name tools name calculator
         output_path
       = Ok (JStr ("Error message: " +:+ exn_msg e))).
Proof.
  split; [|split; [|split; [|split; [|split; [|split]]]]].
  - intros. apply exp12_tool_failure_recorded.
  - intros. by apply get_atomsdata_records.
  - intros. split.
    + by eapply get_geometry_optimization_records.
    + by eapply get_saved_file_records.
  - intros. by eapply get_vibrational_frequencies_records.
  - intros * Hconv Hcalc. eexists. split.
    + by eapply get_gibbs_energy_records.
    + done.
  - intros. by apply conversion_failure_propagates.
  - intros * [H1 H2] H3 H4 Hio. unfold Exp6.get_saved_file_from_molecule_name.
    rewrite H1. simpl. rewrite H2. simpl. rewrite H3. simpl. rewrite H4. simpl.
    destruct Hio as [H5|[H5 H6]]; rewrite H5; simpl; [done|]. by rewrite H6.
Qed.

Lemma C4_witness :
  Exp6.get_atomsdata_from_molecule_name no_lookup_tools "water"
  = Ok (JStr "Error message: lookup failed")
  ∧ Exp6.get_geometry_optimization_from_molecule_name no_run_tools "water"
      {[ "calculator_type" := JStr "mace_mp" ]}
    = Ok (JStr "Error message: SCF did not converge")
  ∧ Exp6.get_saved_file_from_molecule_name Fixtures.read_only_tools "water"
      {[ "calculator_type" := JStr "mace_mp" ]} "manual_files"
    = Ok (JStr "Error message: Read-only file system").
Proof.
  split; [|split].
  - apply (proj1 (proj2 (C4_tool_failure_inside_try_recorded no_lookup_tools))
             "water" lookup_failed).
    apply name_to_smiles_raises. reflexivity.
  - refine (proj1 (proj1 (proj2 (proj2
              (C4_tool_failure_inside_try_recorded no_run_tools)))
              "water" {[ "calculator_type" := JStr "mace_mp" ]} "manual_files"
              "O" water_atoms (Exn OtherException "SCF did not converge")
              _ _)).
    + split; reflexivity.
    + eapply run_ase_raises; reflexivity.
  - apply (proj2 (proj2 (proj2 (proj2 (proj2 (proj2
             (C4_tool_failure_inside_try_recorded Fixtures.read_only_tools))))))
             "water" {[ "calculator_type" := JStr "mace_mp" ]} "manual_files"
             "O" water_atoms
             {| schema_fields :=
                  {| atomsdata := water_atoms; driver := "opt";
                     calculator := {[ "calculator_type" := JStr "mace_mp" ]};
                     temperature := None |} |}
             water_output (Exn OtherException "Read-only file system")).
    + split; reflexivity.
    + reflexivity.
    + reflexivity.
    + left. reflexivity.
Defined.

(** C4 as stated fails: the name lookup is a tool call inside
    [get_geometry_optimization_from_molecule_name]; when it raises, the
    function returns nothing and the exception reaches the caller. *)
Lemma C4_counterexample :
  molecule_name_to_smiles no_lookup_tools "water" = Raise lookup_failed
  ∧ Exp6.get_geometry_optimization_from_molecule_name no_lookup_tools "water"
      {[ "calculator_type" := JStr "mace_mp" ]}
    = Raise lookup_failed.
Proof. split; reflexivity. Qed.

(** With tools whose lookup fails, Exp12 records the failure. *)
Example exp12_water_formation_error :
  Exp12.get_manual_workflow_result no_lookup_tools "enthalpy" 400
    {[ "calculator_type" := JStr "TBLite" ]} water_formation
  = Ok (JDict {[ "tool_calls" := JList [];
                 "result" :=
                   JDict {[ "value" := JStr "ERROR - lookup failed";
                            "property" := JStr "enthalpy";
                            "unit" := JStr "eV" ]} ]}).
Proof. vm_compute. reflexivity. Qed.

Lemma C8_witness :
  Exp6.get_smiles_from_molecule_name no_lookup_tools "water" = Ok JNull.
Proof.
  apply (C8_get_smiles_returns_None_when_lookup_raises no_lookup_tools "water"
           lookup_failed).
  reflexivity.
Defined.

End ToolFailureClaims.

(** ** The main loops of the manual-workflow scripts *)

Section MetadataFacts.
Import Chem Output.
Context (now : nat → string) (git_rev_parse : nat → Py.result string).

Lemma collect_metadata_ok (idx : nat) (commit : string) :
  git_rev_parse idx = Ok commit →
  collect_metadata now git_rev_parse idx = Ok (metadata (now idx) commit).
Proof. intros H. unfold collect_metadata. by rewrite H. Qed.

Lemma collect_metadata_unknown (idx : nat) (e : exn) :
  git_rev_parse idx = Raise e → exn_cls e = CalledProcessError →
  collect_metadata now git_rev_parse idx = Ok (metadata (now idx) "unknown").
Proof.
  intros H Hcls. unfold collect_metadata, try_except_class. rewrite H.
  by rewrite decide_True.
Qed.

Lemma collect_metadata_propagates (idx : nat) (e : exn) :
  git_rev_parse idx = Raise e → exn_cls e ≠ CalledProcessError →
  collect_metadata now git_rev_parse idx = Raise e.
Proof.
  intros H Hcls. unfold collect_metadata, try_except_class. rewrite H.
  by rewrite decide_False.
Qed.

(** The metadata block either yields a metadata object with the two fields
    or lets through an exception of the lookup that is not a
    [CalledProcessError]. *)
Lemma collect_metadata_cases (idx : nat) :
  (∃ git_commit,
     collect_metadata now git_rev_parse idx
     = Ok (metadata (now idx) git_commit))
  ∨ (∃ e, collect_metadata now git_rev_parse idx = Raise e
          ∧ git_rev_parse idx = Raise e
          ∧ exn_cls e ≠ CalledProcessError).
Proof.
  destruct (git_rev_parse idx) as [commit|e] eqn:H.
  - left. exists commit. by apply collect_metadata_ok.
  - destruct (decide (exn_cls e = CalledProcessError)) as [Hcls|Hcls].
    + left. exists "unknown". by apply (collect_metadata_unknown idx e).
    + right. exists e. split; [by apply collect_metadata_propagates|done].
Qed.

(** [combined_data[name] = {key: v}] followed by
    [combined_data[name]["metadata"] = md]. *)
Lemma set_metadata_entry (key name : string) (v md : json)
    (combined_data : gmap string json) :
  key ≠ "metadata" →
  alter (dict_set "metadata" md) name
    (<[name := JDict {[ key := v ]}]> combined_data)
  = <[name := JDict {[ key := v; "metadata" := md ]}]> combined_data.
Proof.
  intros Hkey. rewrite alter_insert_eq. simpl. do 2 f_equal.
  rewrite <- !insert_empty. by apply insert_insert_ne.
Qed.

End MetadataFacts.

Section Exp12MainFacts.
Import Chem Output Exp12.
Context (tools : Tools).
Context (now : nat → string) (git_rev_parse : nat → Py.result string).

Lemma get_manual_workflow_result_never_raises (prop : string)
    (temperature : Z) (calculator : gmap string json) (reaction : Reaction) :
  ∃ v, get_manual_workflow_result tools prop temperature calculator reaction
       = Ok v.
Proof.
  destruct (exp12_tool_failure_recorded tools prop temperature calculator
              reaction) as (w & -> & _).
  by eexists.
Qed.

(** One turn of the loop of Exp12: the entry of the item is written with its
    metadata, unless the git lookup raises something else than a
    [CalledProcessError]. *)
Lemma exp12_main_body_cases (idx : nat) (reaction : Reaction)
    (combined_data : gmap string json) :
  ∃ manual_workflow,
    (∃ git_commit,
       collect_metadata now git_rev_parse idx
       = Ok (metadata (now idx) git_commit)
       ∧ main_body tools now git_rev_parse idx reaction combined_data
         = Ok (<[reaction_name reaction :=
                   JDict {[ "manual_workflow" := manual_workflow;
                            "metadata" := metadata (now idx) git_commit ]}]>
                 combined_data))
    ∨ (∃ e, main_body tools now git_rev_parse idx reaction combined_data
            = Raise e
            ∧ git_rev_parse idx = Raise e
            ∧ exn_cls e ≠ CalledProcessError).
Proof.
  unfold main_body.
  destruct (get_manual_workflow_result_never_raises "enthalpy" 400
              {[ "calculator_type" := JStr "TBLite";
                 "method" := JStr "GFN2-xTB" ]} reaction) as [wf ->].
  exists wf. simpl.
  destruct (collect_metadata_cases now git_rev_parse idx)
    as [(gc & Hmd)|(e & Hmd & Hgit & Hcls)]; rewrite Hmd; simpl.
  - left. exists gc. split; [done|]. by rewrite set_metadata_entry.
  - right. by exists e.
Qed.

Lemma exp12_main_loop_entries (items : list Reaction) (idx : nat)
    (cd0 cd : gmap string json) :
  main_loop tools now git_rev_parse idx items cd0 = Ok cd →
  map_Forall (λ _, manual_entry) cd0 →
  map_Forall (λ _, manual_entry) cd
  ∧ (∀ k, is_Some (cd0 !! k) → is_Some (cd !! k))
  ∧ (∀ reaction, reaction ∈ items → is_Some (cd !! reaction_name reaction)).
Proof.
  revert idx cd0. induction items as [|reaction rest IH]; intros idx cd0; simpl.
  - intros [= <-] Hall. split; [done|]. split; [done|]. by intros ? ?%elem_of_nil.
  - destruct (exp12_main_body_cases idx reaction cd0)
      as (wf & [(gc & _ & ->)|(e & -> & _)]); simpl; [|done].
    intros Hloop Hall. apply IH in Hloop as (Hall' & Hkeep & Hitems).
    + split; [done|]. split.
      * intros k Hk. apply Hkeep. rewrite lookup_insert_is_Some. 
        destruct (decide (reaction_name reaction = k)); auto.
      * intros r [->|Hr]%elem_of_cons; [|by apply Hitems].
        apply Hkeep. rewrite lookup_insert_eq. by eexists.
    + apply map_Forall_insert_2; [|done]. by exists wf, (now idx), gc.
Qed.

Lemma exp12_main_loop_completes (items : list Reaction) (idx : nat)
    (cd0 : gmap string json) :
  (∀ i e, git_rev_parse i = Raise e → exn_cls e = CalledProcessError) →
  ∃ cd, main_loop tools now git_rev_parse idx items cd0 = Ok cd.
Proof.
  intros Hgit. revert idx cd0.
  induction items as [|reaction rest IH]; intros idx cd0; simpl.
  - by eexists.
  - destruct (exp12_main_body_cases idx reaction cd0)
      as (wf & [(gc & _ & ->)|(e & _ & He & Hcls)]); simpl.
    + apply IH.
    + destruct Hcls. by eapply Hgit.
Qed.

End Exp12MainFacts.

Section Exp6MainFacts.
Import Chem Output Exp6.
Context (tools : Tools).
Context (now : nat → string) (git_rev_parse : nat → Py.result string).

#[local] Abbreviation saved_file molecule :=
  (get_saved_file_from_molecule_name tools (name molecule)
     {[ "calculator_type" := JStr "mace_mp" ]} "manual_files").

(** One turn of the loop of Exp6.  An exception of the workflow function is
    caught and the item skipped; otherwise the entry is written with its
    metadata, unless the git lookup raises something else than a
    [CalledProcessError]. *)
Lemma exp6_main_body_cases (idx : nat) (molecule : Molecule)
    (combined_data : gmap string json) :
  (∃ e, saved_file molecule = Raise e
        ∧ main_body tools now git_rev_parse idx molecule combined_data
          = Ok combined_data)
  ∨ (∃ manual_workflow git_commit,
       saved_file molecule = Ok manual_workflow
       ∧ collect_metadata now git_rev_parse idx
         = Ok (metadata (now idx) git_commit)
       ∧ main_body tools now git_rev_parse idx molecule combined_data
         = Ok (<[name molecule :=
                   JDict {[ "manual_workflow" := manual_workflow;
                            "metadata" := metadata (now idx) git_commit ]}]>
                 combined_data))
  ∨ (∃ manual_workflow e,
       saved_file molecule = Ok manual_workflow
       ∧ main_body tools now git_rev_parse idx molecule combined_data
         = Raise e
       ∧ git_rev_parse idx = Raise e
       ∧ exn_cls e ≠ CalledProcessError).
Proof.
  unfold main_body.
  destruct (saved_file molecule) as [wf|e] eqn:Hwf.
  - right.
    destruct (collect_metadata_cases now git_rev_parse idx)
      as [(gc & Hmd)|(e & Hmd & Hgit & Hcls)]; rewrite Hmd; simpl.
    + left. exists wf, gc. split; [done|]. split; [done|].
      by rewrite set_metadata_entry.
    + right. by exists wf, e.
  - left. by exists e.
Qed.

Lemma exp6_main_loop_entries (items : list Molecule) (idx : nat)
    (cd0 cd : gmap string json) :
  main_loop tools now git_rev_parse idx items cd0 = Ok cd →
  map_Forall (λ _, manual_entry) cd0 →
  map_Forall (λ _, manual_entry) cd.
Proof.
  revert idx cd0. induction items as [|molecule rest IH]; intros idx cd0; simpl.
  - by intros [= <-].
  - destruct (exp6_main_body_cases idx molecule cd0)
      as [(e & _ & ->)|[(wf & gc & _ & _ & ->)|(wf & e & _ & -> & _)]];
      simpl; [| |done].
    + apply IH.
    + intros Hloop Hall. apply IH in Hloop; [done|].
      apply map_Forall_insert_2; [|done]. by exists wf, (now idx), gc.
Qed.

Lemma exp6_main_loop_completes (items : list Molecule) (idx : nat)
    (cd0 : gmap string json) :
  (∀ i e, git_rev_parse i = Raise e → exn_cls e = CalledProcessError) →
  ∃ cd, main_loop tools now git_rev_parse idx items cd0 = Ok cd.
Proof.
  intros Hgit. revert idx cd0.
  induction items as [|molecule rest IH]; intros idx cd0; simpl.
  - by eexists.
  - destruct (exp6_main_body_cases idx molecule cd0)
      as [(e & _ & ->)|[(wf & gc & _ & _ & ->)|(wf & e & _ & _ & He & Hcls)]];
      simpl.
    + apply IH.
    + apply IH.
    + destruct Hcls. by eapply Hgit.
Qed.

End Exp6MainFacts.

Section MetadataClaims.
Import Chem Output Samples.

(** C5, as amended.  When [git rev-parse HEAD] fails with
    [subprocess.CalledProcessError] during the metadata collection of an
    item, the manual-workflow scripts record ["unknown"] as [git_commit] of
    that item and go on.  A failure of another class (the [try] names
    [CalledProcessError] only) is not caught: it ends the run. *)
Theorem C5_git_failure_recorded_as_unknown (tools : Tools)
    (now : nat → string) (git_rev_parse : nat → Py.result string) (idx : nat)
    (e : exn) :
  git_rev_parse idx = Raise e →
  (exn_cls e = CalledProcessError →
   (∀ reaction combined_data,
      ∃ manual_workflow,
        Exp12.main_body tools now git_rev_parse idx reaction combined_data
        = Ok (<[Exp12.reaction_name reaction :=
                  JDict {[ "manual_workflow" := manual_workflow;
                           "metadata" := metadata (now idx) "unknown" ]}]>
                combined_data))
   ∧ (∀ molecule combined_data manual_workflow,
        Exp6.get_saved_file_from_molecule_name tools (Exp6.name molecule)
          {[ "calculator_type" := JStr "mace_mp" ]} "manual_files"
        = Ok manual_workflow →
        Exp6.main_body tools now git_rev_parse idx molecule combined_data
        = Ok (<[Exp6.name molecule :=
                  JDict {[ "manual_workflow" := manual_workflow;
                           "metadata" := metadata (now idx) "unknown" ]}]>
                combined_data)))
  ∧ (exn_cls e ≠ CalledProcessError →
     (∀ reaction combined_data,
        Exp12.main_body tools now git_rev_parse idx reaction combined_data
        = Raise e)
     ∧ (∀ molecule combined_data manual_workflow,
          Exp6.get_saved_file_from_molecule_name tools (Exp6.name molecule)
            {[ "calculator_type" := JStr "mace_mp" ]} "manual_files"
          = Ok manual_workflow →
          Exp6.main_body tools now git_rev_parse idx molecule combined_data
          = Raise e)).
Proof.
  intros Hgit. split; intros Hcls.
  - pose proof (collect_metadata_unknown now _ _ _ Hgit Hcls) as Hmd.
    split.
    + intros reaction cd. unfold Exp12.main_body.
      destruct (get_manual_workflow_result_never_raises tools "enthalpy" 400
                  {[ "calculator_type" := JStr "TBLite";
                     "method" := JStr "GFN2-xTB" ]} reaction) as [wf ->].
      exists wf. simpl. rewrite Hmd. simpl. by rewrite set_metadata_entry.
    + intros molecule cd wf Hwf. unfold Exp6.main_body. rewrite Hwf, Hmd.
      simpl. by rewrite set_metadata_entry.
  - pose proof (collect_metadata_propagates now _ _ _ Hgit Hcls) as Hmd.
    split.
    + intros reaction cd. unfold Exp12.main_body.
      destruct (get_manual_workflow_result_never_raises tools "enthalpy" 400
                  {[ "calculator_type" := JStr "TBLite";
                     "method" := JStr "GFN2-xTB" ]} reaction) as [wf ->].
      simpl. by rewrite Hmd.
    + intros molecule cd wf Hwf. unfold Exp6.main_body. rewrite Hwf, Hmd.
      done.
Qed.

Lemma C5_witness :
  ∃ manual_workflow,
    Exp12.main_body working_tools clock git_not_a_repository 0 water_formation ∅
    = Ok {[ "water formation" :=
              JDict {[ "manual_workflow" := manual_workflow;
                       "metadata" :=
                         metadata "2025-01-01_00-00-00" "unknown" ]} ]}.
Proof.
  destruct (C5_git_failure_recorded_as_unknown working_tools clock
              git_not_a_repository 0 not_a_repository eq_refl)
    as [Hunknown _].
  destruct (Hunknown eq_refl) as [H12 _].
  destruct (H12 water_formation ∅) as [wf Hwf].
  exists wf. exact Hwf.
Defined.

(** C5 as stated fails: when the [git] program is missing, the lookup fails
    with [FileNotFoundError], which the [try] does not catch; the run ends
    with that exception and no output is written. *)
Lemma C5_counterexample :
  git_not_installed 0 = Raise git_missing
  ∧ Exp12.main working_tools clock git_not_installed [water_formation] 10
    = Raise git_missing
  ∧ Exp6.main working_tools clock git_not_installed [water] 15
    = Raise git_missing.
Proof. split; [reflexivity|]. split; vm_compute; reflexivity. Qed.

End MetadataClaims.

(** ** The main loops of the LLM scripts *)

Section AgentFacts.
Import Agent.
Context {State : Type} (cca : ChemGraph State).

Lemma item_cases (query : string) (idx : nat) :
  (∃ llm_workflow state_data, item_succeeds cca query idx llm_workflow state_data)
  ∨ (∃ e, item_raises cca query idx e).
Proof.
  destruct (run cca query idx) as [state|e] eqn:H1.
  2: { right. exists e. by apply run_raises. }
  destruct (get_workflow_from_state cca state) as [wf|e] eqn:H2.
  2: { right. exists e. by eapply get_workflow_raises. }
  destruct (write_state cca idx) as [md|e] eqn:H3.
  2: { right. exists e. by eapply write_state_raises. }
  left. exists wf, md, state. done.
Qed.

End AgentFacts.

Section Exp3Facts.
Import Agent Output Exp3.
Context {State : Type} (cca : ChemGraph State).

#[local] Abbreviation query_of molecule :=
  ("Perform geometry optimization for a molecule " +:+ Exp6.name molecule
   +:+ " using NWChem, PBE and sto-3g").

Lemma exp3_query (name : string) :
  get_query name "name_to_opt" "mace_mp"
  = Ok ("Perform geometry optimization for a molecule " +:+ name
        +:+ " using NWChem, PBE and sto-3g").
Proof. reflexivity. Qed.

(** An item whose three calls go through gets its workflow and metadata. *)
Lemma exp3_main_body_success (idx : nat) (molecule : Exp6.Molecule)
    (combined_data : gmap string json) (llm_workflow state_data : json) :
  item_succeeds cca (query_of molecule) idx llm_workflow state_data →
  main_body cca idx molecule combined_data
  = Ok (<[Exp6.name molecule :=
            JDict {[ "llm_workflow" := llm_workflow;
                     "metadata" := state_data ]}]> combined_data).
Proof.
  intros (state & H1 & H2 & H3). unfold main_body. rewrite exp3_query. simpl.
  rewrite H1. simpl. rewrite H2. simpl. rewrite H3. simpl.
  by rewrite set_metadata_entry.
Qed.

(** An item for which one of the calls raises is recorded with the message
    and nothing is raised. *)
Lemma exp3_main_body_failure (idx : nat) (molecule : Exp6.Molecule)
    (combined_data : gmap string json) (e : exn) :
  item_raises cca (query_of molecule) idx e →
  main_body cca idx molecule combined_data
  = Ok (<[Exp6.name molecule :=
            JDict {[ "llm_workflow" :=
              JDict {[ "result" :=
                         JStr ("Error with running LLM: " +:+ exn_msg e);
                       "tool_calls" := JList [] ]} ]}]> combined_data).
Proof.
  intros Hraise. unfold main_body. rewrite exp3_query. simpl.
  destruct Hraise as [H1|state H1 H2|state wf H1 H2 H3].
  - by rewrite H1.
  - rewrite H1. simpl. by rewrite H2.
  - rewrite H1. simpl. rewrite H2. simpl. by rewrite H3.
Qed.

Lemma exp3_main_body_total (idx : nat) (molecule : Exp6.Molecule)
    (combined_data : gmap string json) :
  ∃ v, main_body cca idx molecule combined_data
       = Ok (<[Exp6.name molecule := v]> combined_data)
     ∧ (llm_entry cca v ∨ llm_error_entry v).
Proof.
  destruct (item_cases cca (query_of molecule) idx)
    as [(wf & md & Hok)|(e & Hraise)].
  - eexists. split; [by apply exp3_main_body_success|].
    left. destruct Hok as (state & _ & _ & H3). by exists wf, idx, md.
  - eexists. split; [by apply exp3_main_body_failure|].
    right. by exists (exn_msg e).
Qed.

Lemma exp3_main_loop_total (items : list Exp6.Molecule) (idx : nat)
    (cd0 : gmap string json) :
  map_Forall (λ _ v, llm_entry cca v ∨ llm_error_entry v) cd0 →
  ∃ cd, main_loop cca idx items cd0 = Ok cd
      ∧ map_Forall (λ _ v, llm_entry cca v ∨ llm_error_entry v) cd
      ∧ (∀ k, is_Some (cd0 !! k) → is_Some (cd !! k))
      ∧ (∀ molecule, molecule ∈ items → is_Some (cd !! Exp6.name molecule)).
Proof.
  revert idx cd0. induction items as [|molecule rest IH]; intros idx cd0 Hall;
    simpl.
  - exists cd0. split; [done|]. split; [done|]. split; [done|].
    by intros ? ?%elem_of_nil.
  - destruct (exp3_main_body_total idx molecule cd0) as (v & -> & Hv). simpl.
    destruct (IH (S idx) (<[Exp6.name molecule := v]> cd0))
      as (cd & Hloop & Hall' & Hkeep & Hitems).
    { by apply map_Forall_insert_2. }
    exists cd. split; [done|]. split; [done|]. split.
    + intros k Hk. apply Hkeep. rewrite lookup_insert_is_Some.
      destruct (decide (Exp6.name molecule = k)); auto.
    + intros m [->|Hm]%elem_of_cons; [|by apply Hitems].
      apply Hkeep. rewrite lookup_insert_eq. by eexists.
Qed.

End Exp3Facts.

Section Exp8Facts.
Import Agent Output Exp8.
Context {State : Type} (cca : ChemGraph State).

#[local] Abbreviation query_of molecule :=
  ("Perform geometry optimization for this SMILES string "
   +:+ Exp6.smiles molecule +:+ " using NWChem, B3LYP and sto-3g").

Lemma exp8_query (smiles : string) :
  get_query smiles "smiles_to_opt" "mace_mp"
  = Ok ("Perform geometry optimization for this SMILES string " +:+ smiles
        +:+ " using NWChem, B3LYP and sto-3g").
Proof. reflexivity. Qed.

Lemma exp8_main_body_success (idx : nat) (molecule : Exp6.Molecule)
    (combined_data : gmap string json) (llm_workflow state_data : json) :
  item_succeeds cca (query_of molecule) idx llm_workflow state_data →
  main_body cca idx molecule combined_data
  = Ok (<[Exp6.smiles molecule :=
            JDict {[ "llm_workflow" := llm_workflow;
                     "metadata" := state_data ]}]> combined_data).
Proof.
  intros (state & H1 & H2 & H3). unfold main_body. rewrite exp8_query. simpl.
  rewrite H1. simpl. rewrite H2. simpl. rewrite H3. simpl.
  by rewrite set_metadata_entry.
Qed.

(** Nothing in the loop of Exp8 catches an exception of the agent. *)
Lemma exp8_main_body_failure (idx : nat) (molecule : Exp6.Molecule)
    (combined_data : gmap string json) (e : exn) :
  item_raises cca (query_of molecule) idx e →
  main_body cca idx molecule combined_data = Raise e.
Proof.
  intros Hraise. unfold main_body. rewrite exp8_query. simpl.
  destruct Hraise as [H1|state H1 H2|state wf H1 H2 H3].
  - by rewrite H1.
  - rewrite H1. simpl. by rewrite H2.
  - rewrite H1. simpl. rewrite H2. simpl. by rewrite H3.
Qed.


Lemma exp8_main_loop_entries (items : list Exp6.Molecule) (idx : nat)
    (cd0 cd : gmap string json) :
  main_loop cca idx items cd0 = Ok cd →
  map_Forall (λ _, llm_entry cca) cd0 →
  map_Forall (λ _, llm_entry cca) cd.
Proof.
  revert idx cd0. induction items as [|molecule rest IH]; intros idx cd0; simpl.
  - by intros [= <-].
  - destruct (item_cases cca (query_of molecule) idx)
      as [(wf & md & Hok)|(e & Hraise)].
    + rewrite (exp8_main_body_success _ _ _ _ _ Hok). simpl.
      intros Hloop Hall. apply IH in Hloop; [done|].
      apply map_Forall_insert_2; [|done].
      destruct Hok as (state & _ & _ & H3). by exists wf, idx, md.
    + by rewrite (exp8_main_body_failure _ _ _ _ Hraise).
Qed.

End Exp8Facts.

Section Exp14Facts.
Import Agent Output Exp14.
Context {State : Type} (cca : ChemGraph State).

(** A turn of the loop of Exp14 that ends normally has written an entry with
    the workflow and what [write_state] returned. *)
Lemma exp14_main_body_entry (idx : nat) (reaction : Exp12.Reaction)
    (state state' : option State) (cd cd' : gmap string json) :
  main_body cca idx reaction (state, cd) = Ok (state', cd') →
  ∃ v, llm_entry cca v ∧ cd' = <[Exp12.reaction_name reaction := v]> cd.
Proof.
  unfold main_body, get_query. simpl.
  destruct (match run cca _ idx with Ok s => Some s | Raise _ => state end)
    as [s|]; [|done].
  destruct (get_workflow_from_state cca s) as [wf|]; simpl; [|done].
  destruct (write_state cca idx) as [md|] eqn:H3; simpl; [|done].
  intros [= _ <-]. eexists. split; [|by rewrite set_metadata_entry].
  by exists wf, idx, md.
Qed.

Lemma exp14_main_loop_entries (items : list Exp12.Reaction) (idx : nat)
    (state state' : option State) (cd0 cd : gmap string json) :
  main_loop cca idx items (state, cd0) = Ok (state', cd) →
  map_Forall (λ _, llm_entry cca) cd0 →
  map_Forall (λ _, llm_entry cca) cd.
Proof.
  revert idx state cd0.
  induction items as [|reaction rest IH]; intros idx state cd0;
    cbn [main_loop].
  - by intros [= <- <-].
  - destruct (main_body cca idx reaction (state, cd0)) as [[st1 cd1]|] eqn:Hb;
      simpl; [|done].
    apply exp14_main_body_entry in Hb as (v & Hv & ->).
    intros Hloop Hall. apply IH in Hloop; [done|].
    by apply map_Forall_insert_2.
Qed.

End Exp14Facts.

Section MockEvalFacts.
Import MockEval.
Context {State Schema : Type}.
Context (cg_run : string → nat → Py.result State).
Context (get_workflow_from_state : State → Py.result LLMWorkflow).
Context (func_descriptions : list Schema).

(** [evaluate_model] has no [try]: an exception of the agent on the first
    query ends the evaluation. *)
Lemma evaluate_model_failure_propagates (q : Query) (rest : list Query)
    (e : exn) :
  cg_run (query q) 0%nat = Raise e →
  evaluate_model cg_run get_workflow_from_state func_descriptions (q :: rest)
  = Raise e.
Proof. intros H. unfold evaluate_model. simpl. by rewrite H. Qed.

End MockEvalFacts.

(** ** Claims on the batch: containment of failures and shape of the output *)

Section BatchClaims.
Import Agent Output Samples.

Lemma slice_to_cons {A} (n : Z) (x : A) (l : list A) :
  (0 < n)%Z → ∃ l', slice_to n (x :: l) = x :: l'.
Proof.
  intros Hn. unfold slice_to.
  destruct (Z.leb_spec 0 n) as [_|?]; [|lia].
  destruct (Z.to_nat n) as [|k] eqn:Hk; [lia|]. by eexists.
Qed.


(** The loop of Exp14 runs [cca.run] inside a [try] whose handler prints the
    exception; the statements after it read [state], which has no value when
    the first call of [run] failed. *)
Example exp14_first_run_fails :
  Exp14.main first_run_fails [water_formation] 10
  = Raise (Exn UnboundLocalError
             "cannot access local variable 'state' where it is not associated with a value").
Proof. vm_compute. reflexivity. Qed.

(** C6 as stated fails: Exp3 writes, for an item whose processing raised, an
    object that has [llm_workflow] and no [metadata]. *)
Lemma C6_counterexample :
  ∃ entry,
    Exp3.main first_run_fails [water] 30 = Ok {[ "water" := entry ]}
    ∧ dict_get "llm_workflow" entry
      = Some (JDict {[ "result" := JStr "Error with running LLM: rate limit";
                       "tool_calls" := JList [] ]})
    ∧ dict_get "metadata" entry = None.
Proof.
  eexists. split; [vm_compute; reflexivity|]. split; vm_compute; reflexivity.
Qed.

End BatchClaims.

(** * Further properties of the scripts *)

#[local] Open Scope list_scope.

(** ** Exp12: the value and the log of [get_manual_workflow_result] *)

Section Exp12Outcomes.
Import Chem Exp12 Outcome.
Context (tools : Tools).
Context (prop : string) (temperature : Z) (calculator : gmap string json).

#[local] Abbreviation process_one := (process_one tools prop temperature calculator).
#[local] Abbreviation process_species_from :=
  (process_species_from tools prop temperature calculator).
#[local] Abbreviation species_ok := (species_ok tools prop temperature calculator).
#[local] Abbreviation species_fails :=
  (species_fails tools prop temperature calculator).
#[local] Abbreviation species_log := (species_log temperature calculator).
#[local] Abbreviation log_of := (log_of temperature calculator).

Lemma extend_calls_nil (w : Workflow) : extend_calls [] w = w.
Proof. destruct w. unfold extend_calls. simpl. by rewrite app_nil_r. Qed.

Lemma extend_calls_app (a b : list json) (w : Workflow) :
  extend_calls b (extend_calls a w) = extend_calls (a ++ b) w.
Proof. unfold extend_calls. simpl. by rewrite app_assoc. Qed.

Lemma process_one_ok (sign : Z) (species : Species) (r : Returned)
    (total : Z) (w : Workflow) :
  species_ok species r →
  process_one sign species total w
  = (Ok (total + sign * ret_value r * coefficient species),
     extend_calls (species_log species r) w).
Proof.
  intros ([H1 H2] & params & aseoutput & H3 & H4 & H5).
  unfold Exp12.process_one, StExn.bind, StExn.lift, StExn.modify, StExn.ret.
  rewrite H1, H2.
  fold (thermo_input temperature calculator (ret_atomsdata r)).
  rewrite H3, H4. unfold getitem. by rewrite H5.
Qed.

Lemma process_one_fails (sign : Z) (species : Species) (e : exn)
    (extra : list json) (total : Z) (w : Workflow) :
  species_fails species e extra →
  process_one sign species total w = (Raise e, extend_calls extra w).
Proof.
  intros Hfail.
  unfold Exp12.process_one, StExn.bind, StExn.lift, StExn.modify, StExn.ret.
  destruct Hfail as [Hc|smiles atomsdata [H1 H2] Hc
                    |smiles atomsdata params aseoutput [H1 H2] H3 H4 H5].
  - rewrite extend_calls_nil. destruct Hc as [H1|smiles H1 H2].
    + by rewrite H1.
    + by rewrite H1, H2.
  - rewrite extend_calls_nil, H1, H2.
    fold (thermo_input temperature calculator atomsdata).
    destruct Hc as [H3|params H3 H4].
    + by rewrite H3.
    + by rewrite H3, H4.
  - rewrite H1, H2. fold (thermo_input temperature calculator atomsdata).
    by rewrite H3, H4, H5.
Qed.

Lemma process_species_from_ok (l : list Species) (rs : list Returned)
    (sign total : Z) (w : Workflow) :
  Forall2 species_ok l rs →
  process_species_from total l sign w
  = (Ok (total + sign * weighted_sum l rs), extend_calls (log_of l rs) w).
Proof.
  intros Hok. revert total w.
  induction Hok as [|species r l rs Hs _ IH]; intros total w; simpl.
  - unfold StExn.ret. rewrite extend_calls_nil. do 2 f_equal. lia.
  - rewrite (stexn_bind_ok _ _ _ _ _ (process_one_ok sign _ _ total w Hs)).
    rewrite IH, extend_calls_app. do 2 f_equal. lia.
Qed.

Lemma process_species_from_fails (l1 l2 : list Species) (r1 : list Returned)
    (species : Species) (e : exn) (extra : list json) (sign total : Z)
    (w : Workflow) :
  Forall2 species_ok l1 r1 → species_fails species e extra →
  process_species_from total (l1 ++ species :: l2) sign w
  = (Raise e, extend_calls (log_of l1 r1 ++ extra) w).
Proof.
  intros Hok Hfail. revert total w.
  induction Hok as [|s r l rs Hs _ IH]; intros total w; simpl.
  - by rewrite (stexn_bind_raise _ _ _ _ _
                  (process_one_fails sign _ _ _ total w Hfail)).
  - rewrite (stexn_bind_ok _ _ _ _ _ (process_one_ok sign _ _ total w Hs)).
    by rewrite IH, extend_calls_app, app_assoc.
Qed.

Lemma set_value_result_with (v : json) (calls : list json) :
  set_value v
    (extend_calls calls
       {| tool_calls := []; result := result_with prop (JNum 0) |})
  = {| tool_calls := calls; result := result_with prop v |}.
Proof.
  unfold set_value, set_result, extend_calls, result_with. simpl.
  by rewrite insert_insert_eq.
Qed.

(** When every call goes through, the value of the result is the sum over
    the products of coefficient times property, minus the same sum over the
    reactants, and the log holds the three entries of each species,
    reactants first, in the order of the dataset. *)
Theorem exp12_reaction_value (reaction : Reaction)
    (rr rp : list Returned) :
  Forall2 species_ok (reactants reaction) rr →
  Forall2 species_ok (products reaction) rp →
  get_manual_workflow_result tools prop temperature calculator reaction
  = Ok (workflow_json
          {| tool_calls :=
               log_of (reactants reaction) rr ++ log_of (products reaction) rp;
             result :=
               result_with prop
                 (JNum (weighted_sum (products reaction) rp
                        - weighted_sum (reactants reaction) rr)) |}).
Proof.
  intros Hr Hp. unfold get_manual_workflow_result, Exp12.try_block,
    process_species.
  fold (result_with prop (JNum 0)).
  erewrite stexn_bind_ok by (by apply process_species_from_ok).
  erewrite stexn_bind_ok by (by apply process_species_from_ok).
  unfold StExn.ret. rewrite extend_calls_app, set_value_result_with.
  do 5 f_equal. lia.
Qed.

(** The failure recorded is the first one met, reactants before products in
    the order of the dataset: the value of the result is "ERROR - " followed
    by its message, the [property] and [unit] entries stay, and the log holds
    the entries of the species processed before, followed by those of the
    failing species when only the lookup of the property failed. *)
Theorem exp12_first_failure_recorded (reaction : Reaction)
    (l1 l2 : list Species) (r1 : list Returned) (species : Species)
    (e : exn) (extra : list json) :
  Forall2 species_ok l1 r1 → species_fails species e extra →
  (reactants reaction = l1 ++ species :: l2 →
   get_manual_workflow_result tools prop temperature calculator reaction
   = Ok (workflow_json
           {| tool_calls := log_of l1 r1 ++ extra;
              result :=
                result_with prop (JStr ("ERROR - " +:+ exn_msg e)) |}))
  ∧ (∀ rr,
       Forall2 species_ok (reactants reaction) rr →
       products reaction = l1 ++ species :: l2 →
       get_manual_workflow_result tools prop temperature calculator reaction
       = Ok (workflow_json
               {| tool_calls :=
                    log_of (reactants reaction) rr ++ log_of l1 r1 ++ extra;
                  result :=
                    result_with prop (JStr ("ERROR - " +:+ exn_msg e)) |})).
Proof.
  intros Hok Hfail. split.
  - intros Hreactants. unfold get_manual_workflow_result, Exp12.try_block,
      process_species.
    fold (result_with prop (JNum 0)). rewrite Hreactants.
    erewrite stexn_bind_raise by (by eapply process_species_from_fails).
    by rewrite set_value_result_with.
  - intros rr Hr Hproducts. unfold get_manual_workflow_result,
      Exp12.try_block, process_species.
    fold (result_with prop (JNum 0)). rewrite Hproducts.
    erewrite stexn_bind_ok by (by apply process_species_from_ok).
    erewrite stexn_bind_raise by (by eapply process_species_from_fails).
    by rewrite extend_calls_app, set_value_result_with.
Qed.

End Exp12Outcomes.

(** ** [find_error.py] *)

Section FindErrorFacts.
Import Chem Outcome FindError.

Lemma contains_error_prefix (message : string) :
  contains "ERROR" ("ERROR - " +:+ message) = true.
Proof. reflexivity. Qed.

(** The test of [find_error.py] on an entry whose value is [v]. *)
Lemma flagged_entry (prop : string) (calls : list json) (v metadata : json) :
  flagged
    (JDict {[ "manual_workflow" :=
                workflow_json
                  {| tool_calls := calls; result := result_with prop v |};
              "metadata" := metadata ]})
  = py_in "ERROR" v.
Proof. reflexivity. Qed.

(** On the entry that Exp12 writes for a reaction, the test of
    [find_error.py] is true when a call for a species raised, and raises
    itself (the [in] test has a number on its right) when every call went
    through. *)
Theorem find_error_on_exp12_entry (tools : Tools) (prop : string)
    (temperature : Z) (calculator : gmap string json)
    (reaction : Exp12.Reaction) (manual_workflow metadata : json) :
  Exp12.get_manual_workflow_result tools prop temperature calculator reaction
  = Ok manual_workflow →
  let entry :=
    JDict {[ "manual_workflow" := manual_workflow; "metadata" := metadata ]} in
  ((∃ species e,
      species ∈ Exp12.reactants reaction ++ Exp12.products reaction
      ∧ Exp12.species_raises tools prop temperature calculator species e) →
   flagged entry = Ok true)
  ∧ ((∀ species e,
        species ∈ Exp12.reactants reaction ++ Exp12.products reaction →
        ¬ Exp12.species_raises tools prop temperature calculator species e) →
     ∃ message, flagged entry = Raise (Exn OtherException message)).
Proof.
  unfold Exp12.get_manual_workflow_result.
  fold (result_with prop (JNum 0)).
  match goal with |- context [Exp12.try_block _ _ _ _ reaction ?w0] =>
    destruct (try_block_cases tools prop temperature calculator reaction w0)
      as [(z & w' & -> & Hr & Hnone)|(e & w' & -> & Hr & s & Hin & Hs)]
  end; intros [= <-]; simpl in Hr; destruct w' as [calls r]; simpl in Hr;
    subst r; split.
  - intros (s & e & Hin & Hs). by destruct (Hnone s e Hin).
  - intros _. eexists. reflexivity.
  - intros _. reflexivity.
  - intros Hnone. by destruct (Hnone s e Hin).
Qed.

(** When the test goes through on every item, the script prints the items
    whose test is true, in the order of the file, and ends normally. *)
Theorem find_error_prints_flagged (data : list (string * json)) :
  Forall (λ p, ∃ b, flagged p.2 = Ok b) data →
  find_error data
  = (fst <$> filter (λ p, is_flagged p.2 = true) data, Ok ()).
Proof.
  induction 1 as [|[item entry] rest [b Hb] _ IH]; [done|].
  simpl in *. rewrite Hb, IH. destruct b.
  - rewrite filter_cons_True; [done|]. unfold is_flagged. simpl. by rewrite Hb.
  - rewrite filter_cons_False; [done|]. unfold is_flagged. simpl. by rewrite Hb.
Qed.

(** The script stops at the first item whose test raises: it has printed the
    flagged items before that one only, and ends with the exception. *)
Theorem find_error_stops_at_first_raise (before after : list (string * json))
    (item : string) (entry : json) (e : exn) :
  Forall (λ p, ∃ b, flagged p.2 = Ok b) before →
  flagged entry = Raise e →
  find_error (before ++ (item, entry) :: after)
  = (fst <$> filter (λ p, is_flagged p.2 = true) before, Raise e).
Proof.
  intros Hbefore Hentry.
  induction Hbefore as [|[item' entry'] rest [b Hb] _ IH]; simpl in *.
  - by rewrite Hentry.
  - rewrite Hb, IH. destruct b.
    + rewrite filter_cons_True; [done|]. unfold is_flagged. simpl.
      by rewrite Hb.
    + rewrite filter_cons_False; [done|]. unfold is_flagged. simpl.
      by rewrite Hb.
Qed.

End FindErrorFacts.

(** ** [get_molecule_from_pubchempy.py] *)

Section PubchemFacts.
Import Pubchem.
Context (lookups : Lookups) (max_natoms min_natoms : Z).

#[local] Abbreviation well_sourced :=
  (well_sourced lookups max_natoms min_natoms).
#[local] Abbreviation loop_invariant :=
  (loop_invariant lookups max_natoms min_natoms).

Lemma try_compound_sound (count : nat) (cid : Z) (m : MoleculeInfo) :
  try_compound lookups max_natoms min_natoms count cid = Some m →
  index m = count ∧ well_sourced m
  ∧ ∃ compound, from_cid lookups cid = Ok compound
                ∧ compound_name compound = Some (name m).
Proof.
  unfold try_compound.
  destruct (from_cid lookups cid) as [compound|]; [|done].
  destruct (compound_name compound) as [nm|] eqn:Hname; [|done].
  case_decide as Hnm; [done|].
  destruct (molecule_name_to_smiles lookups nm) as [smi|] eqn:Hsmi; [|done].
  destruct (atom_numbers lookups smi) as [numbers|] eqn:Hnum; [|done].
  case_decide as Hlen; [|done].
  intros [= <-]. simpl. split; [done|]. split.
  - split; [done|]. simpl. split; [lia|]. split; [done|]. by exists numbers.
  - exists compound. simpl. by split.
Qed.

Lemma random_loop_sound (draws : list Z) (n : Z) (output : list MoleculeInfo)
    (tried : gset Z) (count : nat) (out : list MoleculeInfo) :
  loop_invariant output count →
  (Z.of_nat (length output) ≤ Z.max 0 n)%Z →
  random_loop lookups max_natoms min_natoms draws n output tried count
  = Some out →
  loop_invariant out (length out) ∧ Z.of_nat (length out) = Z.max 0 n.
Proof.
  revert output tried count.
  induction draws as [|cid draws IH]; intros output tried count Hinv Hlen;
    simpl.
  - case_decide as Hn; [done|]. intros [= <-]. destruct Hinv as [Hc Hall].
    split; [by split|lia].
  - case_decide as Hn.
    2: { intros [= <-]. destruct Hinv as [Hc Hall]. split; [by split|lia]. }
    case_decide as Htried; [by apply IH|].
    destruct (try_compound lookups max_natoms min_natoms count cid) as [m|]
      eqn:Hm; [|by apply IH].
    apply try_compound_sound in Hm as (Hidx & Hm & _).
    apply IH.
    + destruct Hinv as [Hc Hall]. split.
      * rewrite length_app. simpl. lia.
      * intros i m' Hi. apply lookup_app_Some in Hi as [Hi|[Hge Hi]].
        { by apply Hall. }
        destruct (i - length output)%nat as [|k] eqn:Hk; simpl in Hi; [|done].
        injection Hi as <-. split; [lia|done].
    + rewrite length_app. simpl. lia.
Qed.

(** When the function returns, the output has [n] molecules (none when [n]
    is negative), the molecule at position [i] carries the index [i], and
    each molecule has a non-empty name, the SMILES string and the number of
    atoms the tools gave for it, with the number of atoms strictly between
    [min_natoms] and [max_natoms]. *)
Theorem get_random_molecule_names_sound (draws : list Z) (n : Z)
    (out : list MoleculeInfo) :
  get_random_molecule_names lookups max_natoms min_natoms draws n = Some out →
  Z.of_nat (length out) = Z.max 0 n
  ∧ ∀ i m, out !! i = Some m → index m = i ∧ well_sourced m.
Proof.
  intros Hrun. unfold get_random_molecule_names in Hrun.
  apply random_loop_sound in Hrun as [[_ Hall] Hlen].
  - by split.
  - split; [done|]. intros i m Hi. by rewrite lookup_nil in Hi.
  - simpl. lia.
Qed.

(** With bounds that leave no number of atoms in between, no molecule is
    ever accepted: a call that asks for at least one molecule does not
    return, whatever the values drawn. *)
Theorem get_random_molecule_names_empty_range (draws : list Z) (n : Z) :
  (max_natoms ≤ min_natoms + 1)%Z → (0 < n)%Z →
  get_random_molecule_names lookups max_natoms min_natoms draws n = None.
Proof.
  intros Hrange Hn. unfold get_random_molecule_names.
  generalize (∅ : gset Z) as tried.
  induction draws as [|cid draws IH]; intros tried; simpl.
  - case_decide; [done|lia].
  - case_decide; [|lia]. case_decide; [apply IH|].
    destruct (try_compound lookups max_natoms min_natoms 0 cid) as [m|] eqn:Hm;
      [|apply IH].
    apply try_compound_sound in Hm as (_ & (_ & Hb & _) & _). lia.
Qed.

(** A value drawn again changes nothing: the result is that of the draws
    with the second occurrence left out. *)
Lemma random_loop_tried (draws : list Z) (n : Z) (output : list MoleculeInfo)
    (tried : gset Z) (count : nat) (cid : Z) :
  cid ∈ tried → (Z.of_nat (length output) < n)%Z →
  random_loop lookups max_natoms min_natoms (cid :: draws) n output tried count
  = random_loop lookups max_natoms min_natoms draws n output tried count.
Proof. intros Hin Hn. simpl. by rewrite !decide_True. Qed.

End PubchemFacts.

Section PubchemLiveness.
Import Pubchem.
Context (lookups : Lookups) (max_natoms min_natoms : Z).

Lemma try_compound_count (count count' : nat) (cid : Z) :
  is_Some (try_compound lookups max_natoms min_natoms count cid) →
  is_Some (try_compound lookups max_natoms min_natoms count' cid).
Proof.
  unfold try_compound.
  destruct (from_cid lookups cid) as [compound|]; [|done].
  destruct (compound_name compound) as [nm|]; [|done].
  case_decide; [done|].
  destruct (molecule_name_to_smiles lookups nm) as [smi|]; [|done].
  destruct (atom_numbers lookups smi) as [numbers|]; [|done].
  case_decide; [|done]. by intros _.
Qed.

Lemma random_loop_returns (draws : list Z) (n : Z)
    (output : list MoleculeInfo) (tried : gset Z) (count : nat) :
  NoDup draws →
  Forall
    (λ cid,
       (cid ∉ tried)
       ∧ is_Some (try_compound lookups max_natoms min_natoms 0 cid))
    draws →
  (n ≤ Z.of_nat (length output) + Z.of_nat (length draws))%Z →
  is_Some (random_loop lookups max_natoms min_natoms draws n output tried count).
Proof.
  revert output tried count.
  induction draws as [|cid draws IH]; intros output tried count Hnodup Hall Hn;
    simpl.
  - case_decide; [simpl in Hn; lia|done].
  - case_decide; [|done].
    apply NoDup_cons in Hnodup as [Hcid Hnodup].
    apply Forall_cons in Hall as [[Hfresh Hq] Hall].
    rewrite decide_False by done.
    apply (try_compound_count 0 count) in Hq as [m ->].
    apply IH; [done| |].
    + rewrite Forall_forall in Hall. apply Forall_forall. intros x Hx.
      destruct (Hall x Hx) as [Hx1 Hx2]. split; [|done].
      apply not_elem_of_union. split; [|done].
      apply not_elem_of_singleton. by intros ->.
    + rewrite length_app. simpl in *. lia.
Qed.

(** The function returns as soon as the values drawn hold [n] different
    compound ids that all pass the [try] block. *)
Theorem get_random_molecule_names_returns (draws : list Z) (n : Z) :
  NoDup draws →
  Forall (λ cid, is_Some (try_compound lookups max_natoms min_natoms 0 cid))
    draws →
  (n ≤ Z.of_nat (length draws))%Z →
  ∃ out,
    get_random_molecule_names lookups max_natoms min_natoms draws n = Some out
    ∧ Z.of_nat (length out) = Z.max 0 n.
Proof.
  intros Hnodup Hall Hn.
  destruct (random_loop_returns draws n [] ∅ 0 Hnodup) as [out Hout].
  - eapply Forall_impl; [exact Hall|]. intros cid Hq. split; [|done].
    apply not_elem_of_empty.
  - simpl. lia.
  - exists out. split; [done|].
    apply (random_loop_sound lookups max_natoms min_natoms draws n [] ∅ 0 out);
      [|simpl; lia|done].
    split; [done|]. intros i m Hi. by rewrite lookup_nil in Hi.
Qed.

End PubchemLiveness.

(** ** [evaluate_model]: the value returned *)

Section EvaluateModelFacts.
Import ToolCallEval MockEval Outcome.
Context {State Schema : Type}.
Context (cg_run : string → nat → Py.result State).
Context (get_workflow_from_state : State → Py.result LLMWorkflow).
Context (func_descriptions : list Schema).

#[local] Abbreviation agent_answers :=
  (agent_answers cg_run get_workflow_from_state).
#[local] Abbreviation agent_fails :=
  (agent_fails cg_run get_workflow_from_state).
#[local] Abbreviation count_accurate := (count_accurate func_descriptions).

Lemma agent_answers_length (idx : nat) (qs : list Query)
    (ws : list LLMWorkflow) :
  agent_answers idx qs ws → length ws = length qs.
Proof.
  revert idx ws. induction qs as [|q qs IH]; intros idx [|w ws]; simpl;
    try done.
  intros [_ H]. f_equal. by eapply IH.
Qed.

Lemma collect_tool_calls_ok (idx : nat) (qs : list Query)
    (ws acc : list LLMWorkflow) :
  agent_answers idx qs ws →
  collect_tool_calls cg_run get_workflow_from_state idx qs acc
  = Ok (acc ++ ws).
Proof.
  revert idx ws acc. induction qs as [|q qs IH]; intros idx [|w ws] acc; simpl;
    try done.
  - intros _. by rewrite app_nil_r.
  - intros [(state & H1 & H2) Hrest]. rewrite H1. simpl. rewrite H2. simpl.
    rewrite (IH _ _ _ Hrest). by rewrite <- app_assoc.
Qed.

Lemma collect_tool_calls_fails (idx : nat) (qs1 qs2 : list Query) (q : Query)
    (ws1 acc : list LLMWorkflow) (e : exn) :
  agent_answers idx qs1 ws1 →
  agent_fails (idx + length qs1) q e →
  collect_tool_calls cg_run get_workflow_from_state idx (qs1 ++ q :: qs2) acc
  = Raise e.
Proof.
  revert idx ws1 acc.
  induction qs1 as [|q1 qs1 IH]; intros idx [|w ws1] acc; simpl; try done.
  - intros _. rewrite Nat.add_0_r. intros [H1|(state & H1 & H2)].
    + by rewrite H1.
    + rewrite H1. simpl. by rewrite H2.
  - intros [(state & H1 & H2) Hrest] Hfail. rewrite H1. simpl. rewrite H2.
    simpl. eapply IH; [done|]. by rewrite Nat.add_succ_l, <- Nat.add_succ_r.
Qed.


Lemma evaluation_loop_count (list_of_queries : list Query) (idx : nat)
    (ws : list LLMWorkflow) (qs : list Query) (accurate : nat)
    (eval_details : gmap string EvaluationResult) :
  length ws = length qs →
  (∀ i q, qs !! i = Some q → list_of_queries !! (idx + i)%nat = Some q) →
  ∃ eval_details',
    evaluation_loop func_descriptions list_of_queries idx ws
      (accurate, eval_details)
    = Ok ((accurate + count_accurate ws qs)%nat, eval_details').
Proof.
  revert idx qs accurate eval_details.
  induction ws as [|w ws IH]; intros idx [|q qs] accurate eval_details Hlen Hqs;
    simpl in *; try done.
  - exists eval_details. by rewrite Nat.add_0_r.
  - pose proof (Hqs 0%nat q eq_refl) as H0. rewrite Nat.add_0_r in H0.
    rewrite H0. simpl.
    destruct (IH (S idx) qs
                (if decide
                      (acc_n_toolcalls
                         (multi_function_checker_with_order func_descriptions
                            (default [] (tool_calls w))
                            (default [] (answer_tool_calls q)))
                       = n_toolcalls
                           (multi_function_checker_with_order
                              func_descriptions (default [] (tool_calls w))
                              (default [] (answer_tool_calls q))))
                 then S accurate else accurate)
                (<[query q :=
                     multi_function_checker_with_order func_descriptions
                       (default [] (tool_calls w))
                       (default [] (answer_tool_calls q))]> eval_details))
      as [d' Hd'].
    + lia.
    + intros i q' Hi. specialize (Hqs (S i) q' Hi).
      by rewrite Nat.add_succ_l, <- Nat.add_succ_r.
    + exists d'. simpl in Hd'. rewrite Hd'. do 2 f_equal.
      unfold fully_accurate. simpl.
      case_decide as Hd; [rewrite bool_decide_eq_true_2 by done
                         |rewrite bool_decide_eq_false_2 by done]; lia.
Qed.

Lemma evaluate_model_percentage (qs : list Query) (ws : list LLMWorkflow) :
  qs ≠ [] → agent_answers 0 qs ws →
  evaluate_model cg_run get_workflow_from_state func_descriptions qs
  = Ok (inject_Z (Z.of_nat (count_accurate ws qs))
        / inject_Z (Z.of_nat (length qs)) * 100)%Q.
Proof.
  intros Hne Hagent.
  pose proof (agent_answers_length _ _ _ Hagent) as Hlen.
  assert (length qs ≠ 0%nat) as Hpos by by destruct qs.
  unfold evaluate_model.
  rewrite (collect_tool_calls_ok 0 qs ws [] Hagent). simpl.
  destruct (evaluation_loop_count qs 0 ws qs 0 ∅ Hlen) as [d' Hd'];
    [done|].
  rewrite Hd'. simpl. unfold percentage. rewrite Hlen.
  by rewrite decide_False.
Qed.


(** An agent that reproduces the expected calls of every query gets 100. *)
Theorem evaluate_model_perfect (qs : list Query) (ws : list LLMWorkflow) :
  qs ≠ [] → agent_answers 0 qs ws →
  Forall2 (λ w q, default [] (tool_calls w) = default [] (answer_tool_calls q))
    ws qs →
  ∃ accuracy,
    evaluate_model cg_run get_workflow_from_state func_descriptions qs
    = Ok accuracy
    ∧ (accuracy == 100)%Q.
Proof.
  intros Hne Hagent Hsame.
  rewrite (evaluate_model_percentage qs ws Hne Hagent).
  eexists. split; [done|].
  assert (count_accurate ws qs = length qs) as ->.
  { clear Hne Hagent. induction Hsame as [|w q ws qs Heq _ IH]; [done|].
    simpl. rewrite IH. unfold fully_accurate. rewrite Heq. simpl.
    rewrite bool_decide_eq_true_2; [done|].
    rewrite align_same. apply align_length. }
  assert (length qs ≠ 0%nat) as Hpos by by destruct qs.
  field. intros H0. unfold Qeq in H0. simpl in H0. lia.
Qed.

(** [evaluate_model] has no [try]: the first query on which the agent fails,
    at whatever position, ends the evaluation with the exception of the
    agent; no accuracy is returned. *)
Theorem evaluate_model_first_failure (qs1 qs2 : list Query) (q : Query)
    (ws1 : list LLMWorkflow) (e : exn) :
  agent_answers 0 qs1 ws1 →
  agent_fails (length qs1) q e →
  evaluate_model cg_run get_workflow_from_state func_descriptions
    (qs1 ++ q :: qs2)
  = Raise e.
Proof.
  intros Hagent Hfail. unfold evaluate_model.
  by rewrite (collect_tool_calls_fails 0 qs1 qs2 q ws1 [] e Hagent Hfail).
Qed.

End EvaluateModelFacts.

(** ** Exp6: failures inside the [try] other than those of the calculation *)

Section Exp6MoreFacts.
Import Chem Exp6.
Context (tools : Tools).

#[local] Abbreviation input_of atomsdata driver calculator temperature :=
  {| Chem.atomsdata := atomsdata; Chem.driver := driver;
     Chem.calculator := calculator; Chem.temperature := temperature |}.

(** A calculation that returns an output without the entry read from it is
    recorded like a failure of a tool, with the missing key in quotes as the
    message: the string "Error message: 'frequencies'" for the vibrations,
    the workflow with result "ERROR - 'gibbs_free_energy'" for the Gibbs
    energy. *)
Theorem exp6_missing_output_key (name : string)
    (calculator : gmap string json) (smiles : string) (atomsdata : AtomsData)
    (params : ASEInputSchema) (aseoutput : ASEOutput) :
  converts tools name smiles atomsdata →
  run_ase tools params = Ok aseoutput →
  (ase_input_schema tools (input_of atomsdata "vib" calculator None)
   = Ok params →
   vibrational_frequencies aseoutput !! "frequencies" = None →
   get_vibrational_frequencies_from_molecule_name tools name calculator
   = Ok (JStr "Error message: 'frequencies'"))
  ∧ (∀ temperature,
       ase_input_schema tools
         (input_of atomsdata "thermo" calculator (Some temperature))
       = Ok params →
       thermochemistry aseoutput !! "gibbs_free_energy" = None →
       get_gibbs_energy_from_molecule_name tools name calculator temperature
       = Ok (workflow_json
               {| tool_calls :=
                    ase_calls name smiles
                      (input_of atomsdata "thermo" calculator
                         (Some temperature));
                  result := JStr "ERROR - 'gibbs_free_energy'" |})).
Proof.
  intros [H1 H2] H4. split.
  - intros H3 Hkey. unfold get_vibrational_frequencies_from_molecule_name.
    rewrite H1. simpl. rewrite H2. simpl. rewrite H3. simpl. rewrite H4. simpl.
    unfold getitem. by rewrite Hkey.
  - intros temperature H3 Hkey. unfold get_gibbs_energy_from_molecule_name.
    rewrite H1. simpl. rewrite H2. simpl. rewrite H3. simpl. rewrite H4. simpl.
    unfold getitem. by rewrite Hkey.
Qed.

(** In [get_saved_file_from_molecule_name] the creation of the directory and
    the writing of the file are inside the [try]: when either raises after a
    calculation that went through, the function returns the string
    "Error message: <message>". *)
Theorem exp6_saved_file_io_failure (name : string)
    (calculator : gmap string json) (output_path smiles : string)
    (atomsdata : AtomsData) (params : ASEInputSchema) (aseoutput : ASEOutput)
    (e : exn) :
  converts tools name smiles atomsdata →
  ase_input_schema tools (input_of atomsdata "opt" calculator None)
  = Ok params →
  run_ase tools params = Ok aseoutput →
  os_makedirs tools output_path = Raise e
  ∨ (os_makedirs tools output_path = Ok ()
     ∧ save_atomsdata_to_file tools (model_dump (final_structure aseoutput))
         (os_path_join output_path (name +:+ ".xyz")) = Raise e) →
  get_saved_file_from_molecule_name tools name calculator output_path
  = Ok (JStr ("Error message: " +:+ exn_msg e)).
Proof.
  intros [H1 H2] H3 H4 Hio. unfold get_saved_file_from_molecule_name.
  rewrite H1. simpl. rewrite H2. simpl. rewrite H3. simpl. rewrite H4. simpl.
  destruct Hio as [H5|[H5 H6]]; rewrite H5; simpl; [done|]. by rewrite H6.
Qed.

Context (now : nat → string) (git_rev_parse : nat → Py.result string).

(** The loop of Exp6 skips an item only when a conversion of its name
    raises.  When the calculation raises, the workflow function returns the
    string "Error message: <message>" and the loop stores that string under
    [manual_workflow], with the metadata, where a workflow object would
    stand. *)
Theorem exp6_main_stores_error_string (idx : nat) (molecule : Molecule)
    (combined_data : gmap string json) (e : exn) (metadata : json) :
  collect_metadata now git_rev_parse idx = Ok metadata →
  (conversion_raises tools (name molecule) e →
   main_body tools now git_rev_parse idx molecule combined_data
   = Ok combined_data)
  ∧ (∀ smiles atomsdata,
       converts tools (name molecule) smiles atomsdata →
       calculation_raises tools
         (input_of atomsdata "opt" {[ "calculator_type" := JStr "mace_mp" ]}
            None) e →
       main_body tools now git_rev_parse idx molecule combined_data
       = Ok (<[name molecule :=
                 JDict {[ "manual_workflow" :=
                            JStr ("Error message: " +:+ exn_msg e);
                          "metadata" := metadata ]}]> combined_data)).
Proof.
  intros Hmd. split.
  - intros Hconv. unfold main_body.
    destruct (conversion_failure_propagates tools (name molecule)
                {[ "calculator_type" := JStr "mace_mp" ]} 0 "manual_files" e
                Hconv) as (_ & _ & _ & ->).
    done.
  - intros smiles atomsdata Hconv Hcalc. unfold main_body.
    rewrite (get_saved_file_records tools _ _ "manual_files" _ _ _ Hconv Hcalc).
    rewrite Hmd. simpl. by rewrite set_metadata_entry.
Qed.

End Exp6MoreFacts.

(** ** The keys of the output *)

Section OutputKeys.
Import Chem Agent.

Lemma is_Some_insert_iff {A} (m : gmap string A) (k k' : string) (v : A) :
  is_Some (<[k := v]> m !! k') ↔ k = k' ∨ is_Some (m !! k').
Proof.
  rewrite lookup_insert_is_Some. split.
  - intros [->|[_ H]]; auto.
  - intros [->|H]; [by left|]. destruct (decide (k = k')); auto.
Qed.

Lemma exp12_main_loop_keys (tools : Tools) (now : nat → string)
    (git_rev_parse : nat → Py.result string) (items : list Exp12.Reaction)
    (idx : nat) (cd0 cd : gmap string json) (k : string) :
  Exp12.main_loop tools now git_rev_parse idx items cd0 = Ok cd →
  is_Some (cd !! k)
  ↔ is_Some (cd0 !! k)
    ∨ ∃ reaction, reaction ∈ items ∧ Exp12.reaction_name reaction = k.
Proof.
  revert idx cd0. induction items as [|reaction rest IH]; intros idx cd0; simpl.
  - intros [= <-]. split; [by left|]. intros [H|(r & Hr & _)]; [done|].
    by apply elem_of_nil in Hr.
  - destruct (exp12_main_body_cases tools now git_rev_parse idx reaction cd0)
      as (wf & [(gc & _ & ->)|(e & -> & _)]); simpl; [|done].
    intros Hloop. rewrite (IH _ _ Hloop), is_Some_insert_iff. split.
    + intros [[Hk|Hk]|(r & Hr & Hk)].
      * right. exists reaction. split; [apply list_elem_of_here|done].
      * by left.
      * right. exists r. split; [by apply list_elem_of_further|done].
    + intros [Hk|(r & Hr & Hk)]; [by left; right|].
      apply elem_of_cons in Hr as [->|Hr]; [by left; left|].
      right. by exists r.
Qed.

(** The output of Exp12 has a key for each reaction processed and no other
    key. *)
Theorem exp12_output_keys (tools : Tools) (now : nat → string)
    (git_rev_parse : nat → Py.result string) (reactions : list Exp12.Reaction)
    (n_reactions : Z) (combined_data : gmap string json) (k : string) :
  Exp12.main tools now git_rev_parse reactions n_reactions = Ok combined_data →
  is_Some (combined_data !! k)
  ↔ ∃ reaction,
      reaction ∈ slice_to n_reactions reactions
      ∧ Exp12.reaction_name reaction = k.
Proof.
  intros Hmain. unfold Exp12.main in Hmain.
  rewrite (exp12_main_loop_keys _ _ _ _ _ _ _ k Hmain), lookup_empty.
  split; [intros [[? [=]]|H]; done|by right].
Qed.

Lemma exp6_main_loop_keys (tools : Tools) (now : nat → string)
    (git_rev_parse : nat → Py.result string) (items : list Exp6.Molecule)
    (idx : nat) (cd0 cd : gmap string json) (k : string) :
  Exp6.main_loop tools now git_rev_parse idx items cd0 = Ok cd →
  is_Some (cd !! k)
  ↔ is_Some (cd0 !! k)
    ∨ ∃ molecule,
        molecule ∈ items ∧ Exp6.name molecule = k
        ∧ ∃ manual_workflow,
            Exp6.get_saved_file_from_molecule_name tools (Exp6.name molecule)
              {[ "calculator_type" := JStr "mace_mp" ]} "manual_files"
            = Ok manual_workflow.
Proof.
  revert idx cd0. induction items as [|molecule rest IH]; intros idx cd0; simpl.
  - intros [= <-]. split; [by left|]. intros [H|(m & Hm & _)]; [done|].
    by apply elem_of_nil in Hm.
  - destruct (exp6_main_body_cases tools now git_rev_parse idx molecule cd0)
      as [(e & He & ->)|[(wf & gc & Hwf & _ & ->)|(wf & e & _ & -> & _)]];
      simpl; [| |done].
    + intros Hloop. rewrite (IH _ _ Hloop). split.
      * intros [Hk|(m & Hm & Hk & Hok)]; [by left|].
        right. exists m. split; [by apply list_elem_of_further|done].
      * intros [Hk|(m & Hm & Hk & wf & Hok)]; [by left|].
        apply elem_of_cons in Hm as [->|Hm]; [congruence|].
        right. exists m. split; [done|]. split; [done|]. by exists wf.
    + intros Hloop. rewrite (IH _ _ Hloop), is_Some_insert_iff. split.
      * intros [[Hk|Hk]|(m & Hm & Hk & Hok)].
        { right. exists molecule. split; [apply list_elem_of_here|].
          split; [done|]. by exists wf. }
        { by left. }
        { right. exists m. split; [by apply list_elem_of_further|done]. }
      * intros [Hk|(m & Hm & Hk & Hok)]; [by left; right|].
        apply elem_of_cons in Hm as [->|Hm]; [by left; left|].
        right. by exists m.
Qed.

(** The output of Exp6 has a key for each molecule processed whose workflow
    function returned (a workflow or an error string), and no other key: the
    molecules whose workflow function raised leave no trace. *)
Theorem exp6_output_keys (tools : Tools) (now : nat → string)
    (git_rev_parse : nat → Py.result string) (smiles_data : list Exp6.Molecule)
    (n_structures : Z) (combined_data : gmap string json) (k : string) :
  Exp6.main tools now git_rev_parse smiles_data n_structures
  = Ok combined_data →
  is_Some (combined_data !! k)
  ↔ ∃ molecule,
      molecule ∈ slice_to n_structures smiles_data
      ∧ Exp6.name molecule = k
      ∧ ∃ manual_workflow,
          Exp6.get_saved_file_from_molecule_name tools (Exp6.name molecule)
            {[ "calculator_type" := JStr "mace_mp" ]} "manual_files"
          = Ok manual_workflow.
Proof.
  intros Hmain. unfold Exp6.main in Hmain.
  rewrite (exp6_main_loop_keys _ _ _ _ _ _ _ k Hmain), lookup_empty.
  split; [intros [[? [=]]|H]; done|by right].
Qed.

Context {State : Type} (cca : ChemGraph State).

Lemma exp3_main_loop_keys (items : list Exp6.Molecule) (idx : nat)
    (cd0 cd : gmap string json) (k : string) :
  Exp3.main_loop cca idx items cd0 = Ok cd →
  is_Some (cd !! k)
  ↔ is_Some (cd0 !! k)
    ∨ ∃ molecule, molecule ∈ items ∧ Exp6.name molecule = k.
Proof.
  revert idx cd0. induction items as [|molecule rest IH]; intros idx cd0; simpl.
  - intros [= <-]. split; [by left|]. intros [H|(m & Hm & _)]; [done|].
    by apply elem_of_nil in Hm.
  - destruct (exp3_main_body_total cca idx molecule cd0) as (v & -> & _).
    simpl. intros Hloop. rewrite (IH _ _ Hloop), is_Some_insert_iff. split.
    + intros [[Hk|Hk]|(m & Hm & Hk)].
      * right. exists molecule. split; [apply list_elem_of_here|done].
      * by left.
      * right. exists m. split; [by apply list_elem_of_further|done].
    + intros [Hk|(m & Hm & Hk)]; [by left; right|].
      apply elem_of_cons in Hm as [->|Hm]; [by left; left|].
      right. by exists m.
Qed.

(** The output of Exp3 has a key for each molecule processed, whether the
    agent failed on it or not, and no other key. *)
Theorem exp3_output_keys (smiles_data : list Exp6.Molecule) (n_structures : Z)
    (k : string) :
  ∃ combined_data,
    Exp3.main cca smiles_data n_structures = Ok combined_data
    ∧ (is_Some (combined_data !! k)
       ↔ ∃ molecule,
           molecule ∈ slice_to n_structures smiles_data
           ∧ Exp6.name molecule = k).
Proof.
  unfold Exp3.main.
  destruct (exp3_main_loop_total cca (slice_to n_structures smiles_data) 0 ∅)
    as (cd & Hloop & _); [apply map_Forall_empty|].
  exists cd. split; [done|].
  rewrite (exp3_main_loop_keys _ _ _ _ k Hloop), lookup_empty.
  split; [intros [[? [=]]|H]; done|by right].
Qed.

End OutputKeys.

(** ** Exp8: all or nothing *)

Section Exp8Outcome.
Import Agent.
Context {State : Type} (cca : ChemGraph State).

#[local] Abbreviation query_of molecule :=
  ("Perform geometry optimization for this SMILES string "
   +:+ Exp6.smiles molecule +:+ " using NWChem, B3LYP and sto-3g").

Lemma item_raises_not_succeeds (query : string) (idx : nat) (e : exn)
    (llm_workflow state_data : json) :
  item_raises cca query idx e →
  ¬ item_succeeds cca query idx llm_workflow state_data.
Proof.
  intros Hraise (state & H1 & H2 & H3).
  destruct Hraise as [H1'|s H1' H2'|s wf H1' H2' H3']; congruence.
Qed.

Lemma exp8_main_loop_completes_iff (items : list Exp6.Molecule) (idx : nat)
    (cd0 : gmap string json) :
  (∃ cd, Exp8.main_loop cca idx items cd0 = Ok cd)
  ↔ ∀ i molecule,
      items !! i = Some molecule →
      ∃ llm_workflow state_data,
        item_succeeds cca (query_of molecule) (idx + i) llm_workflow
          state_data.
Proof.
  revert idx cd0. induction items as [|molecule rest IH]; intros idx cd0; simpl.
  - split; [by intros _ i m ?|by eexists].
  - destruct (item_cases cca (query_of molecule) idx)
      as [(wf & md & Hok)|(e & Hraise)].
    + rewrite (exp8_main_body_success _ _ _ _ _ _ Hok). simpl.
      rewrite IH. split.
      * intros Hall [|i] m Hi; simpl in Hi.
        { injection Hi as <-. rewrite Nat.add_0_r. by exists wf, md. }
        { rewrite <- Nat.add_succ_comm. by apply Hall. }
      * intros Hall i m Hi. rewrite Nat.add_succ_comm. by apply (Hall (S i)).
    + rewrite (exp8_main_body_failure _ _ _ _ _ Hraise). simpl. split.
      * by intros [cd [=]].
      * intros Hall. destruct (Hall 0%nat molecule eq_refl) as (wf & md & Hok).
        rewrite Nat.add_0_r in Hok.
        by destruct (item_raises_not_succeeds _ _ _ _ _ Hraise Hok).
Qed.

Lemma exp8_main_loop_keys (items : list Exp6.Molecule) (idx : nat)
    (cd0 cd : gmap string json) (k : string) :
  Exp8.main_loop cca idx items cd0 = Ok cd →
  is_Some (cd !! k)
  ↔ is_Some (cd0 !! k)
    ∨ ∃ molecule, molecule ∈ items ∧ Exp6.smiles molecule = k.
Proof.
  revert idx cd0. induction items as [|molecule rest IH]; intros idx cd0; simpl.
  - intros [= <-]. split; [by left|]. intros [H|(m & Hm & _)]; [done|].
    by apply elem_of_nil in Hm.
  - destruct (item_cases cca (query_of molecule) idx)
      as [(wf & md & Hok)|(e & Hraise)].
    2: { by rewrite (exp8_main_body_failure _ _ _ _ _ Hraise). }
    rewrite (exp8_main_body_success _ _ _ _ _ _ Hok). simpl.
    intros Hloop. rewrite (IH _ _ Hloop), is_Some_insert_iff. split.
    + intros [[Hk|Hk]|(m & Hm & Hk)].
      * right. exists molecule. split; [apply list_elem_of_here|done].
      * by left.
      * right. exists m. split; [by apply list_elem_of_further|done].
    + intros [Hk|(m & Hm & Hk)]; [by left; right|].
      apply elem_of_cons in Hm as [->|Hm]; [by left; left|].
      right. by exists m.
Qed.

(** Exp8 writes its output if and only if the three calls of the agent go
    through for every molecule processed; the output then has a key for the
    SMILES string of each of them and no other key. *)
Theorem exp8_all_or_nothing (smiles_data : list Exp6.Molecule)
    (n_structures : Z) :
  ((∃ combined_data,
      Exp8.main cca smiles_data n_structures = Ok combined_data)
   ↔ ∀ i molecule,
       slice_to n_structures smiles_data !! i = Some molecule →
       ∃ llm_workflow state_data,
         item_succeeds cca (query_of molecule) i llm_workflow state_data)
  ∧ ∀ combined_data k,
      Exp8.main cca smiles_data n_structures = Ok combined_data →
      is_Some (combined_data !! k)
      ↔ ∃ molecule,
          molecule ∈ slice_to n_structures smiles_data
          ∧ Exp6.smiles molecule = k.
Proof.
  unfold Exp8.main. split.
  - by rewrite exp8_main_loop_completes_iff.
  - intros cd k Hloop.
    rewrite (exp8_main_loop_keys _ _ _ _ k Hloop), lookup_empty.
    split; [intros [[? [=]]|H]; done|by right].
Qed.

End Exp8Outcome.

(** ** Exp14: the variable [state] *)

Section Exp14State.
Import Agent.
Context {State : Type} (cca : ChemGraph State).

#[local] Abbreviation query_of reaction :=
  ("You are given a chemical reaction: " +:+ Exp14.reaction_equation reaction
   +:+ ". Calculate the enthalpy for this reaction using GFN2-xTB at 400K.").

Lemma exp14_query (reaction : Exp12.Reaction) :
  Exp14.get_query reaction "enthalpy_method" 400 101325 "GFN2-xTB"
  = Ok (query_of reaction).
Proof. reflexivity. Qed.

Lemma slice_to_all {A} (n : Z) (l : list A) :
  (Z.of_nat (length l) ≤ n)%Z → slice_to n l = l.
Proof.
  intros Hn. unfold slice_to.
  destruct (Z.leb_spec 0 n) as [_|?]; [|lia]. apply take_ge. lia.
Qed.

(** One turn of the loop when [run] raises: the turn goes on with the value
    that [state] had. *)
Lemma exp14_main_body_run_raises (idx : nat) (reaction : Exp12.Reaction)
    (state : option State) (cd : gmap string json) (e : exn) :
  run cca (query_of reaction) idx = Raise e →
  Exp14.main_body cca idx reaction (state, cd)
  = match state with
    | None =>
        Raise (Exn UnboundLocalError
                 "cannot access local variable 'state' where it is not associated with a value")
    | Some s =>
        (llm_workflow <- get_workflow_from_state cca s ;;
         state_data <- write_state cca idx ;;
         Ok (Some s,
             <[Exp12.reaction_name reaction :=
                 JDict {[ "llm_workflow" := llm_workflow;
                          "metadata" := state_data ]}]> cd))%result
    end.
Proof.
  intros Hrun. unfold Exp14.main_body. rewrite exp14_query. simpl.
  rewrite Hrun. destruct state as [s|]; [|done].
  destruct (get_workflow_from_state cca s); simpl; [|done].
  destruct (write_state cca idx); simpl; [|done].
  by rewrite set_metadata_entry.
Qed.

Lemma exp14_main_body_run_ok (idx : nat) (reaction : Exp12.Reaction)
    (state : option State) (cd : gmap string json) (s : State)
    (llm_workflow state_data : json) :
  run cca (query_of reaction) idx = Ok s →
  get_workflow_from_state cca s = Ok llm_workflow →
  write_state cca idx = Ok state_data →
  Exp14.main_body cca idx reaction (state, cd)
  = Ok (Some s,
        <[Exp12.reaction_name reaction :=
            JDict {[ "llm_workflow" := llm_workflow;
                     "metadata" := state_data ]}]> cd).
Proof.
  intros H1 H2 H3. unfold Exp14.main_body. rewrite exp14_query. simpl.
  rewrite H1, H2. simpl. rewrite H3. simpl. by rewrite set_metadata_entry.
Qed.

(** When the agent's [run] raises on the first reaction, the handler prints
    the exception and the next statement reads [state], which has no value:
    the script ends with [UnboundLocalError], whatever the other reactions. *)
Theorem exp14_first_run_failure_unbound (reaction : Exp12.Reaction)
    (rest : list Exp12.Reaction) (n_reactions : Z) (e : exn) :
  (0 < n_reactions)%Z →
  run cca (query_of reaction) 0 = Raise e →
  Exp14.main cca (reaction :: rest) n_reactions
  = Raise (Exn UnboundLocalError
             "cannot access local variable 'state' where it is not associated with a value").
Proof.
  intros Hn Hrun. unfold Exp14.main.
  destruct (slice_to_cons n_reactions reaction rest Hn) as [l' ->].
  cbn [Exp14.main_loop].
  by rewrite (exp14_main_body_run_raises _ _ _ _ _ Hrun).
Qed.

(** When [run] raises on a later reaction, the handler prints the exception
    and the script goes on with the [state] of the last reaction on which
    [run] returned: the entry written for the failed reaction holds the
    workflow of that earlier reaction. *)
Theorem exp14_stale_state_reused (first second : Exp12.Reaction)
    (n_reactions : Z) (s : State) (e : exn)
    (llm_workflow state_data0 state_data1 : json) :
  (2 ≤ n_reactions)%Z →
  run cca (query_of first) 0 = Ok s →
  get_workflow_from_state cca s = Ok llm_workflow →
  write_state cca 0 = Ok state_data0 →
  run cca (query_of second) 1 = Raise e →
  write_state cca 1 = Ok state_data1 →
  Exp14.main cca [first; second] n_reactions
  = Ok (<[Exp12.reaction_name second :=
            JDict {[ "llm_workflow" := llm_workflow;
                     "metadata" := state_data1 ]}]>
          (<[Exp12.reaction_name first :=
               JDict {[ "llm_workflow" := llm_workflow;
                        "metadata" := state_data0 ]}]> ∅)).
Proof.
  intros Hn H1 H2 H3 H4 H5. unfold Exp14.main.
  rewrite slice_to_all by (simpl; lia). cbn [Exp14.main_loop].
  rewrite (exp14_main_body_run_ok _ _ _ _ _ _ _ H1 H2 H3). cbn [bind].
  rewrite (exp14_main_body_run_raises _ _ _ _ _ H4). rewrite H2. cbn [bind].
  by rewrite H5.
Qed.

End Exp14State.

(** ** The manual-workflow scripts complete *)

Section ManualMainsComplete.
Import Chem.

(** Whatever the tools do, the two manual-workflow scripts run to the end
    and write their output, provided the git lookup, each time it fails,
    fails with [CalledProcessError]. *)
Theorem manual_mains_complete (tools : Tools) (now : nat → string)
    (git_rev_parse : nat → Py.result string) :
  (∀ idx e, git_rev_parse idx = Raise e → exn_cls e = CalledProcessError) →
  (∀ reactions n_reactions,
     ∃ combined_data,
       Exp12.main tools now git_rev_parse reactions n_reactions
       = Ok combined_data)
  ∧ (∀ smiles_data n_structures,
       ∃ combined_data,
         Exp6.main tools now git_rev_parse smiles_data n_structures
         = Ok combined_data).
Proof.
  intros Hgit. split.
  - intros reactions n. by apply exp12_main_loop_completes.
  - intros smiles_data n. by apply exp6_main_loop_completes.
Qed.

End ManualMainsComplete.

(** ** The properties above on sample data *)

Section FurtherWitnesses.
Import Chem Samples Fixtures Outcome.

Lemma working_tools_species_ok (species : Exp12.Species) :
  species_ok working_tools "enthalpy" 400 tblite species water_returned.
Proof.
  split; [by split|]. eexists _, _. split; [reflexivity|].
  split; reflexivity.
Qed.

Lemma exp12_reaction_value_witness :
  Exp12.get_manual_workflow_result working_tools "enthalpy" 400 tblite
    water_formation
  = Ok (workflow_json
          {| tool_calls :=
               log_of 400 tblite (Exp12.reactants water_formation)
                 [water_returned; water_returned]
               ++ log_of 400 tblite (Exp12.products water_formation)
                    [water_returned];
             result :=
               result_with "enthalpy"
                 (JNum (weighted_sum (Exp12.products water_formation)
                          [water_returned]
                        - weighted_sum (Exp12.reactants water_formation)
                            [water_returned; water_returned])) |}).
Proof.
  apply (exp12_reaction_value working_tools "enthalpy" 400 tblite
           water_formation [water_returned; water_returned] [water_returned]).
  - repeat (constructor; [apply working_tools_species_ok|]). constructor.
  - repeat (constructor; [apply working_tools_species_ok|]). constructor.
Defined.

(** The value of the sample: products [2 * -5], reactants [2 * -5 + 1 * -5]. *)
Example exp12_water_formation_value :
  weighted_sum (Exp12.products water_formation) [water_returned]
  - weighted_sum (Exp12.reactants water_formation)
      [water_returned; water_returned] = 5.
Proof. reflexivity. Qed.

Lemma exp12_first_failure_recorded_witness :
  Exp12.get_manual_workflow_result no_lookup_tools "enthalpy" 400 tblite
    water_formation
  = Ok (workflow_json
          {| tool_calls := log_of 400 tblite [] [] ++ [];
             result :=
               result_with "enthalpy" (JStr "ERROR - lookup failed") |}).
Proof.
  refine (proj1 (exp12_first_failure_recorded no_lookup_tools "enthalpy" 400
                   tblite water_formation [] [oxygen] [] hydrogen
                   lookup_failed [] _ _) _).
  - constructor.
  - apply fails_in_conversion, name_to_smiles_raises. reflexivity.
  - reflexivity.
Defined.

Lemma find_error_on_exp12_entry_witness :
  FindError.flagged
    (JDict {[ "manual_workflow" :=
                workflow_json
                  {| tool_calls := [];
                     result :=
                       result_with "enthalpy"
                         (JStr "ERROR - lookup failed") |};
              "metadata" := Output.metadata "2025-01-01_00-00-00" "0123abc" ]})
  = Ok true.
Proof.
  refine (proj1 (find_error_on_exp12_entry no_lookup_tools "enthalpy" 400 tblite
                   water_formation _
                   (Output.metadata "2025-01-01_00-00-00" "0123abc") _) _).
  - vm_compute. reflexivity.
  - exists hydrogen, lookup_failed. split.
    + apply list_elem_of_here.
    + apply Exp12.conversion_fails, name_to_smiles_raises. reflexivity.
Defined.

Lemma find_error_prints_flagged_witness :
  FindError.find_error
    [("a", error_entry "lookup failed"); ("b", error_entry "no SCF")]
  = (["a"; "b"], Ok ()).
Proof.
  apply (find_error_prints_flagged
           [("a", error_entry "lookup failed"); ("b", error_entry "no SCF")]).
  repeat constructor; exists true; vm_compute; reflexivity.
Defined.

Lemma find_error_stops_at_first_raise_witness :
  FindError.find_error
    ([("a", error_entry "lookup failed")]
     ++ ("b", number_entry 5) :: [("c", error_entry "no SCF")])
  = (fst <$> filter (λ p, FindError.is_flagged p.2 = true)
               [("a", error_entry "lookup failed")],
     Raise (Exn OtherException "argument of type 'int' is not iterable")).
Proof.
  apply (find_error_stops_at_first_raise [("a", error_entry "lookup failed")]
           [("c", error_entry "no SCF")] "b" (number_entry 5)).
  - repeat constructor; exists true; vm_compute; reflexivity.
  - vm_compute. reflexivity.
Defined.

(** The sample of the witness above: only the item before the number is
    printed; the item with an error after it is not reached. *)
Example find_error_sample :
  FindError.find_error
    [("a", error_entry "lookup failed"); ("b", number_entry 5);
     ("c", error_entry "no SCF")]
  = (["a"],
     Raise (Exn OtherException "argument of type 'int' is not iterable")).
Proof. vm_compute. reflexivity. Qed.

End FurtherWitnesses.

Section PubchemWitnesses.
Import Fixtures Pubchem.

Lemma get_random_molecule_names_sound_witness :
  let out :=
    [ {| index := 0; name := "ethanol"; number_of_atoms := 9;
         smiles := "CCO" |};
      {| index := 1; name := "acetone"; number_of_atoms := 10;
         smiles := "CC(=O)C" |} ] in
  get_random_molecule_names two_compounds 20 6 [5; 702; 702; 180] 2 = Some out
  ∧ Z.of_nat (length out) = Z.max 0 2
  ∧ ∀ i m, out !! i = Some m →
           index m = i ∧ well_sourced two_compounds 20 6 m.
Proof.
  intros out. split; [vm_compute; reflexivity|].
  apply (get_random_molecule_names_sound two_compounds 20 6
           [5; 702; 702; 180] 2 out).
  vm_compute. reflexivity.
Defined.

Lemma get_random_molecule_names_empty_range_witness :
  get_random_molecule_names two_compounds 10 9 [5; 702; 702; 180] 1 = None.
Proof.
  apply (get_random_molecule_names_empty_range two_compounds 10 9
           [5; 702; 702; 180] 1); lia.
Defined.

Lemma get_random_molecule_names_returns_witness :
  ∃ out,
    get_random_molecule_names two_compounds 20 6 [702; 180] 2 = Some out
    ∧ Z.of_nat (length out) = Z.max 0 2.
Proof.
  apply (get_random_molecule_names_returns two_compounds 20 6 [702; 180] 2).
  - apply NoDup_cons. split; [|apply NoDup_singleton].
    intros H%list_elem_of_singleton. discriminate H.
  - repeat constructor; vm_compute; eexists; reflexivity.
  - simpl. lia.
Defined.

End PubchemWitnesses.

Section EvaluateModelWitnesses.
Import Samples Fixtures MockEval Outcome.


(** One of the two queries is answered as expected: 50 percent. *)
Example evaluate_model_half :
  evaluate_model water_run water_extract (@nil unit)
    [water_query; methane_query]
  = Ok (inject_Z 1 / inject_Z 2 * 100)%Q.
Proof. vm_compute. reflexivity. Qed.

Lemma evaluate_model_perfect_witness :
  ∃ accuracy,
    evaluate_model water_run water_extract (@nil unit) [water_query]
    = Ok accuracy
    ∧ (accuracy == 100)%Q.
Proof.
  apply (evaluate_model_perfect water_run water_extract (@nil unit)
           [water_query] [water_workflow]).
  - discriminate.
  - simpl. split; [by exists ()|done].
  - repeat constructor.
Defined.

Lemma evaluate_model_first_failure_witness :
  evaluate_model run_once water_extract (@nil unit)
    ([water_query] ++ methane_query :: [water_query])
  = Raise (Exn OtherException "rate limit").
Proof.
  apply (evaluate_model_first_failure run_once water_extract (@nil unit)
           [water_query] [water_query] methane_query [water_workflow]).
  - simpl. split; [by exists ()|done].
  - left. reflexivity.
Defined.

End EvaluateModelWitnesses.

Section Exp6Witnesses.
Import Chem Samples Fixtures.

Lemma exp6_missing_output_key_witness :
  Exp6.get_vibrational_frequencies_from_molecule_name bare_tools "water"
    mace_mp
  = Ok (JStr "Error message: 'frequencies'").
Proof.
  refine (proj1 (exp6_missing_output_key bare_tools "water" mace_mp "O"
                   water_atoms
                   {| schema_fields :=
                        {| atomsdata := water_atoms; driver := "vib";
                           calculator := mace_mp; temperature := None |} |}
                   bare_output _ _) _ _).
  - split; reflexivity.
  - reflexivity.
  - reflexivity.
  - reflexivity.
Defined.

Lemma exp6_saved_file_io_failure_witness :
  Exp6.get_saved_file_from_molecule_name read_only_tools "water" mace_mp
    "manual_files"
  = Ok (JStr "Error message: Read-only file system").
Proof.
  apply (exp6_saved_file_io_failure read_only_tools "water" mace_mp
           "manual_files" "O" water_atoms
           {| schema_fields :=
                {| atomsdata := water_atoms; driver := "opt";
                   calculator := mace_mp; temperature := None |} |}
           water_output (Exn OtherException "Read-only file system")).
  - split; reflexivity.
  - reflexivity.
  - reflexivity.
  - left. reflexivity.
Defined.

Lemma exp6_main_stores_error_string_witness :
  Exp6.main_body no_run_tools clock git_ok 0 water ∅
  = Ok (<[Exp6.name water :=
            JDict {[ "manual_workflow" :=
                       JStr "Error message: SCF did not converge";
                     "metadata" :=
                       Output.metadata "2025-01-01_00-00-00" "0123abc" ]}]> ∅).
Proof.
  refine (proj2 (exp6_main_stores_error_string no_run_tools clock git_ok 0
                   water ∅ (Exn OtherException "SCF did not converge")
                   (Output.metadata "2025-01-01_00-00-00" "0123abc") _)
            "O" water_atoms _ _).
  - reflexivity.
  - split; reflexivity.
  - eapply run_ase_raises; reflexivity.
Defined.

Lemma manual_mains_complete_witness :
  (∃ combined_data,
     Exp12.main no_lookup_tools clock git_not_a_repository
       [water_formation; methane_combustion] 10 = Ok combined_data)
  ∧ ∃ combined_data,
      Exp6.main no_run_tools clock git_not_a_repository [water; methane] 15
      = Ok combined_data.
Proof.
  destruct (manual_mains_complete no_lookup_tools clock git_not_a_repository)
    as [H12 _].
  { intros idx e [= <-]. reflexivity. }
  destruct (manual_mains_complete no_run_tools clock git_not_a_repository)
    as [_ H6].
  { intros idx e [= <-]. reflexivity. }
  split; [apply H12|apply H6].
Defined.

End Exp6Witnesses.

Section OutputKeyWitnesses.
Import Chem Samples Fixtures.

Lemma exp12_output_keys_witness :
  ∃ combined_data,
    Exp12.main working_tools clock git_ok
      [water_formation; methane_combustion] 1 = Ok combined_data
    ∧ is_Some (combined_data !! "water formation")
    ∧ ¬ is_Some (combined_data !! "methane combustion").
Proof.
  destruct (exp12_main_loop_completes working_tools clock git_ok
              (slice_to 1 [water_formation; methane_combustion]) 0 ∅)
    as [cd Hcd].
  { intros i e H. discriminate H. }
  exists cd. split; [exact Hcd|].
  split.
  - apply (exp12_output_keys working_tools clock git_ok
             [water_formation; methane_combustion] 1 cd "water formation"
             Hcd).
    exists water_formation. split; [apply list_elem_of_here|reflexivity].
  - intros Hkey.
    apply (exp12_output_keys working_tools clock git_ok
             [water_formation; methane_combustion] 1 cd "methane combustion"
             Hcd) in Hkey.
    destruct Hkey as (r & Hr & Hname).
    apply list_elem_of_singleton in Hr. subst r. discriminate Hname.
Defined.

Lemma exp6_output_keys_witness :
  ∃ combined_data,
    Exp6.main no_lookup_tools clock git_ok [water; methane] 15
    = Ok combined_data
    ∧ ¬ is_Some (combined_data !! "water").
Proof.
  eexists. split; [vm_compute; reflexivity|].
  intros Hkey.
  apply (exp6_output_keys no_lookup_tools clock git_ok [water; methane] 15 _
           "water" ltac:(vm_compute; reflexivity)) in Hkey.
  destruct Hkey as (m & _ & _ & wf & Hwf).
  vm_compute in Hwf. discriminate Hwf.
Defined.

Lemma exp3_output_keys_witness :
  ∃ combined_data,
    Exp3.main first_run_fails [water; methane] 30 = Ok combined_data
    ∧ (is_Some (combined_data !! "water")
       ↔ ∃ molecule,
           molecule ∈ slice_to 30 [water; methane]
           ∧ Exp6.name molecule = "water").
Proof.
  exact (exp3_output_keys first_run_fails [water; methane] 30 "water").
Defined.

Lemma exp8_all_or_nothing_witness :
  ∃ combined_data,
    Exp8.main working_agent [water; methane] 30 = Ok combined_data.
Proof.
  apply (proj1 (exp8_all_or_nothing working_agent [water; methane] 30)).
  intros i molecule Hi. exists
    (JDict {[ "tool_calls" := JList []; "result" := JStr "done" ]}),
    (JDict {[ "timestamp" := JStr "2025-01-01_00-00-00";
              "git_commit" := JStr "0123abc" ]}).
  exists (). split; [reflexivity|]. split; reflexivity.
Defined.

End OutputKeyWitnesses.

Section Exp14Witnesses.
Import Samples Fixtures.

Lemma exp14_first_run_failure_unbound_witness :
  Exp14.main first_run_fails [water_formation; methane_combustion] 10
  = Raise (Exn UnboundLocalError
             "cannot access local variable 'state' where it is not associated with a value").
Proof.
  apply (exp14_first_run_failure_unbound first_run_fails water_formation
           [methane_combustion] 10 (Exn OtherException "rate limit")).
  - lia.
  - reflexivity.
Defined.

Lemma exp14_stale_state_reused_witness :
  Exp14.main later_runs_fail [water_formation; methane_combustion] 10
  = Ok (<["methane combustion" :=
            JDict {[ "llm_workflow" :=
                       JDict {[ "tool_calls" := JList [];
                                "result" := JStr "done" ]};
                     "metadata" :=
                       JDict {[ "timestamp" := JStr "2025-01-01_00-00-00";
                                "git_commit" := JStr "0123abc" ]} ]}]>
          (<["water formation" :=
               JDict {[ "llm_workflow" :=
                          JDict {[ "tool_calls" := JList [];
                                   "result" := JStr "done" ]};
                        "metadata" :=
                          JDict {[ "timestamp" := JStr "2025-01-01_00-00-00";
                                   "git_commit" := JStr "0123abc" ]} ]}]> ∅)).
Proof.
  apply (exp14_stale_state_reused later_runs_fail water_formation
           methane_combustion 10 () (Exn OtherException "rate limit")).
  - lia.
  - reflexivity.
  - reflexivity.
  - reflexivity.
  - reflexivity.
  - reflexivity.
Defined.

End Exp14Witnesses.

(** ** Each item's entry is its own *)

Section OwnEntries.
Import Chem Agent.

Lemma exp12_main_body_inv (tools : Tools) (now : nat → string)
    (git_rev_parse : nat → Py.result string) (idx : nat)
    (reaction : Exp12.Reaction) (cd cd' : gmap string json) :
  Exp12.main_body tools now git_rev_parse idx reaction cd = Ok cd' →
  ∃ manual_workflow metadata,
    Exp12.get_manual_workflow_result tools "enthalpy" 400
      {[ "calculator_type" := JStr "TBLite"; "method" := JStr "GFN2-xTB" ]}
      reaction = Ok manual_workflow
    ∧ collect_metadata now git_rev_parse idx = Ok metadata
    ∧ cd' = <[Exp12.reaction_name reaction :=
                JDict {[ "manual_workflow" := manual_workflow;
                         "metadata" := metadata ]}]> cd.
Proof.
  unfold Exp12.main_body.
  destruct (Exp12.get_manual_workflow_result tools "enthalpy" 400 _ reaction)
    as [wf|]; simpl; [|done].
  destruct (collect_metadata now git_rev_parse idx) as [md|]; simpl; [|done].
  intros [= <-]. exists wf, md. by rewrite set_metadata_entry.
Qed.

Lemma exp12_main_loop_other_keys (tools : Tools) (now : nat → string)
    (git_rev_parse : nat → Py.result string) (items : list Exp12.Reaction)
    (idx : nat) (cd0 cd : gmap string json) (k : string) :
  Exp12.main_loop tools now git_rev_parse idx items cd0 = Ok cd →
  k ∉ Exp12.reaction_name <$> items →
  cd !! k = cd0 !! k.
Proof.
  revert idx cd0. induction items as [|reaction rest IH]; intros idx cd0;
    cbn [Exp12.main_loop].
  - by intros [= <-].
  - destruct (Exp12.main_body tools now git_rev_parse idx reaction cd0)
      as [cd1|] eqn:Hbody; cbn [bind]; [|done].
    apply exp12_main_body_inv in Hbody as (wf & md & _ & _ & ->).
    intros Hloop Hk. rewrite fmap_cons, not_elem_of_cons in Hk.
    destruct Hk as [Hne Hk].
    rewrite (IH _ _ Hloop Hk). by rewrite lookup_insert_ne.
Qed.

(** When the reactions processed have different names, the entry of each
    reaction holds the workflow computed for that reaction and the metadata
    collected in its own turn of the loop. *)
Theorem exp12_entry_of_each_reaction (tools : Tools) (now : nat → string)
    (git_rev_parse : nat → Py.result string) (reactions : list Exp12.Reaction)
    (n_reactions : Z) (combined_data : gmap string json) (i : nat)
    (reaction : Exp12.Reaction) :
  Exp12.main tools now git_rev_parse reactions n_reactions = Ok combined_data →
  NoDup (Exp12.reaction_name <$> slice_to n_reactions reactions) →
  slice_to n_reactions reactions !! i = Some reaction →
  ∃ manual_workflow metadata,
    Exp12.get_manual_workflow_result tools "enthalpy" 400
      {[ "calculator_type" := JStr "TBLite"; "method" := JStr "GFN2-xTB" ]}
      reaction = Ok manual_workflow
    ∧ collect_metadata now git_rev_parse i = Ok metadata
    ∧ combined_data !! Exp12.reaction_name reaction
      = Some (JDict {[ "manual_workflow" := manual_workflow;
                       "metadata" := metadata ]}).
Proof.
  unfold Exp12.main.
  generalize (slice_to n_reactions reactions) as items.
  generalize (∅ : gmap string json) as cd0.
  assert (∀ items idx cd0,
    Exp12.main_loop tools now git_rev_parse idx items cd0 = Ok combined_data →
    NoDup (Exp12.reaction_name <$> items) →
    items !! i = Some reaction →
    ∃ manual_workflow metadata,
      Exp12.get_manual_workflow_result tools "enthalpy" 400
        {[ "calculator_type" := JStr "TBLite"; "method" := JStr "GFN2-xTB" ]}
        reaction = Ok manual_workflow
      ∧ collect_metadata now git_rev_parse (idx + i) = Ok metadata
      ∧ combined_data !! Exp12.reaction_name reaction
        = Some (JDict {[ "manual_workflow" := manual_workflow;
                         "metadata" := metadata ]})) as Hgen.
  { clear. revert i. intros i items. revert i.
    induction items as [|r rest IH]; intros i idx cd0; cbn [Exp12.main_loop];
      [done|].
    destruct (Exp12.main_body tools now git_rev_parse idx r cd0)
      as [cd1|] eqn:Hbody; cbn [bind]; [|done].
    apply exp12_main_body_inv in Hbody as (wf & md & Hwf & Hmd & ->).
    intros Hloop Hnodup Hi. rewrite fmap_cons in Hnodup.
    apply NoDup_cons in Hnodup as [Hfresh Hnodup].
    destruct i as [|i]; simpl in Hi.
    - injection Hi as <-. exists wf, md. rewrite Nat.add_0_r.
      split; [done|]. split; [done|].
      rewrite (exp12_main_loop_other_keys _ _ _ _ _ _ _ _ Hloop Hfresh).
      by rewrite lookup_insert_eq.
    - rewrite <- Nat.add_succ_comm. by eapply IH. }
  intros cd0 items Hloop Hnodup Hi.
  by apply (Hgen items 0%nat cd0).
Qed.

Context {State : Type} (cca : ChemGraph State).

#[local] Abbreviation query_of molecule :=
  ("Perform geometry optimization for a molecule " +:+ Exp6.name molecule
   +:+ " using NWChem, PBE and sto-3g").

Lemma exp3_main_loop_other_keys (items : list Exp6.Molecule) (idx : nat)
    (cd0 cd : gmap string json) (k : string) :
  Exp3.main_loop cca idx items cd0 = Ok cd →
  k ∉ Exp6.name <$> items →
  cd !! k = cd0 !! k.
Proof.
  revert idx cd0. induction items as [|molecule rest IH]; intros idx cd0;
    cbn [Exp3.main_loop].
  - by intros [= <-].
  - destruct (exp3_main_body_total cca idx molecule cd0) as (v & -> & _).
    cbn [bind]. intros Hloop Hk. rewrite fmap_cons, not_elem_of_cons in Hk.
    destruct Hk as [Hne Hk].
    rewrite (IH _ _ Hloop Hk). by rewrite lookup_insert_ne.
Qed.

Lemma exp3_main_loop_entry (items : list Exp6.Molecule) (idx : nat)
    (cd0 cd : gmap string json) (i : nat) (molecule : Exp6.Molecule) :
  Exp3.main_loop cca idx items cd0 = Ok cd →
  NoDup (Exp6.name <$> items) →
  items !! i = Some molecule →
  (∀ llm_workflow state_data,
     item_succeeds cca (query_of molecule) (idx + i) llm_workflow state_data →
     cd !! Exp6.name molecule
     = Some (JDict {[ "llm_workflow" := llm_workflow;
                      "metadata" := state_data ]}))
  ∧ (∀ e,
       item_raises cca (query_of molecule) (idx + i) e →
       cd !! Exp6.name molecule
       = Some (JDict {[ "llm_workflow" :=
                 JDict {[ "result" :=
                            JStr ("Error with running LLM: " +:+ exn_msg e);
                          "tool_calls" := JList [] ]} ]})).
Proof.
  revert i idx cd0. induction items as [|m rest IH]; intros i idx cd0;
    cbn [Exp3.main_loop]; [done|].
  intros Hloop Hnodup Hi. rewrite fmap_cons in Hnodup.
  apply NoDup_cons in Hnodup as [Hfresh Hnodup].
  destruct i as [|i]; simpl in Hi.
  - injection Hi as ->. rewrite Nat.add_0_r. split.
    + intros wf md Hok.
      rewrite (exp3_main_body_success cca _ _ _ _ _ Hok) in Hloop.
      cbn [bind] in Hloop.
      rewrite (exp3_main_loop_other_keys _ _ _ _ _ Hloop Hfresh).
      by rewrite lookup_insert_eq.
    + intros e Hraise.
      rewrite (exp3_main_body_failure cca _ _ _ _ Hraise) in Hloop.
      cbn [bind] in Hloop.
      rewrite (exp3_main_loop_other_keys _ _ _ _ _ Hloop Hfresh).
      by rewrite lookup_insert_eq.
  - destruct (exp3_main_body_total cca idx m cd0) as (v & Hv & _).
    rewrite Hv in Hloop. cbn [bind] in Hloop.
    rewrite <- Nat.add_succ_comm. by eapply IH.
Qed.

(** When the molecules processed have different names, the entry of each
    molecule in the output of Exp3 tells what happened on that molecule: the
    workflow and the state data when the agent's three calls went through
    for it, the error message of its own failure otherwise. *)
Theorem exp3_entry_of_each_molecule (smiles_data : list Exp6.Molecule)
    (n_structures : Z) (combined_data : gmap string json) (i : nat)
    (molecule : Exp6.Molecule) :
  Exp3.main cca smiles_data n_structures = Ok combined_data →
  NoDup (Exp6.name <$> slice_to n_structures smiles_data) →
  slice_to n_structures smiles_data !! i = Some molecule →
  (∀ llm_workflow state_data,
     item_succeeds cca (query_of molecule) i llm_workflow state_data →
     combined_data !! Exp6.name molecule
     = Some (JDict {[ "llm_workflow" := llm_workflow;
                      "metadata" := state_data ]}))
  ∧ (∀ e,
       item_raises cca (query_of molecule) i e →
       combined_data !! Exp6.name molecule
       = Some (JDict {[ "llm_workflow" :=
                 JDict {[ "result" :=
                            JStr ("Error with running LLM: " +:+ exn_msg e);
                          "tool_calls" := JList [] ]} ]})).
Proof.
  unfold Exp3.main. intros Hloop Hnodup Hi.
  by apply (exp3_main_loop_entry (slice_to n_structures smiles_data) 0%nat ∅
              combined_data i molecule).
Qed.

(** With two items of the same name, the entry of the later one replaces
    that of the earlier one. *)
Example exp3_same_name_last_wins :
  Exp3.main Samples.first_run_fails [Samples.water; Samples.water] 30
  = Ok {[ "water" :=
            JDict {[ "llm_workflow" :=
                       JDict {[ "tool_calls" := JList [];
                                "result" := JStr "done" ]};
                     "metadata" :=
                       JDict {[ "timestamp" := JStr "2025-01-01_00-00-00";
                                "git_commit" := JStr "0123abc" ]} ]} ]}.
Proof. vm_compute. reflexivity. Qed.

End OwnEntries.

Section OwnEntriesWitnesses.
Import Chem Samples Fixtures.

Lemma exp12_entry_of_each_reaction_witness :
  ∃ combined_data manual_workflow metadata,
    Exp12.main working_tools clock git_not_a_repository
      [water_formation; methane_combustion] 10 = Ok combined_data
    ∧ Exp12.get_manual_workflow_result working_tools "enthalpy" 400
        {[ "calculator_type" := JStr "TBLite"; "method" := JStr "GFN2-xTB" ]}
        methane_combustion = Ok manual_workflow
    ∧ collect_metadata clock git_not_a_repository 1 = Ok metadata
    ∧ combined_data !! Exp12.reaction_name methane_combustion
      = Some (JDict {[ "manual_workflow" := manual_workflow;
                       "metadata" := metadata ]}).
Proof.
  destruct (exp12_main_loop_completes working_tools clock git_not_a_repository
              (slice_to 10 [water_formation; methane_combustion]) 0 ∅)
    as [cd Hcd].
  { intros i e [= <-]. reflexivity. }
  destruct (exp12_entry_of_each_reaction working_tools clock
              git_not_a_repository [water_formation; methane_combustion] 10 cd
              1 methane_combustion Hcd)
    as (wf & md & Hwf & Hmd & Hentry).
  - apply NoDup_cons. split; [|apply NoDup_singleton].
    intros H%list_elem_of_singleton. discriminate H.
  - reflexivity.
  - exists cd, wf, md. split; [exact Hcd|]. by split.
Defined.

Lemma exp3_entry_of_each_molecule_witness :
  ∃ combined_data,
    Exp3.main first_run_fails [water; methane] 30 = Ok combined_data
    ∧ combined_data !! "water"
      = Some (JDict {[ "llm_workflow" :=
                JDict {[ "result" :=
                           JStr "Error with running LLM: rate limit";
                         "tool_calls" := JList [] ]} ]}).
Proof.
  eexists. split; [vm_compute; reflexivity|].
  refine (proj2 (exp3_entry_of_each_molecule first_run_fails [water; methane]
                   30 _ 0 water ltac:(vm_compute; reflexivity) _ _)
            (Exn OtherException "rate limit") _).
  - vm_compute. apply NoDup_cons. split; [|apply NoDup_singleton].
    intros H%list_elem_of_singleton. discriminate H.
  - reflexivity.
  - apply Agent.run_raises. reflexivity.
Defined.

End OwnEntriesWitnesses.

(** ** Containment of failures and shape of the output, over whole runs *)

Section WholeRuns.
Import Chem Agent Output Outcome.


Lemma exp14_main_loop_keys {State} (cca : ChemGraph State)
    (items : list Exp12.Reaction) (idx : nat) (state state' : option State)
    (cd0 cd : gmap string json) (k : string) :
  Exp14.main_loop cca idx items (state, cd0) = Ok (state', cd) →
  is_Some (cd !! k)
  ↔ is_Some (cd0 !! k)
    ∨ ∃ reaction, reaction ∈ items ∧ Exp12.reaction_name reaction = k.
Proof.
  revert idx state cd0.
  induction items as [|reaction rest IH]; intros idx state cd0;
    cbn [Exp14.main_loop].
  - intros [= <- <-]. split; [by left|]. intros [H|(r & Hr & _)]; [done|].
    by apply elem_of_nil in Hr.
  - destruct (Exp14.main_body cca idx reaction (state, cd0))
      as [[st1 cd1]|] eqn:Hb; cbn [bind]; [|done].
    apply exp14_main_body_entry in Hb as (v & _ & ->).
    intros Hloop. rewrite (IH _ _ _ Hloop), is_Some_insert_iff. split.
    + intros [[Hk|Hk]|(r & Hr & Hk)].
      * right. exists reaction. split; [apply list_elem_of_here|done].
      * by left.
      * right. exists r. split; [by apply list_elem_of_further|done].
    + intros [Hk|(r & Hr & Hk)]; [by left; right|].
      apply elem_of_cons in Hr as [->|Hr]; [by left; left|].
      right. by exists r.
Qed.



(** C6, as amended.  In the output of the manual-workflow scripts (Exp12,
    Exp6) every key is bound to an object with the entries
    [manual_workflow] and [metadata], the latter with the two fields
    [timestamp] and [git_commit]; the keys of the output of Exp12 are the
    names of the reactions processed, those of Exp6 the names of the
    molecules processed whose workflow function returned.  In the output of
    Exp8 and of Exp14 every key is bound to an object with the entries
    [llm_workflow] and [metadata], where the metadata is what the agent's
    [write_state] returned; the keys are the SMILES strings (Exp8) or the
    names of the reactions (Exp14) processed.  In the output of Exp3 the keys
    are the names of the molecules processed, and every key is bound either
    to such an object or to an object with the single entry [llm_workflow],
    holding an error message and an empty list of tool calls.  When the
    molecules processed by Exp3 have different names, a molecule for which
    the calls of the agent went through is bound to the former, and a
    molecule whose processing raised to the latter, with the message of its
    own failure. *)
Theorem C6_shape_of_output_entries :
  (∀ tools now git_rev_parse reactions n_reactions combined_data,
     Exp12.main tools now git_rev_parse reactions n_reactions
     = Ok combined_data →
     map_Forall (λ _, manual_entry) combined_data
     ∧ ∀ k,
         is_Some (combined_data !! k)
         ↔ ∃ reaction,
             reaction ∈ slice_to n_reactions reactions
             ∧ Exp12.reaction_name reaction = k)
  ∧ (∀ tools now git_rev_parse smiles_data n_structures combined_data,
       Exp6.main tools now git_rev_parse smiles_data n_structures
       = Ok combined_data →
       map_Forall (λ _, manual_entry) combined_data
       ∧ ∀ k,
           is_Some (combined_data !! k)
           ↔ ∃ molecule,
               molecule ∈ slice_to n_structures smiles_data
               ∧ Exp6.name molecule = k
               ∧ ∃ manual_workflow,
                   Exp6.get_saved_file_from_molecule_name tools
                     (Exp6.name molecule)
                     {[ "calculator_type" := JStr "mace_mp" ]} "manual_files"
                   = Ok manual_workflow)
  ∧ (∀ State (cca : ChemGraph State) smiles_data n_structures combined_data,
       Exp3.main cca smiles_data n_structures = Ok combined_data →
       map_Forall (λ _ v, llm_entry cca v ∨ llm_error_entry v) combined_data
       ∧ (∀ k,
            is_Some (combined_data !! k)
            ↔ ∃ molecule,
                molecule ∈ slice_to n_structures smiles_data
                ∧ Exp6.name molecule = k)
       ∧ (NoDup (Exp6.name <$> slice_to n_structures smiles_data) →
          ∀ i molecule,
            slice_to n_structures smiles_data !! i = Some molecule →
            (∀ llm_workflow state_data,
               item_succeeds cca
                 ("Perform geometry optimization for a molecule "
                  +:+ Exp6.name molecule +:+ " using NWChem, PBE and sto-3g")
                 i llm_workflow state_data →
               combined_data !! Exp6.name molecule
               = Some (JDict {[ "llm_workflow" := llm_workflow;
                                "metadata" := state_data ]}))
            ∧ (∀ e,
                 item_raises cca
                   ("Perform geometry optimization for a molecule "
                    +:+ Exp6.name molecule
                    +:+ " using NWChem, PBE and sto-3g") i e →
                 combined_data !! Exp6.name molecule
                 = Some (JDict {[ "llm_workflow" :=
                           JDict {[ "result" :=
                                      JStr ("Error with running LLM: "
                                            +:+ exn_msg e);
                                    "tool_calls" := JList [] ]} ]}))))
  ∧ (∀ State (cca : ChemGraph State) smiles_data n_structures combined_data,
       Exp8.main cca smiles_data n_structures = Ok combined_data →
       map_Forall (λ _, llm_entry cca) combined_data
       ∧ ∀ k,
           is_Some (combined_data !! k)
           ↔ ∃ molecule,
               molecule ∈ slice_to n_structures smiles_data
               ∧ Exp6.smiles molecule = k)
  ∧ (∀ State (cca : ChemGraph State) reactions n_reactions combined_data,
       Exp14.main cca reactions n_reactions = Ok combined_data →
       map_Forall (λ _, llm_entry cca) combined_data
       ∧ ∀ k,
           is_Some (combined_data !! k)
           ↔ ∃ reaction,
               reaction ∈ slice_to n_reactions reactions
               ∧ Exp12.reaction_name reaction = k).
Proof.
  split; [|split; [|split; [|split]]].
  - intros * Hmain. unfold Exp12.main in Hmain. split.
    + apply exp12_main_loop_entries in Hmain as (Hall & _ & _);
        [done|apply map_Forall_empty].
    + intros k. rewrite (exp12_main_loop_keys _ _ _ _ _ _ _ k Hmain),
        lookup_empty.
      split; [intros [[? [=]]|H]; done|by right].
  - intros * Hmain. unfold Exp6.main in Hmain. split.
    + apply exp6_main_loop_entries in Hmain; [done|apply map_Forall_empty].
    + intros k. rewrite (exp6_main_loop_keys _ _ _ _ _ _ _ k Hmain),
        lookup_empty.
      split; [intros [[? [=]]|H]; done|by right].
  - intros State cca data n cd Hmain. unfold Exp3.main in Hmain.
    split; [|split].
    + destruct (exp3_main_loop_total cca (slice_to n data) 0 ∅)
        as (cd' & Hloop & Hall & _); [apply map_Forall_empty|].
      rewrite Hloop in Hmain. by injection Hmain as <-.
    + intros k. rewrite (exp3_main_loop_keys cca _ _ _ _ k Hmain),
        lookup_empty.
      split; [intros [[? [=]]|H]; done|by right].
    + intros Hnodup i molecule Hi.
      by apply (exp3_main_loop_entry cca (slice_to n data) 0%nat ∅ cd i
                  molecule).
  - intros State cca data n cd Hmain. unfold Exp8.main in Hmain. split.
    + apply exp8_main_loop_entries in Hmain; [done|apply map_Forall_empty].
    + intros k. rewrite (exp8_main_loop_keys cca _ _ _ _ k Hmain),
        lookup_empty.
      split; [intros [[? [=]]|H]; done|by right].
  - intros State cca reactions n cd Hmain. unfold Exp14.main in Hmain.
    destruct (Exp14.main_loop cca 0 _ (None, ∅)) as [[state' cd']|] eqn:Hloop;
      simpl in Hmain; [|done].
    injection Hmain as <-. split.
    + apply exp14_main_loop_entries in Hloop; [done|apply map_Forall_empty].
    + intros k. rewrite (exp14_main_loop_keys cca _ _ _ _ _ _ k Hloop),
        lookup_empty.
      split; [intros [[? [=]]|H]; done|by right].
Qed.

Lemma C6_witness :
  ∃ combined_data,
    Exp12.main Samples.working_tools Samples.clock Samples.git_ok
      [Samples.water_formation] 10 = Ok combined_data
    ∧ map_Forall (λ _, manual_entry) combined_data
    ∧ is_Some (combined_data !! "water formation").
Proof.
  destruct (exp12_main_loop_completes Samples.working_tools Samples.clock
              Samples.git_ok (slice_to 10 [Samples.water_formation]) 0 ∅)
    as [cd Hcd].
  { intros i e H. discriminate H. }
  exists cd. split; [exact Hcd|].
  destruct (proj1 C6_shape_of_output_entries Samples.working_tools
              Samples.clock Samples.git_ok [Samples.water_formation] 10 cd Hcd)
    as [Hall Hkeys].
  split; [exact Hall|].
  apply Hkeys. exists Samples.water_formation.
  split; [apply list_elem_of_here|reflexivity].
Defined.

End WholeRuns.
